(** * Horse-racing selector: a shallow embedding of the race engine,
      the selection routine and the storage layer, with the properties
      the specification states about them.

    Sources embedded here:
    - [src/js/race.js]    : class [HorseState], object [Race];
    - [src/js/wheel.js]   : [Wheel.getRandomUserIndex] (the routine that
                            race.js copies);
    - [src/js/storage.js] : object [Storage] (users, history, last
                            selection, statistics, settings, first visit,
                            reset, backup and restore).

    Numbers: JavaScript numbers are IEEE doubles.  Positions, times and
    speeds are embedded as rationals ([Q]) with exact arithmetic; every
    comparison of the source is a comparison of rationals here.  The
    properties below only depend on the comparisons and assignments of the
    source, not on rounding.  Counters and sequence numbers are integers.
    A rational stands for a finite number only: where the source divides
    by zero it goes on with [Infinity] or [NaN], which [Q] does not have
    (its [x / 0] is [0]).  The two such places are the constructor of
    [HorseState] ([totalDuration = 0]) and the final-stretch quotient of
    [update] ([totalDuration = finalStretchStart]); the properties that
    reach them carry the hypothesis that excludes the case.  The
    percentages of the statistics, whose printed digits do depend on
    rounding, are computed on doubles ([Double]).

    Randomness and time: [Math.random()] is the stream [random : nat -> Q]
    read through a call counter; [Date.now()], [new Date().toISOString()]
    and [performance.now()] are arguments of the embedded functions. *)

From Stdlib Require Import QArith Qround Qminmax Lqa ZArith Lia List String Ascii.
From Stdlib Require Import DecimalString Decimal Sorted.
From Stdlib Require PrimFloat FloatOps SpecFloat.
From stdpp Require Import gmap strings list.
Import ListNotations.

Local Open Scope Z_scope.

(** ** JavaScript comparisons on numbers *)

(** [x < y] *)
Definition Qltb (x y : Q) : bool := negb (Qle_bool y x).
(** [x >= y] *)
Definition Qgeb (x y : Q) : bool := Qle_bool y x.

(** [Math.floor] *)
Definition Math_floor (x : Q) : Z := Qfloor x.

(** The decimal literals of the source. *)
Definition d0_7  : Q := 7 # 10.
Definition d0_3  : Q := 3 # 10.
Definition d0_8  : Q := 8 # 10.
Definition d0_25 : Q := 25 # 100.
Definition d0_92 : Q := 92 # 100.
Definition d0_15 : Q := 15 # 100.
Definition d0_95 : Q := 95 # 100.
Definition d0_6  : Q := 6 # 10.
Definition d1_2  : Q := 12 # 10.

(** ** race.js: class HorseState *)

Module HorseState.

Local Open Scope Q_scope.

Record SpeedChange := mkChange {
  time : Q;
  multiplier : Q
}.

Record t := mk {
  index : Z;
  userId : string;
  userName : string;
  color : string;
  isWinner : bool;
  position : Q;
  raceDistance : Q;
  totalDuration : Q;
  baseSpeed : Q;
  velocity : Q;
  speedChanges : list SpeedChange;
  currentSpeedIndex : nat;
  finalStretchStart : Q
}.

(** [changes.sort((a, b) => a.time - b.time)]: a stable sort by time. *)
Fixpoint insertByTime (c : SpeedChange) (l : list SpeedChange) : list SpeedChange :=
  match l with
  | [] => [c]
  | d :: r => if Qle_bool (time d - time c) 0 then d :: insertByTime c r
              else c :: d :: r
  end.

Definition sortByTime (l : list SpeedChange) : list SpeedChange :=
  fold_left (fun acc c => insertByTime c acc) l [].

Section Entropy.
(** [random k] is the value of the k-th call of [Math.random()]. *)
Variable random : nat -> Q.

(** The body of the [for] loop of [generateSpeedChanges]; [todo] counts
    the iterations left, [i] is the loop variable, [k] the number of
    [Math.random()] calls made so far. *)
Fixpoint generateLoop (todo : nat) (i numChanges : Z) (T : Q) (k : nat)
    (changes : list SpeedChange) : list SpeedChange * nat :=
  match todo with
  | O => (changes, k)
  | S todo' =>
      let timePoint := (T / inject_Z (numChanges + 1)%Z) * inject_Z (i + 1)%Z in
      let speedMultiplier := d0_6 + random k * d1_2 in
      generateLoop todo' (i + 1)%Z numChanges T (S k)
                   (changes ++ [mkChange timePoint speedMultiplier])
  end.

Definition generateSpeedChanges (T : Q) (k : nat) : list SpeedChange * nat :=
  let numChanges := (6 + Math_floor (random k * 5))%Z in
  let '(changes, k') := generateLoop (Z.to_nat numChanges) 0%Z numChanges T (S k) [] in
  (sortByTime changes, k').

(** [new HorseState(index, userId, userName, color, isWinner,
    totalDuration, raceDistance)]; returns the object and the advanced
    call counter of [Math.random()].  For [totalDuration <> 0]: at 0 the
    source has [baseSpeed = raceDistance / 0], which is not a rational. *)
Definition new (index : Z) (userId userName color : string) (isWinner : bool)
    (totalDuration raceDistance : Q) (k : nat) : t * nat :=
  let baseSpeed := raceDistance / totalDuration in
  let '(changes, k') := generateSpeedChanges totalDuration k in
  (mk index userId userName color isWinner 50 raceDistance totalDuration
      baseSpeed baseSpeed changes 0%nat (totalDuration * d0_7), k').
End Entropy.

(** The [while] loop of [update]: [pending] is the part of the schedule
    from [currentSpeedIndex] on. *)
Fixpoint applySpeedChanges (pending : list SpeedChange) (elapsedTime base : Q)
    (vel : Q) (idx : nat) : Q * nat :=
  match pending with
  | [] => (vel, idx)
  | change :: rest =>
      if Qgeb elapsedTime (time change)
      then applySpeedChanges rest elapsedTime base (base * multiplier change) (S idx)
      else (vel, idx)
  end.

(** The position and velocity after the movement and the role-specific
    branch of [update], before the last clamp ("Ensure winner finishes").
    For [totalDuration h <> finalStretchStart h] when the quotient
    [finalProgress] is used: otherwise the source divides by zero there. *)
Definition moved (h : t) (elapsedTime deltaTime : Q) : Q * Q * nat :=
  let cappedDeltaTime := Qmin deltaTime 50 in
  let '(vel, idx) :=
    applySpeedChanges (drop (currentSpeedIndex h) (speedChanges h))
                      elapsedTime (baseSpeed h) (velocity h) (currentSpeedIndex h) in
  let pos := position h + vel * cappedDeltaTime in
  let finalProgress :=
    (elapsedTime - finalStretchStart h) / (totalDuration h - finalStretchStart h) in
  if isWinner h && Qgeb elapsedTime (finalStretchStart h) then
    let boost := 1 + finalProgress * d0_8 in
    let pos := pos + baseSpeed h * cappedDeltaTime * boost in
    let minPosition := 50 + raceDistance h * (d0_7 + finalProgress * d0_3) in
    (if Qltb pos minPosition then minPosition else pos, vel, idx)
  else if negb (isWinner h) then
    let vel :=
      if Qgeb elapsedTime (finalStretchStart h)
      then vel * (1 - finalProgress * d0_25) else vel in
    let maxPosition := 50 + raceDistance h * d0_92 in
    if Qgeb pos maxPosition then (maxPosition, baseSpeed h * d0_15, idx)
    else (pos, vel, idx)
  else (pos, vel, idx).

(** [update(elapsedTime, deltaTime)] *)
Definition update (h : t) (elapsedTime deltaTime : Q) : t :=
  let '(pos, vel, idx) := moved h elapsedTime deltaTime in
  let pos :=
    if isWinner h && Qgeb elapsedTime (totalDuration h * d0_95) then
      let targetPosition := 50 + raceDistance h in
      if Qltb pos targetPosition then targetPosition else pos
    else pos in
  mk (index h) (userId h) (userName h) (color h) (isWinner h) pos
     (raceDistance h) (totalDuration h) (baseSpeed h) vel
     (speedChanges h) idx (finalStretchStart h).

(** The finish coordinate: start offset plus track length. *)
Definition finishCoordinate (h : t) : Q := 50 + raceDistance h.

(** A sequence of frames, each [(elapsedTime, deltaTime)], applied in order. *)
Definition run (h : t) (frames : list (Q * Q)) : t :=
  fold_left (fun h f => update h (fst f) (snd f)) frames h.

End HorseState.

(** ** storage.js: object Storage *)

Module User.
(** A user record as stored; [enabled] may be missing in old data. *)
Record t := mk {
  id : string;
  name : string;
  color : string;
  enabled : option bool;
  createdAt : string
}.
End User.

Module Entry.
(** One history entry. *)
Record t := mk {
  id : string;
  userId : string;
  userName : string;
  timestamp : string;
  spinNumber : Z
}.
End Entry.

(** [Number.prototype.toFixed(1)] on a rational: the integer number of
    tenths nearest to the value (the larger one on a tie), printed with
    one decimal. *)
Definition decimal_of_Z (n : Z) : string :=
  NilZero.string_of_uint (N.to_uint (Z.to_N n)).

Definition tenths (x : Q) : Z := Qfloor (x * 10 + (1 # 2))%Q.

Definition toFixed1 (x : Q) : string :=
  let body (y : Q) :=
    let n := tenths y in
    (decimal_of_Z (n / 10) ++ "." ++ decimal_of_Z (n mod 10))%string in
  if Qltb x 0 then ("-" ++ body (- x)%Q)%string else body x.

(** ** Doubles *)

Module Double.
(** The double nearest to an integer (ties to even), as a count or an
    integer literal of the source is one. *)
Definition ofZ (n : Z) : PrimFloat.float :=
  FloatOps.SF2Prim (SpecFloat.binary_normalize FloatOps.prec FloatOps.emax n 0 false).

(** The value of a double that is finite. *)
Definition value (x : PrimFloat.float) : option Q :=
  match FloatOps.Prim2SF x with
  | SpecFloat.S754_zero _ => Some 0%Q
  | SpecFloat.S754_finite sign m e =>
      let magnitude := (inject_Z (Z.pos m) * 2 ^ e)%Q in
      Some (if sign then (- magnitude)%Q else magnitude)
  | SpecFloat.S754_infinity _ | SpecFloat.S754_nan => None
  end.

(** [x.toFixed(1)]: [toFixed1] of the value of a finite double, and
    [String(x)] for the others. *)
Definition toFixed1 (x : PrimFloat.float) : string :=
  match FloatOps.Prim2SF x with
  | SpecFloat.S754_nan => "NaN"
  | SpecFloat.S754_infinity sign => if sign then "-Infinity" else "Infinity"
  | _ => match value x with
         | Some q => toFixed1 q
         | None => "NaN"
         end
  end.
End Double.

Module Storage.

Inductive SettingValue :=
| SNum (q : Q)
| SBool (b : bool)
| SStr (s : string).

(** The values kept under the keys of the namespace object. *)
Inductive Value :=
| VUsers (us : list User.t)
| VHistory (h : list Entry.t)
| VSettings (s : gmap string SettingValue)
| VStr (s : string).

(** The namespace object kept (as JSON) under ['RacingWinner'] in
    localStorage, as a finite map from key to value.  Reading a missing
    or unparsable item gives the empty object; [JSON.parse] after
    [JSON.stringify] gives the object back, and [localStorage.setItem]
    stores it. *)
Abbreviation Namespace := (gmap string Value).

(** STORAGE_KEYS *)
Definition USERS : string := "users".
Definition HISTORY : string := "history".
Definition SETTINGS : string := "settings".
Definition LAST_VIEW : string := "lastView".
Definition FIRST_VISIT : string := "firstVisit".
Definition LAST_SELECTED : string := "lastSelected".

(** DEFAULT_SETTINGS *)
Definition DEFAULT_SETTINGS : gmap string SettingValue :=
  <["spinDuration" := SNum 7]>
  (<["soundEnabled" := SBool true]>
  (<["darkMode" := SBool false]>
  (<["winnerEffect" := SStr "confetti"]>
  (<["commentaryEnabled" := SBool true]> ∅)))).

Definition _getNamespaceKey (key : string) (data : Namespace) : option Value :=
  data !! key.

Definition _setNamespaceKey (key : string) (value : Value) (data : Namespace)
    : Namespace :=
  <[key := value]> data.

(** [getUsers]: every user gets an [enabled] property, [true] by default. *)
Definition getUsers (data : Namespace) : list User.t :=
  let parsedUsers :=
    match _getNamespaceKey USERS data with
    | Some (VUsers us) => us
    | _ => []
    end in
  map (fun user =>
         User.mk (User.id user) (User.name user) (User.color user)
                 (Some (match User.enabled user with
                        | Some b => b
                        | None => true
                        end))
                 (User.createdAt user))
      parsedUsers.

(** [getEnabledUsers]: [user.enabled !== false] *)
Definition getEnabledUsers (data : Namespace) : list User.t :=
  List.filter (fun user => match User.enabled user with
                           | Some false => false
                           | _ => true
                           end)
              (getUsers data).

Definition getHistory (data : Namespace) : list Entry.t :=
  match _getNamespaceKey HISTORY data with
  | Some (VHistory h) => h
  | _ => []
  end.

Definition getLastSelected (data : Namespace) : option string :=
  match _getNamespaceKey LAST_SELECTED data with
  | Some (VStr s) => Some s
  | _ => None
  end.

Definition setLastSelected (userId : string) (data : Namespace) : Namespace :=
  _setNamespaceKey LAST_SELECTED (VStr userId) data.

Definition clearHistory (data : Namespace) : Namespace :=
  _setNamespaceKey HISTORY (VHistory []) data.

(** [addSpinEntry(userId, userName)]; [dateNow] is [Date.now().toString()]
    and [isoNow] is [new Date().toISOString()] at the time of the call.
    Returns the entry and the namespace as written back. *)
Definition addSpinEntry (userId userName : string) (dateNow isoNow : string)
    (data : Namespace) : Entry.t * Namespace :=
  let history := getHistory data in
  let entry := Entry.mk dateNow userId userName isoNow
                        (Z.of_nat (length history) + 1) in
  let history := history ++ [entry] in
  (* Keep rolling window of last 500 spins *)
  let history := if Z.of_nat (length history) >? 500 then tail history
                 else history in
  let data := _setNamespaceKey HISTORY (VHistory history) data in
  let data := setLastSelected userId data in
  (entry, data).

(** [getSettings]: the stored settings over the defaults. *)
Definition getSettings (data : Namespace) : gmap string SettingValue :=
  match _getNamespaceKey SETTINGS data with
  | Some (VSettings s) => s ∪ DEFAULT_SETTINGS
  | _ => DEFAULT_SETTINGS
  end.

Definition getSetting (key : string) (data : Namespace) : option SettingValue :=
  match getSettings data !! key with
  | Some v => Some v
  | None => DEFAULT_SETTINGS !! key
  end.

(** *** Statistics *)

(** [percentage] is the number [0] for an empty history and otherwise
    the string made by [toFixed(1)]. *)
Inductive Percentage :=
| PNum (n : Z)
| PStr (s : string).

Record Stat := mkStat {
  user : User.t;
  winCount : Z;
  selections : Z;
  currentStreak : Z;
  longestStreak : Z;
  percentage : option Percentage   (* set by the last pass *)
}.

Definition bumpWins (s : Stat) : Stat :=
  mkStat (user s) (winCount s + 1) (selections s + 1) (currentStreak s)
         (longestStreak s) (percentage s).

Definition raiseLongest (count : Z) (s : Stat) : Stat :=
  mkStat (user s) (winCount s) (selections s) (currentStreak s)
         (Z.max (longestStreak s) count) (percentage s).

Definition setCurrent (count : Z) (s : Stat) : Stat :=
  mkStat (user s) (winCount s) (selections s) count
         (longestStreak s) (percentage s).

Definition setPercentage (p : Percentage) (s : Stat) : Stat :=
  mkStat (user s) (winCount s) (selections s) (currentStreak s)
         (longestStreak s) (Some p).

(** "Initialize stats for each user" *)
Definition initStats (users : list User.t) : gmap string Stat :=
  fold_left (fun stats user =>
               <[User.id user := mkStat user 0 0 0 0 None]> stats)
            users ∅.

(** The variables of the scan: [stats], [lastUserId], [currentStreak]. *)
Definition Scan : Type := gmap string Stat * option string * option (string * Z).

(** [stats[id].longestStreak = Math.max(stats[id].longestStreak, count)],
    guarded by [currentStreak && stats[currentStreak.userId]]. *)
Definition flushLongest (currentStreak : option (string * Z))
    (stats : gmap string Stat) : gmap string Stat :=
  match currentStreak with
  | Some (sid, count) =>
      match stats !! sid with
      | Some _ => alter (raiseLongest count) sid stats
      | None => stats
      end
  | None => stats
  end.

(** The body of [history.forEach(entry => ...)]. *)
Definition scanEntry (acc : Scan) (entry : Entry.t) : Scan :=
  let '(stats, lastUserId, currentStreak) := acc in
  let uid := Entry.userId entry in
  match stats !! uid with
  | Some _ =>
      let stats := alter bumpWins uid stats in
      if decide (Some uid = lastUserId) then
        match currentStreak with
        | None => (stats, Some uid, Some (uid, 1))
        | Some (sid, count) => (stats, Some uid, Some (sid, count + 1))
        end
      else
        (flushLongest currentStreak stats, Some uid, Some (uid, 1))
  | None => acc
  end.

(** "Finalize current streak" *)
Definition finalizeStreak (currentStreak : option (string * Z))
    (stats : gmap string Stat) : gmap string Stat :=
  match currentStreak with
  | Some (sid, count) =>
      match stats !! sid with
      | Some _ => alter (fun s => raiseLongest count (setCurrent count s)) sid stats
      | None => stats
      end
  | None => stats
  end.

(** [(stat.winCount / totalSpins) * 100], in doubles. *)
Definition winPercent (winCount totalSpins : Z) : PrimFloat.float :=
  PrimFloat.mul (PrimFloat.div (Double.ofZ winCount) (Double.ofZ totalSpins))
                (Double.ofZ 100).

(** "Calculate percentages" *)
Definition percentageOf (totalSpins : Z) (s : Stat) : Percentage :=
  if totalSpins >? 0
  then PStr (Double.toFixed1 (winPercent (winCount s) totalSpins))
  else PNum 0.

(** [calculateStatistics()] *)
Definition calculateStatistics (data : Namespace) : gmap string Stat :=
  let history := getHistory data in
  let users := getUsers data in
  let stats := initStats users in
  let '(stats, _, currentStreak) :=
    fold_left scanEntry history (stats, None, None) in
  let stats := finalizeStreak currentStreak stats in
  let totalSpins := Z.of_nat (length history) in
  (fun s => setPercentage (percentageOf totalSpins s) s) <$> stats.

(** *** Users *)

(** [users.find(u => u.id === id)] *)
Fixpoint findUser (id : string) (users : list User.t) : option User.t :=
  match users with
  | [] => None
  | u :: rest => if String.eqb (User.id u) id then Some u else findUser id rest
  end.

(** [getUser(id)] ([null] is [None]) *)
Definition getUser (id : string) (data : Namespace) : option User.t :=
  findUser id (getUsers data).

(** [user.enabled = user.enabled === false ? true : false] *)
Definition toggled (user : User.t) : User.t :=
  User.mk (User.id user) (User.name user) (User.color user)
          (Some (match User.enabled user with
                 | Some false => true
                 | _ => false
                 end))
          (User.createdAt user).

(** The array after the assignment to the found element, which is the
    first one with the id. *)
Fixpoint toggleFirst (id : string) (users : list User.t) : list User.t :=
  match users with
  | [] => []
  | u :: rest => if String.eqb (User.id u) id then toggled u :: rest
                 else u :: toggleFirst id rest
  end.

(** [toggleUserEnabled(id)]: the user returned ([null] is [None]) and the
    namespace; nothing is written when the id is unknown. *)
Definition toggleUserEnabled (id : string) (data : Namespace)
    : option User.t * Namespace :=
  let users := getUsers data in
  match findUser id users with
  | Some user =>
      (Some (toggled user),
       _setNamespaceKey USERS (VUsers (toggleFirst id users)) data)
  | None => (None, data)
  end.

(** [users.splice(index, 1)] at [index = users.findIndex(u => u.id === id)] *)
Fixpoint removeFirst (id : string) (users : list User.t) : list User.t :=
  match users with
  | [] => []
  | u :: rest => if String.eqb (User.id u) id then rest
                 else u :: removeFirst id rest
  end.

(** [deleteUser(id)] *)
Definition deleteUser (id : string) (data : Namespace) : bool * Namespace :=
  let users := getUsers data in
  match findUser id users with
  | Some _ => (true, _setNamespaceKey USERS (VUsers (removeFirst id users)) data)
  | None => (false, data)
  end.

(** *** First visit, last view, reset *)

(** [init()] *)
Definition init (data : Namespace) : Namespace :=
  match _getNamespaceKey FIRST_VISIT data with
  | None => _setNamespaceKey FIRST_VISIT (VStr "false") data
  | Some _ => data
  end.

(** [isFirstVisit()] *)
Definition isFirstVisit (data : Namespace) : bool :=
  match _getNamespaceKey FIRST_VISIT data with
  | Some (VStr s) => String.eqb s "false" && (Z.of_nat (length (getUsers data)) =? 0)
  | _ => false
  end.

(** [markFirstVisitDone()] *)
Definition markFirstVisitDone (data : Namespace) : Namespace :=
  _setNamespaceKey FIRST_VISIT (VStr "true") data.

(** [getLastView()]: the stored view [|| 'wheel'] *)
Definition getLastView (data : Namespace) : string :=
  match _getNamespaceKey LAST_VIEW data with
  | Some (VStr (String c s)) => String c s
  | _ => "wheel"
  end.

(** [setLastView(viewName)] *)
Definition setLastView (viewName : string) (data : Namespace) : Namespace :=
  _setNamespaceKey LAST_VIEW (VStr viewName) data.

(** [resetAll()]: the namespace is replaced by an empty object, then the
    first-visit flag is set again. *)
Definition resetAll (data : Namespace) : Namespace :=
  _setNamespaceKey FIRST_VISIT (VStr "false") ∅.

(** *** Settings and the defaults object *)

(** [getSettings()] returns the object [DEFAULT_SETTINGS] itself when no
    settings are stored, and [setSetting] assigns into what [getSettings()]
    returns; so the defaults object is part of the state.  [defaults] is
    its current content; [getSettings] above is the case of a freshly
    loaded page. *)
Definition getSettingsFrom (defaults : gmap string SettingValue) (data : Namespace)
    : gmap string SettingValue :=
  match _getNamespaceKey SETTINGS data with
  | Some (VSettings s) => s ∪ defaults
  | _ => defaults
  end.

(** [getSetting(key)] over the current defaults object. *)
Definition getSettingFrom (defaults : gmap string SettingValue) (key : string)
    (data : Namespace) : option SettingValue :=
  match getSettingsFrom defaults data !! key with
  | Some v => Some v
  | None => defaults !! key
  end.

(** [updateSettings(updates)]: a new object [{...settings, ...updates}] is
    stored and returned. *)
Definition updateSettings (defaults updates : gmap string SettingValue)
    (data : Namespace) : gmap string SettingValue * Namespace :=
  let updated := updates ∪ getSettingsFrom defaults data in
  (updated, _setNamespaceKey SETTINGS (VSettings updated) data).

(** [setSetting(key, value)]: the defaults object and the namespace
    afterwards. *)
Definition setSetting (key : string) (value : SettingValue)
    (defaults : gmap string SettingValue) (data : Namespace)
    : gmap string SettingValue * Namespace :=
  match _getNamespaceKey SETTINGS data with
  | Some (VSettings s) =>
      (defaults,
       _setNamespaceKey SETTINGS (VSettings (<[key := value]> (s ∪ defaults))) data)
  | _ =>
      let defaults' := <[key := value]> defaults in
      (defaults', _setNamespaceKey SETTINGS (VSettings defaults') data)
  end.

(** *** Backup and restore *)

(** The object made by [exportAllData()] and read by [importAllData(data)].
    A field that is [undefined] is [None]; a field that is present has the
    type [exportAllData()] gives it. *)
Record Backup := mkBackup {
  users : option (list User.t);
  history : option (list Entry.t);
  settings : option (gmap string SettingValue);
  lastSelected : option string;
  lastView : option string;
  firstVisit : option string;
  appTitle : option SettingValue;
  exportDate : string;
  version : string
}.

(** [this._getNamespaceKey(key)] for a key that holds a string. *)
Definition getString (key : string) (data : Namespace) : option string :=
  match _getNamespaceKey key data with
  | Some (VStr s) => Some s
  | _ => None
  end.

(** [exportAllData()]; [isoNow] is [new Date().toISOString()]. *)
Definition exportAllData (isoNow : string) (data : Namespace) : Backup :=
  mkBackup (Some (getUsers data)) (Some (getHistory data)) (Some (getSettings data))
           (getString LAST_SELECTED data) (getString LAST_VIEW data)
           (getString FIRST_VISIT data) (getSetting "appTitle" data)
           isoNow "1.0".

(** [if (data.key) this._setNamespaceKey(KEY, data.key)] for a string. *)
Definition importString (key : string) (value : option string) (data : Namespace)
    : Namespace :=
  match value with
  | Some (String c s) => _setNamespaceKey key (VStr (String c s)) data
  | _ => data
  end.

(** [importAllData(data)]; [None] is an argument that is not an object,
    for which the function returns [false]. *)
Definition importAllData (backup : option Backup) (data : Namespace)
    : bool * Namespace :=
  match backup with
  | None => (false, data)
  | Some b =>
      let data := match users b with
                  | Some us => _setNamespaceKey USERS (VUsers us) data
                  | None => data
                  end in
      let data := match history b with
                  | Some h => _setNamespaceKey HISTORY (VHistory h) data
                  | None => data
                  end in
      let data := match settings b with
                  | Some s => _setNamespaceKey SETTINGS (VSettings s) data
                  | None => data
                  end in
      let data := importString LAST_SELECTED (lastSelected b) data in
      let data := importString LAST_VIEW (lastView b) data in
      let data := importString FIRST_VISIT (firstVisit b) data in
      (true, data)
  end.

End Storage.

(** ** The selection routine ([getRandomUserIndex] of wheel.js, copied
       verbatim into race.js) *)

(** A JavaScript string is truthy when it is not empty. *)
Definition truthy (s : string) : bool :=
  match s with
  | EmptyString => false
  | _ => true
  end.

(** [users.findIndex(u => u.id === lastSelectedId)], [-1] when absent. *)
Fixpoint findIndexFrom (i : Z) (lastSelectedId : string) (users : list User.t) : Z :=
  match users with
  | [] => -1
  | u :: rest => if String.eqb (User.id u) lastSelectedId then i
                 else findIndexFrom (i + 1) lastSelectedId rest
  end.

Definition findIndex (lastSelectedId : string) (users : list User.t) : Z :=
  findIndexFrom 0 lastSelectedId users.

Section Selection.
(** [random k] is the value of the k-th call of [Math.random()]. *)
Variable random : nat -> Q.

(** [Math.floor(Math.random() * this.users.length)] at call number [k]. *)
Definition draw (n : nat) (k : nat) : Z :=
  Math_floor (random k * inject_Z (Z.of_nat n))%Q.

(** [while (index === lastIndex && attempts < 10) { index = ...; attempts++ }];
    [left] is [10 - attempts]. *)
Fixpoint reroll (left : nat) (n : nat) (lastIndex : Z) (index : Z) (k : nat)
    : Z * nat :=
  match left with
  | O => (index, k)
  | S left' =>
      if index =? lastIndex
      then reroll left' n lastIndex (draw n k) (S k)
      else (index, k)
  end.

(** The body shared by [Wheel.getRandomUserIndex] and
    [Race.getRandomUserIndex]: the index and the advanced call counter. *)
Definition randomUserIndex (users : list User.t) (lastSelectedId : option string)
    (k : nat) : Z * nat :=
  let index := draw (length users) k in
  let k := S k in
  match lastSelectedId with
  | Some lastId =>
      if truthy lastId then
        let lastIndex := findIndex lastId users in
        if negb (lastIndex =? -1)
        then reroll 10 (length users) lastIndex index k
        else (index, k)
      else (index, k)
  | None => (index, k)
  end.
End Selection.

Module Wheel.
(** wheel.js, [getRandomUserIndex()] over [this.users]. *)
Definition getRandomUserIndex (random : nat -> Q) (users : list User.t)
    (data : gmap string Storage.Value) (k : nat) : Z * nat :=
  randomUserIndex random users (Storage.getLastSelected data) k.
End Wheel.

(** ** race.js: object Race *)

Module Race.

(** The completion callback is known by a label. *)
Definition Callback := string.

(** Effects on the page, the sound module and the caller, in the order
    they happen.  The page of index.html has every element the code
    looks up. *)
Inductive Event :=
| EffectsClear
| ResultHidden
| HorseClassesRemoved (classes : list string)
| HorseClassAdded (userId : string) (class : string)
| ButtonDisabled (b : bool)
| SoundPlaySpinning
| SoundStopSpinning
| SoundPlayStop
| SoundPlayFanfare
| HorsePlaced (userId : string) (x : Q)
| WinnerHighlighted (userId : string)
| TitleSet (title : string)
| OnComplete (cb : Callback) (winner : User.t).

(** What the browser holds for a pending [requestAnimationFrame] or
    [setTimeout]: the closure to call. *)
Inductive Task :=
| AnimateTask (onComplete : option Callback)
| SafetyTask (onComplete : option Callback)
| FanfareTask.

(** How a call ends.  [Unrepresented] is no outcome of the source: it
    marks the place where the source goes on with a number that is not
    represented here ([NaN], or a string coerced to a number) and the
    embedded call stops. *)
Inductive Completion :=
| Normal
| Throw (error : string)
| Unrepresented.

(** The fields of [Race] together with what it acts on. *)
Record t := mk {
  isRacing : bool;
  users : list User.t;
  horses : list HorseState.t;
  animationFrameId : option nat;
  startTime : option Q;
  lastFrameTime : option Q;
  duration : Q;
  selectedUser : option User.t;
  selectedIndex : Z;
  raceTimeoutId : option nat;
  (* the environment *)
  storage : gmap string Storage.Value;   (* localStorage namespace *)
  timers : gmap nat Task;                (* pending frame and timer callbacks *)
  nextHandle : nat;                      (* next handle the browser gives out *)
  randomCalls : nat;                     (* calls of Math.random() so far *)
  log : list Event                       (* effects so far, oldest first *)
}.

Definition startLineX : Q := 50.
Definition raceDistance : Q := 900.

(** The state of a freshly loaded page over a given namespace. *)
Definition initial (data : gmap string Storage.Value) : t :=
  mk false (Storage.getEnabledUsers data) [] None None None 7000 None (-1) None
     data ∅ 1%nat 0%nat [].

Definition emit (e : list Event) (r : t) : t :=
  mk (isRacing r) (users r) (horses r) (animationFrameId r) (startTime r)
     (lastFrameTime r) (duration r) (selectedUser r) (selectedIndex r)
     (raceTimeoutId r) (storage r) (timers r) (nextHandle r) (randomCalls r)
     (log r ++ e).

Definition set_isRacing (b : bool) (r : t) : t :=
  mk b (users r) (horses r) (animationFrameId r) (startTime r)
     (lastFrameTime r) (duration r) (selectedUser r) (selectedIndex r)
     (raceTimeoutId r) (storage r) (timers r) (nextHandle r) (randomCalls r)
     (log r).

Definition set_users (us : list User.t) (r : t) : t :=
  mk (isRacing r) us (horses r) (animationFrameId r) (startTime r)
     (lastFrameTime r) (duration r) (selectedUser r) (selectedIndex r)
     (raceTimeoutId r) (storage r) (timers r) (nextHandle r) (randomCalls r)
     (log r).

Definition set_horses (hs : list HorseState.t) (r : t) : t :=
  mk (isRacing r) (users r) hs (animationFrameId r) (startTime r)
     (lastFrameTime r) (duration r) (selectedUser r) (selectedIndex r)
     (raceTimeoutId r) (storage r) (timers r) (nextHandle r) (randomCalls r)
     (log r).

Definition set_animationFrameId (i : option nat) (r : t) : t :=
  mk (isRacing r) (users r) (horses r) i (startTime r)
     (lastFrameTime r) (duration r) (selectedUser r) (selectedIndex r)
     (raceTimeoutId r) (storage r) (timers r) (nextHandle r) (randomCalls r)
     (log r).

Definition set_times (start last : option Q) (r : t) : t :=
  mk (isRacing r) (users r) (horses r) (animationFrameId r) start
     last (duration r) (selectedUser r) (selectedIndex r)
     (raceTimeoutId r) (storage r) (timers r) (nextHandle r) (randomCalls r)
     (log r).

Definition set_duration (d : Q) (r : t) : t :=
  mk (isRacing r) (users r) (horses r) (animationFrameId r) (startTime r)
     (lastFrameTime r) d (selectedUser r) (selectedIndex r)
     (raceTimeoutId r) (storage r) (timers r) (nextHandle r) (randomCalls r)
     (log r).

Definition set_selected (i : Z) (u : option User.t) (k : nat) (r : t) : t :=
  mk (isRacing r) (users r) (horses r) (animationFrameId r) (startTime r)
     (lastFrameTime r) (duration r) u i
     (raceTimeoutId r) (storage r) (timers r) (nextHandle r) k
     (log r).

Definition set_raceTimeoutId (i : option nat) (r : t) : t :=
  mk (isRacing r) (users r) (horses r) (animationFrameId r) (startTime r)
     (lastFrameTime r) (duration r) (selectedUser r) (selectedIndex r)
     i (storage r) (timers r) (nextHandle r) (randomCalls r)
     (log r).

Definition set_storage (data : gmap string Storage.Value) (r : t) : t :=
  mk (isRacing r) (users r) (horses r) (animationFrameId r) (startTime r)
     (lastFrameTime r) (duration r) (selectedUser r) (selectedIndex r)
     (raceTimeoutId r) data (timers r) (nextHandle r) (randomCalls r)
     (log r).

Definition set_randomCalls (k : nat) (r : t) : t :=
  mk (isRacing r) (users r) (horses r) (animationFrameId r) (startTime r)
     (lastFrameTime r) (duration r) (selectedUser r) (selectedIndex r)
     (raceTimeoutId r) (storage r) (timers r) (nextHandle r) k
     (log r).

(** [requestAnimationFrame(f)] and [setTimeout(f, _)]: a fresh handle. *)
Definition schedule (task : Task) (r : t) : nat * t :=
  (nextHandle r,
   mk (isRacing r) (users r) (horses r) (animationFrameId r) (startTime r)
      (lastFrameTime r) (duration r) (selectedUser r) (selectedIndex r)
      (raceTimeoutId r) (storage r) (<[nextHandle r := task]> (timers r))
      (S (nextHandle r)) (randomCalls r) (log r)).

(** [cancelAnimationFrame(id)] and [clearTimeout(id)] *)
Definition cancel (handle : nat) (r : t) : t :=
  mk (isRacing r) (users r) (horses r) (animationFrameId r) (startTime r)
     (lastFrameTime r) (duration r) (selectedUser r) (selectedIndex r)
     (raceTimeoutId r) (storage r) (delete handle (timers r))
     (nextHandle r) (randomCalls r) (log r).

(** [if (this.animationFrameId) { cancelAnimationFrame(...); ... = null }]
    and the same for [raceTimeoutId].  Handles start at 1, so a handle is
    truthy. *)
Definition releaseFrame (r : t) : t :=
  match animationFrameId r with
  | Some h => set_animationFrameId None (cancel h r)
  | None => r
  end.

Definition releaseTimeout (r : t) : t :=
  match raceTimeoutId r with
  | Some h => set_raceTimeoutId None (cancel h r)
  | None => r
  end.

(** [cleanup()] *)
Definition cleanup (r : t) : t :=
  let r := releaseFrame r in
  let r := releaseTimeout r in
  let r := set_isRacing false r in
  let r := set_horses [] r in
  emit [HorseClassesRemoved ["racing"]; ButtonDisabled false] r.

(** [canRace()] *)
Definition canRace (r : t) : bool :=
  (Z.of_nat (length (Storage.getEnabledUsers (storage r))) >=? 2)
  && negb (isRacing r).

(** [highlightWinner(userId)] *)
Definition highlightWinner (userId : string) (r : t) : t :=
  emit [HorseClassesRemoved ["winner"]; HorseClassAdded userId "winner";
        WinnerHighlighted userId] r.

(** [Storage.getSetting('appTitle') || 'Team Horse Racing'] *)
Definition appTitle (r : t) : string :=
  match Storage.getSetting "appTitle" (storage r) with
  | Some (Storage.SStr s) => if truthy s then s else "Team Horse Racing"
  | _ => "Team Horse Racing"
  end.

(** [completeRace(onComplete)]; [dateNow] and [isoNow] are the clock
    readings used by [Storage.addSpinEntry]. *)
Definition completeRace (dateNow isoNow : string) (onComplete : option Callback)
    (r : t) : Completion * t :=
  if negb (isRacing r) then (Normal, r)
  else
    (* CRITICAL: Stop racing flag FIRST *)
    let r := set_isRacing false r in
    let r := releaseFrame r in
    let r := releaseTimeout r in
    let r := emit [ButtonDisabled false; HorseClassesRemoved ["racing"];
                   SoundStopSpinning; SoundPlayStop] r in
    let r := snd (schedule FanfareTask r) in
    match selectedUser r with
    | None => (Throw "TypeError", r)
    | Some winner =>
        let r := highlightWinner (User.id winner) r in
        let r := set_storage
                   (snd (Storage.addSpinEntry (User.id winner) (User.name winner)
                                              dateNow isoNow (storage r))) r in
        let r := emit [TitleSet (User.name winner ++ " | " ++ appTitle r)%string] r in
        match onComplete with
        | Some cb => (Normal, emit [OnComplete cb winner] r)
        | None => (Normal, r)
        end
    end.

(** [horse.update(elapsedTime, deltaTime)] and the redraw, for every horse. *)
Definition updateHorses (elapsedTime deltaTime : Q) (r : t) : t :=
  let hs := map (fun h => HorseState.update h elapsedTime deltaTime) (horses r) in
  emit (map (fun h => HorsePlaced (HorseState.userId h) (HorseState.position h)) hs)
       (set_horses hs r).

(** [animate(currentTime, onComplete)] *)
Definition animate (dateNow isoNow : string) (currentTime : Q)
    (onComplete : option Callback) (r : t) : Completion * t :=
  if negb (isRacing r) then (Normal, r)
  else
    let start := match startTime r with Some s => s | None => 0%Q end in
    let elapsedTime := (currentTime - start)%Q in
    let deltaTime :=
      match lastFrameTime r with
      | Some l => if Qeq_bool l 0 then 16%Q else (currentTime - l)%Q
      | None => 16%Q
      end in
    let r := set_times (startTime r) (Some currentTime) r in
    if Qgeb elapsedTime (duration r) then completeRace dateNow isoNow onComplete r
    else
      let r := updateHorses elapsedTime deltaTime r in
      let '(h, r) := schedule (AnimateTask onComplete) r in
      (Normal, set_animationFrameId (Some h) r).

(** The callback of the safety timeout:
    [() => { if (this.isRacing) this.completeRace(onComplete) }] *)
Definition safetyTimeout (dateNow isoNow : string) (onComplete : option Callback)
    (r : t) : Completion * t :=
  if isRacing r then completeRace dateNow isoNow onComplete r
  else (Normal, r).

(** The browser runs the pending callback with handle [h] (a frame
    callback gets the frame time [currentTime]). *)
Definition fire (dateNow isoNow : string) (currentTime : Q) (h : nat) (r : t)
    : Completion * t :=
  match timers r !! h with
  | None => (Normal, r)
  | Some task =>
      let r := cancel h r in
      match task with
      | AnimateTask cb => animate dateNow isoNow currentTime cb r
      | SafetyTask cb => safetyTimeout dateNow isoNow cb r
      | FanfareTask => (Normal, emit [SoundPlayFanfare] r)
      end
  end.

Section Entropy.
Variable random : nat -> Q.

(** [getRandomUserIndex()] *)
Definition getRandomUserIndex (r : t) : Z * nat :=
  randomUserIndex random (users r) (Storage.getLastSelected (storage r))
                  (randomCalls r).

(** [this.users.map((user, index) => new HorseState(...))] *)
Fixpoint createHorses (us : list User.t) (index : Z) (selected : Z)
    (T : Q) (k : nat) : list HorseState.t * nat :=
  match us with
  | [] => ([], k)
  | user :: rest =>
      let '(h, k) := HorseState.new random index (User.id user) (User.name user)
                                    (User.color user) (index =? selected) T
                                    raceDistance k in
      let '(hs, k) := createHorses rest (index + 1) selected T k in
      (h :: hs, k)
  end.

(** [settings.spinDuration * 1000]: the multiplication coerces its
    operand to a number.  A number is taken as it is and a boolean is 1
    or 0.  A string is parsed by the source (['2' * 1000] is 2000) and a
    missing setting gives [NaN]; these two are not represented ([None]). *)
Definition spinDurationMs (data : gmap string Storage.Value) : option Q :=
  match Storage.getSettings data !! "spinDuration" with
  | Some (Storage.SNum s) => Some (s * 1000)%Q
  | Some (Storage.SBool b) => Some (if b then 1000 else 0)%Q
  | Some (Storage.SStr _) => None
  | None => None
  end.

(** [this.users[i]] *)
Definition userAt (us : list User.t) (i : Z) : option User.t :=
  if i <? 0 then None else us !! Z.to_nat i.

(** [race(onComplete)]; [now] is [performance.now()]. *)
Definition race (dateNow isoNow : string) (now : Q) (onComplete : option Callback)
    (r : t) : Completion * t :=
  if isRacing r || (Z.of_nat (length (users r)) <? 2) then (Normal, r)
  else
    let r := cleanup r in
    let r := set_users (Storage.getEnabledUsers (storage r)) r in
    if Z.of_nat (length (users r)) <? 2 then (Normal, r)
    else
      let r := emit [EffectsClear; ResultHidden;
                     HorseClassesRemoved ["winner"; "racing"]] r in
      let r := set_isRacing true r in
      let r := emit [ButtonDisabled true] r in
      match spinDurationMs (storage r) with
      | None => (Unrepresented, r)
      | Some ms =>
          let r := set_duration ms r in
          let r := emit [SoundPlaySpinning] r in
          let '(i, k) := getRandomUserIndex r in
          let r := set_selected i (userAt (users r) i) k r in
          let '(hs, k) := createHorses (users r) 0 (selectedIndex r) (duration r)
                                       (randomCalls r) in
          let r := set_randomCalls k (set_horses hs r) in
          let r := emit (flat_map (fun h =>
                                     [HorsePlaced (HorseState.userId h) startLineX;
                                      HorseClassAdded (HorseState.userId h) "racing"])
                                  hs) r in
          let r := set_times (Some now) None r in
          let '(c, r) := animate dateNow isoNow now onComplete r in
          match c with
          | Normal =>
              let '(h, r) := schedule (SafetyTask onComplete) r in
              (Normal, set_raceTimeoutId (Some h) r)
          | c => (c, r)
          end
      end.
End Entropy.

End Race.

(** ** The frames of a race *)

(** The browser calls the frame callback at the times [times], in order
    (the clock readings of [Storage.addSpinEntry] are those of the frame
    that ends the race). *)
Definition animateAll (dateNow isoNow : string) (times : list Q)
    (onComplete : option Race.Callback) (r : Race.t) : Race.t :=
  fold_left (fun r t => snd (Race.animate dateNow isoNow t onComplete r)) times r.

(** Reduces the projections and setters of [Race.t]. *)
Ltac race_fields :=
  cbn [Race.isRacing Race.users Race.horses Race.animationFrameId Race.startTime
       Race.lastFrameTime Race.duration Race.selectedUser Race.selectedIndex
       Race.raceTimeoutId Race.storage Race.timers Race.nextHandle Race.randomCalls
       Race.log Race.emit Race.set_isRacing Race.set_users Race.set_horses
       Race.set_animationFrameId Race.set_times Race.set_duration Race.set_selected
       Race.set_raceTimeoutId Race.set_storage Race.set_randomCalls Race.schedule
       Race.cancel fst snd] in *.

(** ** app.js: the caller of [Race.race] *)

Module App.
(** The callback that [App.race] passes: [(result) => this.displayResult(result)]. *)
Definition displayResult : Race.Callback := "displayResult".

Inductive Outcome :=
| Alerted (message : string)
| Started (c : Race.Completion).

(** [App.race()] *)
Definition race (random : nat -> Q) (dateNow isoNow : string) (now : Q)
    (r : Race.t) : Outcome * Race.t :=
  if negb (Race.canRace r) then (Alerted "Add at least 2 users before racing!", r)
  else
    let '(c, r) := Race.race random dateNow isoNow now (Some displayResult) r in
    (Started c, r).
End App.

(** ** The selection rule in the words of the specification *)

Module SelectionSpec.
(** "the participant at that index has the same id as [lastWinnerId]" *)
Definition sameIdAt (users : list User.t) (index : Z) (lastWinnerId : string) : bool :=
  match Race.userAt users index with
  | Some u => String.eqb (User.id u) lastWinnerId
  | None => false
  end.

(** "that id is present in the enabled list" *)
Definition present (lastWinnerId : string) (users : list User.t) : bool :=
  existsb (fun u => String.eqb (User.id u) lastWinnerId) users.

Section Rule.
Variable random : nat -> Q.

(** "redraw uniformly up to 10 times, accepting the first draw that
    differs ... accept the final draw anyway"; [left] redraws remain. *)
Fixpoint redraw (left : nat) (users : list User.t) (lastWinnerId : string)
    (index : Z) (k : nat) : Z * nat :=
  match left with
  | O => (index, k)
  | S left' =>
      if sameIdAt users index lastWinnerId
      then redraw left' users lastWinnerId (draw random (length users) k) (S k)
      else (index, k)
  end.

(** "draw a uniformly random index in [0, n)", then the redraws. *)
Definition selectWinner (users : list User.t) (lastWinnerId : option string)
    (k : nat) : Z * nat :=
  let index := draw random (length users) k in
  match lastWinnerId with
  | Some lastId =>
      if present lastId users
      then redraw 10 users lastId index (S k)
      else (index, S k)
  | None => (index, S k)
  end.
End Rule.
End SelectionSpec.

(** The random source that always returns the middle of the [i]-th of
    [n] equal slots of [0, 1). *)
Definition slotSource (n : nat) (i : Z) : nat -> Q :=
  fun _ => (2 * i + 1) # (Pos.of_nat (2 * n)).

(** ** Repeated history appends *)

Module HistoryOps.
(** The arguments and clock readings of one [Storage.addSpinEntry] call. *)
Record Call := mkCall {
  userId : string;
  userName : string;
  dateNow : string;
  isoNow : string
}.

Definition append (data : gmap string Storage.Value) (c : Call)
    : gmap string Storage.Value :=
  snd (Storage.addSpinEntry (userId c) (userName c) (dateNow c) (isoNow c) data).

(** The calls of [calls], oldest first. *)
Definition appendAll (calls : list Call) (data : gmap string Storage.Value)
    : gmap string Storage.Value :=
  fold_left append calls data.

(** The entry made by call [c] when it gets sequence number [n]. *)
Definition entryOf (n : Z) (c : Call) : Entry.t :=
  Entry.mk (dateNow c) (userId c) (userName c) (isoNow c) n.

(** The entries of [calls] numbered [first], [first + 1], ... *)
Fixpoint numbered (first : Z) (calls : list Call) : list Entry.t :=
  match calls with
  | [] => []
  | c :: rest => entryOf first c :: numbered (first + 1) rest
  end.
End HistoryOps.

(** ** Well-formed motion states and schedules *)

(** What the constructor of [HorseState] establishes for a positive
    duration, a non-negative track length and random numbers in [0, 1),
    and what [update] keeps: speeds and multipliers are not negative, the
    final stretch starts before the end, and a non-winner is at or below
    its cap. *)
Definition wellFormed (h : HorseState.t) : Prop :=
  (0 <= HorseState.baseSpeed h)%Q /\
  (0 <= HorseState.velocity h)%Q /\
  Forall (fun c => 0 <= HorseState.multiplier c)%Q (HorseState.speedChanges h) /\
  (HorseState.finalStretchStart h < HorseState.totalDuration h)%Q /\
  (0 <= HorseState.raceDistance h)%Q /\
  (HorseState.isWinner h = false ->
   (HorseState.position h <= 50 + HorseState.raceDistance h * d0_92)%Q).

(** A scheduled change of a race of duration [T]: strictly inside the
    race, with a multiplier in [0.6, 1.8). *)
Definition scheduled (T : Q) (c : HorseState.SpeedChange) : Prop :=
  (0 < HorseState.time c)%Q /\ (HorseState.time c < T)%Q /\
  (d0_6 <= HorseState.multiplier c)%Q /\ (HorseState.multiplier c < 18 # 10)%Q.

(** Ascending by time. *)
Definition byTime (l : list HorseState.SpeedChange) : Prop :=
  Sorted (fun a b => HorseState.time a <= HorseState.time b)%Q l.

(** ** Stored settings *)

(** No settings object is stored. *)
Definition unstored (data : gmap string Storage.Value) : Prop :=
  forall s, Storage._getNamespaceKey Storage.SETTINGS data <> Some (Storage.VSettings s).

(** ** Users as [Storage.getUsers] returns them *)

(** The [enabled] property is set. *)
Definition normal (u : User.t) : Prop := User.enabled u <> None.

(** ** Counting wins in a history *)

(** The number of entries of [history] whose [userId] is [id]. *)
Definition winsOf (id : string) (history : list Entry.t) : Z :=
  Z.of_nat (length (List.filter (fun e => String.eqb (Entry.userId e) id) history)).

(** What holds of the variables of the statistics scan ([stats],
    [lastUserId], [currentStreak]) after the entries [done]. *)
Definition scanInv (acc : Storage.Scan) (done : list Entry.t) : Prop :=
  let '(stats, lastUserId, currentStreak) := acc in
  (forall id st, stats !! id = Some st ->
     Storage.winCount st = winsOf id done /\ Storage.selections st = winsOf id done /\
     0 <= Storage.longestStreak st <= Storage.winCount st /\
     Storage.currentStreak st = 0 /\ Storage.percentage st = None) /\
  (forall sid count, currentStreak = Some (sid, count) ->
     lastUserId = Some sid /\ 1 <= count /\
     exists st, stats !! sid = Some st /\ count <= Storage.winCount st).

(** ** Counting completion callbacks in a trace *)

Definition isOnComplete (e : Race.Event) : bool :=
  match e with
  | Race.OnComplete _ _ => true
  | _ => false
  end.

Definition completions (r : Race.t) : nat :=
  length (List.filter isOnComplete (Race.log r)).

(** * Sample data used by the examples *)

Module Samples.
Local Open Scope string_scope.

(** Frames every 16 ms: [(0,16); (16,16); ...], [n] of them. *)
Definition frames16 (n : nat) : list (Q * Q) :=
  map (fun i => (inject_Z (16 * Z.of_nat i), 16%Q)) (seq 0 n).

(** A winner of a one-second race on the 900-unit track whose random
    draws are all 0.75 (nine speed changes, each 1.5 times base speed). *)
Definition fastWinner : HorseState.t :=
  fst (HorseState.new (fun _ => 3 # 4) 0 "1700000000001" "Ann" "#FF6B6B"
                      true 1000 900 0).

(** A non-winner of the same race whose random draws are all 0 (six
    speed changes, each 0.6 times base speed). *)
Definition slowLoser : HorseState.t :=
  fst (HorseState.new (fun _ => 0%Q) 1 "1700000000002" "Bob" "#4ECDC4"
                      false 1000 900 0).

Definition ann : User.t :=
  User.mk "1700000000001" "Ann" "#FF6B6B" (Some true) "2023-11-14T22:13:20.001Z".
Definition bob : User.t :=
  User.mk "1700000000002" "Bob" "#4ECDC4" (Some true) "2023-11-14T22:13:20.002Z".
Definition bobDisabled : User.t :=
  User.mk "1700000000002" "Bob" "#4ECDC4" (Some false) "2023-11-14T22:13:20.002Z".
Definition cat : User.t :=
  User.mk "1700000000003" "Cat" "#FFE66D" None "2023-11-14T22:13:20.003Z".

(** A stored namespace with two enabled users and settings. *)
Definition twoEnabled : gmap string Storage.Value :=
  <[Storage.USERS := Storage.VUsers [ann; bob]]>
  (<[Storage.SETTINGS := Storage.VSettings (<["spinDuration" := Storage.SNum 1]> ∅)]>
  (<[Storage.FIRST_VISIT := Storage.VStr "true"]> ∅)).

(** One enabled and one disabled user. *)
Definition oneEnabled : gmap string Storage.Value :=
  <[Storage.USERS := Storage.VUsers [ann; bobDisabled]]>
  (<[Storage.FIRST_VISIT := Storage.VStr "true"]> ∅).

(** Ann is the only user left; the history has a win of Ann, a win of
    the removed user Zed, and a win of Ann. *)
Definition afterRemoval : gmap string Storage.Value :=
  <[Storage.USERS := Storage.VUsers [ann]]>
  (<[Storage.HISTORY := Storage.VHistory
       [Entry.mk "1700000100000" "1700000000001" "Ann" "2023-11-14T22:15:00.000Z" 1;
        Entry.mk "1700000200000" "1700000000009" "Zed" "2023-11-14T22:16:40.000Z" 2;
        Entry.mk "1700000300000" "1700000000001" "Ann" "2023-11-14T22:18:20.000Z" 3]]>
   ∅).

(** Users A and B and the history A, A, B, A, A, A. *)
Definition sixRaces : gmap string Storage.Value :=
  <[Storage.USERS := Storage.VUsers
      [User.mk "A" "Ann" "#FF6B6B" (Some true) "2023-11-14T22:13:20.001Z";
       User.mk "B" "Bob" "#4ECDC4" None "2023-11-14T22:13:20.002Z"]]>
  (<[Storage.HISTORY := Storage.VHistory
       [Entry.mk "1700000100000" "A" "Ann" "2023-11-14T22:15:00.000Z" 1;
        Entry.mk "1700000200000" "A" "Ann" "2023-11-14T22:16:40.000Z" 2;
        Entry.mk "1700000300000" "B" "Bob" "2023-11-14T22:18:20.000Z" 3;
        Entry.mk "1700000400000" "A" "Ann" "2023-11-14T22:20:00.000Z" 4;
        Entry.mk "1700000500000" "A" "Ann" "2023-11-14T22:21:40.000Z" 5;
        Entry.mk "1700000600000" "A" "Ann" "2023-11-14T22:23:20.000Z" 6]]>
   ∅).

(** Ann and Bob after 80 races: 23 wins of Ann, then 57 wins of Bob. *)
Definition eightyRaces : gmap string Storage.Value :=
  <[Storage.USERS := Storage.VUsers
      [User.mk "A" "Ann" "#FF6B6B" (Some true) "2023-11-14T22:13:20.001Z";
       User.mk "B" "Bob" "#4ECDC4" (Some true) "2023-11-14T22:13:20.002Z"]]>
  (<[Storage.HISTORY := Storage.VHistory
       (map (fun n => Entry.mk "1700000100000" "A" "Ann" "2023-11-14T22:15:00.000Z"
                               (Z.of_nat n)) (seq 1 23)
        ++ map (fun n => Entry.mk "1700000200000" "B" "Bob" "2023-11-14T22:16:40.000Z"
                                  (Z.of_nat n)) (seq 24 57))]>
   ∅).

(** Three enabled users; Ann won the last race. *)
Definition annWonLast : gmap string Storage.Value :=
  <[Storage.USERS := Storage.VUsers [ann; bob; cat]]>
  (<[Storage.LAST_SELECTED := Storage.VStr "1700000000001"]> ∅).

(** The callback that [App.race] passes to [Race.race]. *)
Definition displayResult : Race.Callback := App.displayResult.

(** A race of one second started at [performance.now() = 5000] on the
    page over [twoEnabled], every [Math.random()] being 0.5. *)
Definition startedRace : Race.t :=
  snd (Race.race (fun _ => 1 # 2) "1700000500000" "2023-11-14T22:21:40.000Z"
                 5000 (Some displayResult) (Race.initial twoEnabled)).

(** The page was drawn with Ann and Bob enabled; Bob has since been
    disabled in the stored namespace (by another tab of the browser). *)
Definition staleRace : Race.t :=
  Race.set_users [ann; bob] (Race.initial oneEnabled).

(** A history append for a win of Ann. *)
Definition annWins : HistoryOps.Call :=
  HistoryOps.mkCall "1700000000001" "Ann" "1700000500000" "2023-11-14T22:21:40.000Z".
End Samples.

(** * Properties *)

(** ** Comparisons *)

Lemma Qltb_true (x y : Q) : Qltb x y = true <-> (x < y)%Q.
Proof.
  unfold Qltb. rewrite negb_true_iff. split.
  - intros H. apply Qnot_le_lt. intros Hle.
    apply Qle_bool_iff in Hle. congruence.
  - intros H. destruct (Qle_bool y x) eqn:E; [|reflexivity].
    apply Qle_bool_iff in E. exfalso. apply (Qlt_not_le _ _ H E).
Qed.

Lemma Qltb_false (x y : Q) : Qltb x y = false <-> (y <= x)%Q.
Proof.
  unfold Qltb. rewrite negb_false_iff. apply Qle_bool_iff.
Qed.

Lemma Qgeb_true (x y : Q) : Qgeb x y = true <-> (y <= x)%Q.
Proof. unfold Qgeb. apply Qle_bool_iff. Qed.

Lemma Qgeb_false (x y : Q) : Qgeb x y = false <-> (x < y)%Q.
Proof.
  unfold Qgeb. split.
  - intros H. apply Qnot_le_lt. intros Hle.
    apply Qle_bool_iff in Hle. congruence.
  - intros H. destruct (Qle_bool y x) eqn:E; [|reflexivity].
    apply Qle_bool_iff in E. exfalso. apply (Qlt_not_le _ _ H E).
Qed.

(** ** HorseState.update *)

Section UpdateFacts.
Import HorseState.
Local Open Scope Q_scope.

(** [update] only rewrites position, velocity and the schedule index. *)
Lemma update_isWinner h e d : isWinner (update h e d) = isWinner h.
Proof. unfold update. destruct (moved h e d) as [[? ?] ?]. reflexivity. Qed.

Lemma update_raceDistance h e d : raceDistance (update h e d) = raceDistance h.
Proof. unfold update. destruct (moved h e d) as [[? ?] ?]. reflexivity. Qed.

Lemma update_totalDuration h e d : totalDuration (update h e d) = totalDuration h.
Proof. unfold update. destruct (moved h e d) as [[? ?] ?]. reflexivity. Qed.




(** The last statement of [update] for a winner late in the race: the
    position becomes the larger of the moved position and the finish. *)
Lemma update_winner_late h e d :
  isWinner h = true ->
  totalDuration h * d0_95 <= e ->
  position (update h e d) =
    if Qltb (fst (fst (moved h e d))) (finishCoordinate h)
    then finishCoordinate h else fst (fst (moved h e d)).
Proof.
  intros Hw He. unfold update.
  destruct (moved h e d) as [[pos vel] idx]. simpl.
  rewrite Hw. apply Qgeb_true in He. rewrite He. reflexivity.
Qed.

(** A non-winner leaves [update] at or below 92% of the track. *)
Lemma update_loser_capped h e d :
  isWinner h = false ->
  position (update h e d) <= 50 + raceDistance h * d0_92.
Proof.
  intros Hw. unfold update, moved. rewrite Hw. simpl.
  destruct (applySpeedChanges _ _ _ _ _) as [vel idx].
  destruct (Qgeb (position h + vel * Qmin d 50) (50 + raceDistance h * d0_92)) eqn:E;
    simpl.
  - apply Qle_refl.
  - apply Qgeb_false in E. apply Qlt_le_weak. exact E.
Qed.
End UpdateFacts.

(** C1 (as amended).  For a winner whose final stretch is not empty
    ([finalStretchStart < totalDuration], as the constructor makes it for
    a positive duration), every [update] call with
    [elapsedTime >= 0.95 * totalDuration] leaves the position at or beyond
    the finish coordinate [50 + raceDistance]: it is set to exactly the
    finish coordinate when the frame's movement left it short of the
    finish, and it is kept as moved when it is already at or beyond it. *)
Theorem winner_reaches_finish (h : HorseState.t) (elapsedTime deltaTime : Q) :
  HorseState.isWinner h = true ->
  (HorseState.finalStretchStart h < HorseState.totalDuration h)%Q ->
  (HorseState.totalDuration h * d0_95 <= elapsedTime)%Q ->
  let moved := fst (fst (HorseState.moved h elapsedTime deltaTime)) in
  let after := HorseState.position (HorseState.update h elapsedTime deltaTime) in
  (HorseState.finishCoordinate h <= after)%Q /\
  ((moved < HorseState.finishCoordinate h)%Q ->
   after = HorseState.finishCoordinate h) /\
  ((HorseState.finishCoordinate h <= moved)%Q -> after = moved).
Proof.
  intros Hw _ He moved after. subst after.
  rewrite (update_winner_late h elapsedTime deltaTime Hw He). fold moved.
  destruct (Qltb moved (HorseState.finishCoordinate h)) eqn:E.
  - apply Qltb_true in E. repeat split.
    + apply Qle_refl.
    + intros Hle. exfalso. apply (Qlt_not_le _ _ E Hle).
  - apply Qltb_false in E. repeat split.
    + exact E.
    + intros Hlt. exfalso. apply (Qlt_not_le _ _ Hlt E).
Qed.

(** The same at [elapsedTime = totalDuration], for a positive duration. *)
Lemma winner_at_duration (h : HorseState.t) (deltaTime : Q) :
  HorseState.isWinner h = true ->
  (HorseState.finalStretchStart h < HorseState.totalDuration h)%Q ->
  (0 < HorseState.totalDuration h)%Q ->
  (HorseState.finishCoordinate h <=
   HorseState.position (HorseState.update h (HorseState.totalDuration h) deltaTime))%Q.
Proof.
  intros Hw _ HT.
  assert (He : (HorseState.totalDuration h * d0_95 <= HorseState.totalDuration h)%Q).
  { unfold d0_95. lra. }
  rewrite (update_winner_late h _ deltaTime Hw He).
  destruct (Qltb _ _) eqn:E.
  - apply Qle_refl.
  - apply Qltb_false in E. exact E.
Qed.

(** A winner short of the finish late in the race: two frames, the second
    at 960 ms of 1000 ms. *)
Lemma winner_reaches_finish_witness :
  HorseState.isWinner Samples.fastWinner = true /\
  (HorseState.finalStretchStart Samples.fastWinner
   < HorseState.totalDuration Samples.fastWinner)%Q /\
  (HorseState.totalDuration Samples.fastWinner * d0_95 <= 960)%Q /\
  HorseState.position (HorseState.update Samples.fastWinner 960 50)
  = HorseState.finishCoordinate Samples.fastWinner.
Proof.
  assert (Hw : HorseState.isWinner Samples.fastWinner = true) by reflexivity.
  assert (Hs : (HorseState.finalStretchStart Samples.fastWinner
                < HorseState.totalDuration Samples.fastWinner)%Q).
  { apply Qltb_true. vm_compute. reflexivity. }
  assert (He : (HorseState.totalDuration Samples.fastWinner * d0_95 <= 960)%Q).
  { apply Qle_bool_iff. vm_compute. reflexivity. }
  split; [exact Hw|]. split; [exact Hs|]. split; [exact He|].
  apply (winner_reaches_finish Samples.fastWinner 960 50 Hw Hs He).
  apply Qltb_true. vm_compute. reflexivity.
Defined.

(** C1 (as stated) fails.  The winner [Samples.fastWinner] of a 1000 ms
    race, updated on the frames at 0, 16, ..., 976 ms and then at
    [elapsedTime = 1000 = totalDuration], is beyond the finish coordinate
    950, not on it. *)
Lemma winner_overshoots_finish :
  let h := HorseState.run Samples.fastWinner (Samples.frames16 62) in
  HorseState.isWinner h = true /\
  (0 < HorseState.totalDuration h)%Q /\
  (0 < HorseState.raceDistance h)%Q /\
  (HorseState.totalDuration h == 1000)%Q /\
  (HorseState.finishCoordinate h == 950)%Q /\
  ~ (HorseState.position (HorseState.update h 1000 16)
     == HorseState.finishCoordinate h)%Q /\
  (HorseState.finishCoordinate h < HorseState.position (HorseState.update h 1000 16))%Q.
Proof.
  cbv zeta.
  split; [vm_compute; reflexivity|].
  split; [vm_compute; reflexivity|].
  split; [vm_compute; reflexivity|].
  split; [vm_compute; reflexivity|].
  split; [vm_compute; reflexivity|].
  assert (Hlt : (HorseState.finishCoordinate
                   (HorseState.run Samples.fastWinner (Samples.frames16 62))
                 < HorseState.position
                     (HorseState.update
                        (HorseState.run Samples.fastWinner (Samples.frames16 62))
                        1000 16))%Q).
  { apply Qltb_true. vm_compute. reflexivity. }
  split; [|exact Hlt].
  intros Heq. rewrite Heq in Hlt. apply (Qlt_irrefl _ Hlt).
Qed.




(** ** The selection routine *)

Section SelectionFacts.
Variable random : nat -> Q.

(** A draw lies in [0, n) when the random source lies in [0, 1). *)
Lemma draw_range (n k : nat) :
  (0 <= random k)%Q -> (random k < 1)%Q -> (0 < n)%nat ->
  0 <= draw random n k < Z.of_nat n.
Proof.
  intros H0 H1 Hn. unfold draw, Math_floor.
  set (N := inject_Z (Z.of_nat n)).
  assert (HN : (0 < N)%Q).
  { unfold N. rewrite <- (Zlt_Qlt 0). lia. }
  split.
  - rewrite <- (Qfloor_Z 0). apply Qfloor_resp_le.
    apply Qmult_le_0_compat; [exact H0 | apply Qlt_le_weak; exact HN].
  - rewrite Zlt_Qlt. fold N.
    apply Qle_lt_trans with (y := (random k * N)%Q); [apply Qfloor_le|].
    apply Qlt_le_trans with (y := (1 * N)%Q).
    + apply Qmult_lt_compat_r; assumption.
    + rewrite Qmult_1_l. apply Qle_refl.
Qed.

Lemma reroll_calls left : forall n lastIndex index k,
  (k <= snd (reroll random left n lastIndex index k) <= k + left)%nat.
Proof.
  induction left as [|left IH]; intros n lastIndex index k; simpl; [lia|].
  destruct (index =? lastIndex); simpl; [|lia].
  specialize (IH n lastIndex (draw random n k) (S k)). lia.
Qed.

Lemma reroll_range left : forall n lastIndex index k,
  (forall j, 0 <= draw random n j < Z.of_nat n) ->
  0 <= index < Z.of_nat n ->
  0 <= fst (reroll random left n lastIndex index k) < Z.of_nat n.
Proof.
  induction left as [|left IH]; intros n lastIndex index k Hd Hi; simpl; [exact Hi|].
  destruct (index =? lastIndex); simpl; [|exact Hi].
  apply IH; [exact Hd | apply Hd].
Qed.

(** With a source whose every draw is [i], the routine returns [i]. *)
Lemma reroll_constant left : forall n lastIndex i k,
  (forall j, draw random n j = i) ->
  fst (reroll random left n lastIndex i k) = i.
Proof.
  induction left as [|left IH]; intros n lastIndex i k Hd; simpl; [reflexivity|].
  destruct (i =? lastIndex); simpl; [|reflexivity].
  rewrite Hd. apply IH. exact Hd.
Qed.

(** The loop result is the first of the draws that differs from
    [lastIndex], and the last draw when all ten redraws fail. *)
Lemma reroll_first_differs left : forall n lastIndex index k,
  let res := reroll random left n lastIndex index k in
  (fst res <> lastIndex \/ snd res = (k + left)%nat) /\
  (snd res = k /\ fst res = index \/
   (k < snd res)%nat /\ fst res = draw random n (snd res - 1) /\ index = lastIndex) /\
  (forall j, (k <= j < snd res - 1)%nat -> draw random n j = lastIndex).
Proof.
  induction left as [|left IH]; intros n lastIndex index k; simpl.
  - repeat split; [right; lia | left; auto | intros; lia].
  - destruct (index =? lastIndex) eqn:E; simpl.
    + apply Z.eqb_eq in E.
      destruct (IH n lastIndex (draw random n k) (S k)) as (H1 & H2 & H3).
      pose proof (reroll_calls left n lastIndex (draw random n k) (S k)) as Hc.
      repeat split.
      * destruct H1 as [H1|H1]; [left; exact H1 | right; lia].
      * right. destruct H2 as [[Hs Hf]|(Hs & Hf & _)].
        -- rewrite Hs, Hf. repeat split; [lia | f_equal; lia | exact E].
        -- repeat split; [lia | exact Hf | exact E].
      * intros j Hj. destruct (decide (j = k)) as [->|Hne].
        -- destruct H2 as [[Hs Hf]|(Hs & Hf & Hl)]; [lia | exact Hl].
        -- apply H3. lia.
    + apply Z.eqb_neq in E. repeat split; [left; exact E | left; auto | intros; lia].
Qed.
End SelectionFacts.

(** [findIndex] against the id-based test of the specification. *)

Lemma findIndexFrom_bounds (lastId : string) (users : list User.t) : forall i,
  0 <= i ->
  findIndexFrom i lastId users = -1 \/
  i <= findIndexFrom i lastId users < i + Z.of_nat (length users).
Proof.
  induction users as [|u rest IH]; intros i Hi; simpl; [left; reflexivity|].
  destruct (String.eqb (User.id u) lastId); [right; lia|].
  destruct (IH (i + 1) ltac:(lia)) as [H|H]; [left; exact H | right; lia].
Qed.

Lemma findIndexFrom_present (lastId : string) (users : list User.t) : forall i,
  0 <= i ->
  negb (findIndexFrom i lastId users =? -1) = SelectionSpec.present lastId users.
Proof.
  induction users as [|u rest IH]; intros i Hi; simpl; [reflexivity|].
  destruct (String.eqb (User.id u) lastId); simpl.
  - destruct (i =? -1) eqn:E; [apply Z.eqb_eq in E; lia | reflexivity].
  - apply IH. lia.
Qed.

Lemma userAt_cons (u : User.t) (rest : list User.t) (j : Z) :
  0 < j -> Race.userAt (u :: rest) j = Race.userAt rest (j - 1).
Proof.
  intros Hj. unfold Race.userAt.
  destruct (j <? 0) eqn:E1; [apply Z.ltb_lt in E1; lia|].
  destruct (j - 1 <? 0) eqn:E2; [apply Z.ltb_lt in E2; lia|].
  replace (Z.to_nat j) with (S (Z.to_nat (j - 1))) by lia. reflexivity.
Qed.

Lemma userAt_Some_In (users : list User.t) (j : Z) (u : User.t) :
  Race.userAt users j = Some u -> In u users.
Proof.
  unfold Race.userAt. destruct (j <? 0); [discriminate|].
  intros H. apply list_elem_of_In. apply list_elem_of_lookup. eauto.
Qed.

Lemma findIndexFrom_sameId (lastId : string) (users : list User.t) : forall i index,
  NoDup (map User.id users) ->
  0 <= i ->
  findIndexFrom i lastId users <> -1 ->
  (index =? findIndexFrom i lastId users)
  = SelectionSpec.sameIdAt users (index - i) lastId.
Proof.
  induction users as [|u rest IH]; intros i index Hnd Hi Hfound; simpl in *.
  - congruence.
  - apply NoDup_cons in Hnd. destruct Hnd as [Hnotin Hnd].
    unfold SelectionSpec.sameIdAt.
    destruct (String.eqb (User.id u) lastId) eqn:Eu.
    + apply String.eqb_eq in Eu.
      destruct (Z.compare_spec index i) as [Heq|Hlt|Hgt].
      * subst index. rewrite Z.eqb_refl, Z.sub_diag. simpl.
        symmetry. apply String.eqb_eq. exact Eu.
      * replace (index =? i) with false by (symmetry; apply Z.eqb_neq; lia).
        unfold Race.userAt.
        replace (index - i <? 0) with true by (symmetry; apply Z.ltb_lt; lia).
        reflexivity.
      * replace (index =? i) with false by (symmetry; apply Z.eqb_neq; lia).
        rewrite userAt_cons by lia.
        destruct (Race.userAt rest (index - i - 1)) as [u'|] eqn:Eat; [|reflexivity].
        symmetry. apply String.eqb_neq. intros Hsame.
        apply Hnotin. apply list_elem_of_In. apply in_map_iff.
        exists u'. split; [congruence | eapply userAt_Some_In; exact Eat].
    + rewrite (IH (i + 1) index Hnd ltac:(lia) Hfound).
      unfold SelectionSpec.sameIdAt.
      destruct (Z.compare_spec index i) as [Heq|Hlt|Hgt].
      * subst index. rewrite Z.sub_diag. unfold Race.userAt at 2. simpl.
        rewrite Eu. unfold Race.userAt.
        replace (i - (i + 1) <? 0) with true by (symmetry; apply Z.ltb_lt; lia).
        reflexivity.
      * unfold Race.userAt.
        replace (index - (i + 1) <? 0) with true by (symmetry; apply Z.ltb_lt; lia).
        replace (index - i <? 0) with true by (symmetry; apply Z.ltb_lt; lia).
        reflexivity.
      * rewrite (userAt_cons u rest (index - i)) by lia.
        replace (index - i - 1) with (index - (i + 1)) by lia. reflexivity.
Qed.

Lemma truthy_nonempty (s : string) : s <> EmptyString -> truthy s = true.
Proof. destruct s; [congruence | reflexivity]. Qed.

Section SelectionRefinement.
Variable random : nat -> Q.

Lemma reroll_redraw (users : list User.t) (lastId : string) (lastIndex : Z) left :
  (forall index, (index =? lastIndex) = SelectionSpec.sameIdAt users index lastId) ->
  forall index k,
    reroll random left (length users) lastIndex index k
    = SelectionSpec.redraw random left users lastId index k.
Proof.
  intros Hsame. induction left as [|left IH]; intros index k; simpl; [reflexivity|].
  rewrite Hsame. destruct (SelectionSpec.sameIdAt users index lastId); [|reflexivity].
  apply IH.
Qed.

(** The routine of the source is the rule of the specification when ids
    are unique and the stored last id is not the empty string. *)
Lemma randomUserIndex_refines (users : list User.t) (last : option string) (k : nat) :
  NoDup (map User.id users) ->
  last <> Some EmptyString ->
  randomUserIndex random users last k
  = SelectionSpec.selectWinner random users last k.
Proof.
  intros Hnd Hlast. unfold randomUserIndex, SelectionSpec.selectWinner.
  destruct last as [lastId|]; [|reflexivity].
  rewrite truthy_nonempty by congruence.
  unfold findIndex. rewrite (findIndexFrom_present lastId users 0) by lia.
  destruct (SelectionSpec.present lastId users) eqn:Ep; [|reflexivity].
  assert (Hfound : findIndexFrom 0 lastId users <> -1).
  { intros Habs.
    assert (H0 : 0 <= 0) by lia.
    pose proof (findIndexFrom_present lastId users 0 H0) as Hp.
    rewrite Habs, Ep in Hp. discriminate. }
  assert (H0 : 0 <= 0) by lia.
  apply reroll_redraw. intros index.
  rewrite (findIndexFrom_sameId lastId users 0 index Hnd H0 Hfound).
  f_equal. lia.
Qed.

Lemma randomUserIndex_calls (users : list User.t) (last : option string) (k : nat) :
  (k < snd (randomUserIndex random users last k) <= k + 11)%nat.
Proof.
  unfold randomUserIndex.
  destruct last as [lastId|]; cbn [fst snd]; [|lia].
  destruct (truthy lastId); cbn [fst snd]; [|lia].
  destruct (negb _); cbn [fst snd]; [|lia].
  pose proof (reroll_calls random 10 (length users) (findIndex lastId users)
                (draw random (length users) k) (S k)). lia.
Qed.

Lemma randomUserIndex_range (users : list User.t) (last : option string) (k : nat) :
  (forall j, (0 <= random j)%Q /\ (random j < 1)%Q) ->
  (0 < length users)%nat ->
  0 <= fst (randomUserIndex random users last k) < Z.of_nat (length users).
Proof.
  intros Hr Hn.
  assert (Hd : forall j, 0 <= draw random (length users) j < Z.of_nat (length users)).
  { intros j. destruct (Hr j). apply draw_range; assumption. }
  unfold randomUserIndex.
  destruct last as [lastId|]; cbn [fst snd]; [|apply Hd].
  destruct (truthy lastId); cbn [fst snd]; [|apply Hd].
  destruct (negb _); cbn [fst snd]; [|apply Hd].
  apply reroll_range; [exact Hd | apply Hd].
Qed.
End SelectionRefinement.

Lemma Zpos_of_nat_double (n : nat) :
  (0 < n)%nat -> Z.pos (Pos.of_nat (2 * n)) = 2 * Z.of_nat n.
Proof.
  intros Hn. rewrite <- positive_nat_Z. rewrite Nat2Pos.id by lia. lia.
Qed.

Lemma slotSource_range (n : nat) (i : Z) (k : nat) :
  0 <= i < Z.of_nat n ->
  (0 <= slotSource n i k)%Q /\ (slotSource n i k < 1)%Q.
Proof.
  intros Hi. unfold slotSource, Qle, Qlt. cbn [Qnum Qden].
  rewrite Zpos_of_nat_double by lia. lia.
Qed.

Lemma slotSource_draw (n : nat) (i : Z) (k : nat) :
  0 <= i < Z.of_nat n -> draw (slotSource n i) n k = i.
Proof.
  intros Hi. unfold draw, Math_floor, slotSource, Qfloor, Qmult, inject_Z.
  cbn [Qnum Qden].
  rewrite Pos.mul_1_r, Zpos_of_nat_double by lia. symmetry.
  apply (Z.div_unique _ _ i (Z.of_nat n)); [left; lia | lia].
Qed.

Lemma randomUserIndex_slot (users : list User.t) (last : option string) (k : nat) (i : Z) :
  0 <= i < Z.of_nat (length users) ->
  fst (randomUserIndex (slotSource (length users) i) users last k) = i.
Proof.
  intros Hi. unfold randomUserIndex.
  rewrite slotSource_draw by exact Hi.
  destruct last as [lastId|]; cbn [fst snd]; [|reflexivity].
  destruct (truthy lastId); cbn [fst snd]; [|reflexivity].
  destruct (negb _); cbn [fst snd]; [|reflexivity].
  apply reroll_constant. intros j. apply slotSource_draw. exact Hi.
Qed.

(** The shape of the result in terms of the index of the last winner. *)
Lemma randomUserIndex_shape (random : nat -> Q) (users : list User.t)
    (last : option string) (k : nat) :
  last <> Some EmptyString ->
  let res := randomUserIndex random users last k in
  fst res = draw random (length users) (snd res - 1) /\
  forall lastId, last = Some lastId -> SelectionSpec.present lastId users = true ->
    (forall j, (k <= j < snd res - 1)%nat ->
               draw random (length users) j = findIndex lastId users) /\
    ((snd res < k + 11)%nat -> fst res <> findIndex lastId users).
Proof.
  intros Hlast. cbv zeta. unfold randomUserIndex.
  destruct last as [lastId|].
  2:{ cbn [fst snd]. split; [f_equal; lia | intros ? ?; discriminate]. }
  rewrite truthy_nonempty by congruence.
  assert (H0 : 0 <= 0) by lia.
  pose proof (findIndexFrom_present lastId users 0 H0) as Hp.
  fold (findIndex lastId users) in Hp.
  destruct (negb (findIndex lastId users =? -1)) eqn:Efound.
  - pose proof (reroll_first_differs random 10 (length users) (findIndex lastId users)
                  (draw random (length users) k) (S k)) as Hr.
    cbv zeta in Hr. destruct Hr as (Hstop & Hcase & Hearly).
    split.
    + destruct Hcase as [[Hs Hf]|(Hs & Hf & _)].
      * rewrite Hs, Hf. f_equal. lia.
      * exact Hf.
    + intros lastId' [= <-] _. split.
      * intros j Hj. destruct (decide (j = k)) as [->|Hne].
        -- destruct Hcase as [[Hs Hf]|(Hs & Hf & Hk)]; [lia | exact Hk].
        -- apply Hearly. lia.
      * intros Hlt. destruct Hstop as [Hne|Hall]; [exact Hne | lia].
  - cbn [fst snd]. split; [f_equal; lia|].
    intros lastId' [= <-] Hpres. congruence.
Qed.

(** C2.  [Race.getRandomUserIndex] (the copy of
    [Wheel.getRandomUserIndex]) draws [floor(random * n)]; when the stored
    last winner id belongs to one of the users it redraws while the drawn
    participant has that id, at most 10 times, and returns the first draw
    that differs or else the last draw.  It makes at most 11 draws, returns
    an index in [0, n), and every index in [0, n) is returned for some
    random source.  (Ids are unique and the stored id is not the empty
    string, as for ids made by [Storage.addUser].) *)
Theorem getRandomUserIndex_bounded_redraw (random : nat -> Q) (r : Race.t) :
  NoDup (map User.id (Race.users r)) ->
  Storage.getLastSelected (Race.storage r) <> Some EmptyString ->
  (forall j, (0 <= random j)%Q /\ (random j < 1)%Q) ->
  (0 < length (Race.users r))%nat ->
  let users := Race.users r in
  let n := length users in
  let last := Storage.getLastSelected (Race.storage r) in
  let k := Race.randomCalls r in
  let res := Race.getRandomUserIndex random r in
  res = SelectionSpec.selectWinner random users last k /\
  Wheel.getRandomUserIndex random users (Race.storage r) k = res /\
  0 <= fst res < Z.of_nat n /\
  (k < snd res <= k + 11)%nat /\
  fst res = draw random n (snd res - 1) /\
  (forall lastId,
     last = Some lastId -> SelectionSpec.present lastId users = true ->
     (forall j, (k <= j < snd res - 1)%nat ->
                SelectionSpec.sameIdAt users (draw random n j) lastId = true) /\
     ((snd res < k + 11)%nat ->
      SelectionSpec.sameIdAt users (fst res) lastId = false)) /\
  (forall i, 0 <= i < Z.of_nat n ->
     exists random' : nat -> Q,
       (forall j, (0 <= random' j)%Q /\ (random' j < 1)%Q) /\
       fst (Race.getRandomUserIndex random' r) = i).
Proof.
  intros Hnd Hlast Hrand Hn users n last k res.
  assert (Hspec : res = SelectionSpec.selectWinner random users last k).
  { apply randomUserIndex_refines; assumption. }
  split; [exact Hspec|].
  split; [reflexivity|].
  split; [apply randomUserIndex_range; assumption|].
  split; [apply randomUserIndex_calls|].
  assert (H0 : 0 <= 0) by lia.
  pose proof (randomUserIndex_shape random users last k Hlast) as Hshape.
  cbv zeta in Hshape. fold n in Hshape.
  change (randomUserIndex random users last k) with res in Hshape.
  destruct Hshape as [Hlastdraw Hids].
  split; [exact Hlastdraw|].
  split.
  - intros lastId El Ep. destruct (Hids lastId El Ep) as [Hearly Hstop].
    assert (Hfound : findIndexFrom 0 lastId users <> -1).
    { intros Habs. pose proof (findIndexFrom_present lastId users 0 H0) as Hp.
      rewrite Habs, Ep in Hp. discriminate. }
    assert (Hsame : forall index,
              (index =? findIndex lastId users)
              = SelectionSpec.sameIdAt users index lastId).
    { intros index. unfold findIndex.
      rewrite (findIndexFrom_sameId lastId users 0 index Hnd H0 Hfound).
      f_equal. lia. }
    split.
    + intros j Hj. rewrite <- Hsame. apply Z.eqb_eq. apply Hearly. exact Hj.
    + intros Hlt. rewrite <- Hsame. apply Z.eqb_neq. apply Hstop. exact Hlt.
  - intros i Hi. exists (slotSource n i). split.
    + intros j. apply slotSource_range. exact Hi.
    + apply randomUserIndex_slot. exact Hi.
Qed.

(** Ann won the last race; a source that keeps drawing Ann's slot. *)
Lemma getRandomUserIndex_bounded_redraw_witness :
  0 <= fst (Race.getRandomUserIndex (slotSource 3 0) (Race.initial Samples.annWonLast)) < 3.
Proof.
  apply (getRandomUserIndex_bounded_redraw (slotSource 3 0)
           (Race.initial Samples.annWonLast)).
  - apply (bool_decide_unpack _). vm_compute. exact I.
  - vm_compute. discriminate.
  - intros j. apply slotSource_range. lia.
  - vm_compute. lia.
Defined.

(** ** Storage: history and last selection *)

Section HistoryFacts.
Import Storage HistoryOps.

Lemma getHistory_append (data : gmap string Value) (c : Call) :
  getHistory (append data c) =
    let history := getHistory data ++
                   [entryOf (Z.of_nat (length (getHistory data)) + 1) c] in
    if Z.of_nat (length history) >? 500 then tail history else history.
Proof.
  unfold append, addSpinEntry, setLastSelected, _setNamespaceKey. cbn [snd].
  unfold getHistory at 1. unfold _getNamespaceKey.
  rewrite lookup_insert_ne by (unfold LAST_SELECTED, HISTORY; discriminate).
  rewrite lookup_insert_eq. reflexivity.
Qed.

Lemma getLastSelected_append (data : gmap string Value) (c : Call) :
  getLastSelected (append data c) = Some (userId c).
Proof.
  unfold append, addSpinEntry, setLastSelected, _setNamespaceKey. cbn [snd].
  unfold getLastSelected, _getNamespaceKey.
  rewrite lookup_insert_eq. reflexivity.
Qed.

Lemma append_frame (data : gmap string Value) (c : Call) (key : string) :
  key <> HISTORY -> key <> LAST_SELECTED ->
  append data c !! key = data !! key.
Proof.
  intros Hh Hl.
  unfold append, addSpinEntry, setLastSelected, _setNamespaceKey. cbn [snd].
  rewrite lookup_insert_ne by congruence.
  rewrite lookup_insert_ne by congruence. reflexivity.
Qed.

Lemma appendAll_snoc (calls : list Call) (c : Call) (data : gmap string Value) :
  appendAll (calls ++ [c]) data = append (appendAll calls data) c.
Proof. unfold appendAll. rewrite fold_left_app. reflexivity. Qed.

Lemma numbered_length (calls : list Call) : forall first,
  length (numbered first calls) = length calls.
Proof.
  induction calls as [|c rest IH]; intros first; simpl; [reflexivity|].
  rewrite IH. reflexivity.
Qed.

Lemma numbered_snoc (calls : list Call) (c : Call) : forall first,
  numbered first (calls ++ [c])
  = numbered first calls ++ [entryOf (first + Z.of_nat (length calls)) c].
Proof.
  induction calls as [|c0 rest IH]; intros first; simpl.
  - rewrite Z.add_0_r. reflexivity.
  - rewrite IH.
    replace (first + Z.of_nat (S (length rest)))
      with (first + 1 + Z.of_nat (length rest)) by lia.
    reflexivity.
Qed.

Lemma numbered_spinNumbers (calls : list Call) : forall first,
  map Entry.spinNumber (numbered first calls)
  = seqZ first (Z.of_nat (length calls)).
Proof.
  induction calls as [|c rest IH]; intros first.
  - reflexivity.
  - cbn [numbered map entryOf Entry.spinNumber length].
    rewrite seqZ_cons by lia. rewrite IH. do 2 f_equal; lia.
Qed.

(** While the window is not full, the history is the calls numbered from 1. *)
Lemma appendAll_numbered (calls : list Call) (data : gmap string Value) :
  getHistory data = [] ->
  (length calls <= 500)%nat ->
  getHistory (appendAll calls data) = numbered 1 calls.
Proof.
  intros Hempty. induction calls as [|c calls IH] using rev_ind; intros Hlen.
  - exact Hempty.
  - rewrite length_app in Hlen. simpl in Hlen.
    rewrite appendAll_snoc, getHistory_append, IH by lia.
    cbv zeta. rewrite numbered_length, numbered_snoc.
    rewrite length_app, numbered_length. simpl length.
    destruct (Z.gtb_spec (Z.of_nat (length calls + 1)) 500) as [Hgt|Hle]; [lia|].
    do 3 f_equal. lia.
Qed.

(** The append that overflows the window drops the oldest entry. *)
Lemma appendAll_overflow (calls : list Call) (c : Call) (data : gmap string Value) :
  getHistory data = [] ->
  length calls = 500%nat ->
  getHistory (appendAll (calls ++ [c]) data) = tail (numbered 1 (calls ++ [c])).
Proof.
  intros Hempty Hlen.
  rewrite appendAll_snoc, getHistory_append, appendAll_numbered by (assumption || lia).
  cbv zeta. rewrite numbered_length, numbered_snoc.
  rewrite length_app, numbered_length. simpl length.
  destruct (Z.gtb_spec (Z.of_nat (length calls + 1)) 500) as [Hgt|Hle]; [|lia].
  do 4 f_equal. lia.
Qed.

(** With a full window the next entry is numbered 501, whatever the
    numbers already in the window. *)
Lemma full_window_number (data : gmap string Value) (c : Call) :
  length (getHistory data) = 500%nat ->
  Entry.spinNumber
    (fst (addSpinEntry (userId c) (userName c) (dateNow c) (isoNow c) data)) = 501.
Proof. intros H. unfold addSpinEntry. cbn. rewrite H. reflexivity. Qed.
End HistoryFacts.

(** The history after 501 appends to an empty one. *)
Lemma history_after_501 (calls : list HistoryOps.Call)
    (data : gmap string Storage.Value) :
  Storage.getHistory data = [] ->
  length calls = 501%nat ->
  let history := Storage.getHistory (HistoryOps.appendAll calls data) in
  length history = 500%nat /\
  history = HistoryOps.numbered 2 (tail calls) /\
  map Entry.spinNumber history = seqZ 2 500 /\
  (forall e, In e history -> Entry.spinNumber e <> 1) /\
  (exists c, last calls = Some c /\ last history = Some (HistoryOps.entryOf 501 c)).
Proof.
  intros Hempty Hlen history.
  destruct (exists_last (l := calls)) as [front [c Hcalls]].
  { intros ->. discriminate. }
  assert (Hfront : length front = 500%nat).
  { rewrite Hcalls, length_app in Hlen. simpl in Hlen. lia. }
  assert (Hh : history = HistoryOps.numbered 2 (tail calls)).
  { subst history. rewrite Hcalls.
    rewrite (appendAll_overflow front c data Hempty Hfront).
    destruct front as [|c0 front']; [discriminate|]. reflexivity. }
  assert (Htail : length (tail calls) = 500%nat).
  { destruct calls; [discriminate|]. simpl in *. lia. }
  assert (Hnums : map Entry.spinNumber history = seqZ 2 500).
  { rewrite Hh, numbered_spinNumbers, Htail. reflexivity. }
  split; [rewrite Hh, numbered_length; exact Htail|].
  split; [exact Hh|].
  split; [exact Hnums|].
  split.
  - intros e He Hone.
    assert (Hin : Entry.spinNumber e ∈ seqZ 2 500).
    { rewrite <- Hnums. apply list_elem_of_In. apply in_map. exact He. }
    apply elem_of_seqZ in Hin. lia.
  - exists c. split.
    + rewrite Hcalls. apply last_snoc.
    + rewrite Hh, Hcalls.
      destruct front as [|c0 front']; [discriminate|].
      cbn [app tail]. rewrite numbered_snoc, last_snoc.
      simpl in Hfront. do 2 f_equal. lia.
Qed.

(** C7.  Appending 501 entries to an empty history leaves exactly 500
    entries: the entries of the 2nd to the 501st call, numbered 2 to 501
    in order; the entry numbered 1 is gone and the newest entry is the one
    of the last call, numbered 501. *)
Theorem rolling_history_bound (calls : list HistoryOps.Call)
    (data : gmap string Storage.Value) :
  Storage.getHistory data = [] ->
  length calls = 501%nat ->
  let history := Storage.getHistory (HistoryOps.appendAll calls data) in
  length history = 500%nat /\
  history = HistoryOps.numbered 2 (tail calls) /\
  map Entry.spinNumber history = seqZ 2 500 /\
  (forall e, In e history -> Entry.spinNumber e <> 1) /\
  (exists c, last calls = Some c /\ last history = Some (HistoryOps.entryOf 501 c)).
Proof.
  intros Hempty Hlen. exact (history_after_501 calls data Hempty Hlen).
Qed.

Lemma rolling_history_bound_witness :
  length (Storage.getHistory
            (HistoryOps.appendAll (repeat Samples.annWins 501) ∅)) = 500%nat.
Proof.
  apply (rolling_history_bound (repeat Samples.annWins 501) ∅).
  - reflexivity.
  - reflexivity.
Defined.

(** C8 on the code.  After 501 appends to an empty history the window is
    full and its newest entry is numbered 501; the 502nd append is numbered
    501 again, so it is not strictly greater than the numbers already in
    the history. *)
Theorem sequence_number_repeats_when_full :
  let data := HistoryOps.appendAll (repeat Samples.annWins 501) ∅ in
  let entry := fst (Storage.addSpinEntry "1700000000002" "Bob" "1700000600000"
                                         "2023-11-14T22:23:20.000Z" data) in
  length (Storage.getHistory data) = 500%nat /\
  (exists newest, last (Storage.getHistory data) = Some newest /\
                  Entry.spinNumber newest = 501) /\
  Entry.spinNumber entry = 501 /\
  ~ (forall old, In old (Storage.getHistory data) ->
                 Entry.spinNumber old < Entry.spinNumber entry).
Proof.
  intros data entry.
  assert (Hlen : length (repeat Samples.annWins 501) = 501%nat) by apply repeat_length.
  assert (Hempty : Storage.getHistory (∅ : gmap string Storage.Value) = [])
    by reflexivity.
  destruct (history_after_501 (repeat Samples.annWins 501) ∅ Hempty Hlen)
    as (Hfull & _ & _ & _ & c & _ & Hlast).
  fold data in Hfull, Hlast.
  assert (Hentry : Entry.spinNumber entry = 501).
  { apply (full_window_number data
             (HistoryOps.mkCall "1700000000002" "Bob" "1700000600000"
                                "2023-11-14T22:23:20.000Z") Hfull). }
  split; [exact Hfull|].
  split; [exists (HistoryOps.entryOf 501 c); split; [exact Hlast | reflexivity]|].
  split; [exact Hentry|].
  intros Hall.
  assert (Hin : In (HistoryOps.entryOf 501 c) (Storage.getHistory data)).
  { exact (proj1 (list_elem_of_In _ _) (last_Some_elem_of _ _ Hlast)). }
  specialize (Hall _ Hin). rewrite Hentry in Hall. simpl in Hall. lia.
Qed.
Lemma last_tail_snoc {A} (l : list A) (x : A) :
  l <> [] -> last (tail (l ++ [x])) = Some x.
Proof.
  destruct l as [|y l']; [congruence|]. intros _. cbn [app tail]. apply last_snoc.
Qed.

(** C10.  [Storage.addSpinEntry(userId, userName)] stores [userId] under
    the key [lastSelected] besides appending the entry: afterwards
    [getLastSelected()] is [userId], the participant of the newest history
    entry, and the next [Race.getRandomUserIndex()] runs its anti-repeat
    test against [userId]; every key other than [history] and
    [lastSelected] keeps its value. *)
Theorem addSpinEntry_records_last_selected
    (userId userName dateNow isoNow : string) (data : gmap string Storage.Value) :
  let entry := fst (Storage.addSpinEntry userId userName dateNow isoNow data) in
  let data' := snd (Storage.addSpinEntry userId userName dateNow isoNow data) in
  Storage.getLastSelected data' = Some userId /\
  Entry.userId entry = userId /\
  last (Storage.getHistory data') = Some entry /\
  (forall key : string,
     key <> Storage.HISTORY -> key <> Storage.LAST_SELECTED ->
     data' !! key = data !! key) /\
  (forall (random : nat -> Q) (r : Race.t),
     Race.getRandomUserIndex random (Race.set_storage data' r)
     = randomUserIndex random (Race.users r) (Some userId) (Race.randomCalls r)).
Proof.
  intros entry data'.
  pose (c := HistoryOps.mkCall userId userName dateNow isoNow).
  assert (Hlast : Storage.getLastSelected data' = Some userId).
  { apply (getLastSelected_append data c). }
  split; [exact Hlast|].
  split; [reflexivity|].
  split.
  - subst data'. change (snd (Storage.addSpinEntry userId userName dateNow isoNow data))
      with (HistoryOps.append data c).
    rewrite getHistory_append. cbv zeta.
    change (HistoryOps.entryOf (Z.of_nat (length (Storage.getHistory data)) + 1) c)
      with entry.
    destruct (Z.gtb_spec (Z.of_nat (length (Storage.getHistory data ++ [entry]))) 500)
      as [Hgt|Hle].
    + apply last_tail_snoc. intros Hnil. rewrite Hnil in Hgt. simpl in Hgt. lia.
    + apply last_snoc.
  - split.
    + intros key Hh Hl. apply (append_frame data c key Hh Hl).
    + intros random r. unfold Race.getRandomUserIndex. cbn [Race.storage Race.set_storage
        Race.users Race.randomCalls]. rewrite Hlast. reflexivity.
Qed.

Lemma addSpinEntry_records_last_selected_witness :
  snd (Storage.addSpinEntry "1700000000001" "Ann" "1700000500000"
                            "2023-11-14T22:21:40.000Z" Samples.twoEnabled)
    !! Storage.USERS
  = Samples.twoEnabled !! Storage.USERS.
Proof.
  apply (addSpinEntry_records_last_selected
           "1700000000001" "Ann" "1700000500000" "2023-11-14T22:21:40.000Z"
           Samples.twoEnabled).
  - discriminate.
  - discriminate.
Defined.

(** ** Storage: statistics *)

(** C5.  For users with ids A and B and a history whose winners are
    A, A, B, A, A, A, [calculateStatistics] reports for A five wins, current
    streak 3 and longest streak 3, for B one win, current streak 0 and
    longest streak 1, and the percentages "83.3" and "16.7", whose tenths
    add up to 1000. *)
Theorem statistics_round_trip (data : gmap string Storage.Value)
    (userA userB : User.t) :
  Storage.getUsers data = [userA; userB] ->
  User.id userA = "A"%string ->
  User.id userB = "B"%string ->
  map Entry.userId (Storage.getHistory data)
  = ["A"; "A"; "B"; "A"; "A"; "A"]%string ->
  let stats := Storage.calculateStatistics data in
  exists a b,
    stats !! "A"%string = Some a /\ stats !! "B"%string = Some b /\
    Storage.user a = userA /\ Storage.user b = userB /\
    Storage.winCount a = 5 /\ Storage.currentStreak a = 3 /\
    Storage.longestStreak a = 3 /\
    Storage.percentage a = Some (Storage.PStr "83.3") /\
    Storage.winCount b = 1 /\ Storage.currentStreak b = 0 /\
    Storage.longestStreak b = 1 /\
    Storage.percentage b = Some (Storage.PStr "16.7") /\
    tenths ((inject_Z (Storage.winCount a) / 6) * 100)
    + tenths ((inject_Z (Storage.winCount b) / 6) * 100) = 1000.
Proof.
  intros Husers HA HB Hhist stats. subst stats.
  unfold Storage.calculateStatistics. rewrite Husers.
  destruct (Storage.getHistory data) as [|e1 [|e2 [|e3 [|e4 [|e5 [|e6 [|e7 rest]]]]]]];
    try discriminate Hhist.
  destruct userA as [ida na ca ea cra], userB as [idb nb cb eb crb].
  destruct e1 as [i1 u1 n1 t1 s1], e2 as [i2 u2 n2 t2 s2], e3 as [i3 u3 n3 t3 s3],
           e4 as [i4 u4 n4 t4 s4], e5 as [i5 u5 n5 t5 s5], e6 as [i6 u6 n6 t6 s6].
  simpl in HA, HB, Hhist. injection Hhist as -> -> -> -> -> ->. subst ida idb.
  eexists. eexists.
  split; [vm_compute; reflexivity|].
  split; [vm_compute; reflexivity|].
  repeat split; vm_compute; reflexivity.
Qed.

Lemma statistics_round_trip_witness :
  exists a, Storage.calculateStatistics Samples.sixRaces !! "A"%string = Some a /\
            Storage.longestStreak a = 3.
Proof.
  destruct (statistics_round_trip Samples.sixRaces
              (User.mk "A" "Ann" "#FF6B6B" (Some true) "2023-11-14T22:13:20.001Z")
              (User.mk "B" "Bob" "#4ECDC4" (Some true) "2023-11-14T22:13:20.002Z"))
    as (a & b & Ha & _ & _ & _ & _ & _ & Hl & _).
  - reflexivity.
  - reflexivity.
  - reflexivity.
  - reflexivity.
  - exists a. split; [exact Ha | exact Hl].
Defined.

(** The statistics have an entry exactly for the ids of the current users. *)
Section StatisticsDomain.
Import Storage.

Lemma initStats_dom (users : list User.t) : forall stats : gmap string Stat,
  dom (fold_left (fun stats user =>
                    <[User.id user := mkStat user 0 0 0 0 None]> stats) users stats)
  = dom stats ∪ list_to_set (map User.id users).
Proof.
  induction users as [|u rest IH]; intros stats; simpl.
  - rewrite (right_id_L ∅ (∪)). reflexivity.
  - rewrite IH, dom_insert_L.
    rewrite (comm_L (∪) {[User.id u]} (dom stats)).
    rewrite <- (assoc_L (∪)). reflexivity.
Qed.

Lemma flushLongest_dom cs (stats : gmap string Stat) :
  dom (flushLongest cs stats) = dom stats.
Proof.
  unfold flushLongest. destruct cs as [[sid count]|]; [|reflexivity].
  destruct (stats !! sid); [apply dom_alter_L | reflexivity].
Qed.

Lemma scanEntry_dom (acc : Scan) (entry : Entry.t) :
  dom (fst (fst (scanEntry acc entry))) = dom (fst (fst acc)).
Proof.
  destruct acc as [[stats lastUserId] cs]. unfold scanEntry.
  destruct (stats !! Entry.userId entry); [|reflexivity].
  destruct (decide _).
  - destruct cs as [[sid count]|]; simpl; apply dom_alter_L.
  - simpl. rewrite flushLongest_dom. apply dom_alter_L.
Qed.

Lemma scan_dom (history : list Entry.t) : forall acc : Scan,
  dom (fst (fst (fold_left scanEntry history acc))) = dom (fst (fst acc)).
Proof.
  induction history as [|e rest IH]; intros acc; simpl; [reflexivity|].
  rewrite IH. apply scanEntry_dom.
Qed.

Lemma finalizeStreak_dom cs (stats : gmap string Stat) :
  dom (finalizeStreak cs stats) = dom stats.
Proof.
  unfold finalizeStreak. destruct cs as [[sid count]|]; [|reflexivity].
  destruct (stats !! sid); [apply dom_alter_L | reflexivity].
Qed.

Lemma calculateStatistics_dom (data : gmap string Value) :
  dom (calculateStatistics data) = list_to_set (map User.id (getUsers data)).
Proof.
  unfold calculateStatistics.
  pose proof (scan_dom (getHistory data) (initStats (getUsers data), None, None)) as Hs.
  destruct (fold_left scanEntry (getHistory data) (initStats (getUsers data), None, None))
    as [[stats lastUserId] cs].
  simpl in Hs. rewrite dom_fmap_L, finalizeStreak_dom, Hs.
  unfold initStats. rewrite initStats_dom, dom_empty_L.
  apply (left_id_L ∅ (∪)).
Qed.
End StatisticsDomain.

(** C6 on the code.  With Ann the only user left and the history
    Ann, Zed (removed), Ann, [calculateStatistics] has no entry for Zed,
    and Zed's win does not break Ann's streak: Ann's current and longest
    streak are 2 although her two wins are not consecutive. *)
Theorem statistics_skip_removed_participant :
  let stats := Storage.calculateStatistics Samples.afterRemoval in
  map Entry.userId (Storage.getHistory Samples.afterRemoval)
  = ["1700000000001"; "1700000000009"; "1700000000001"]%string /\
  map User.id (Storage.getUsers Samples.afterRemoval) = ["1700000000001"%string] /\
  stats !! "1700000000009"%string = None /\
  exists a, stats !! "1700000000001"%string = Some a /\
            Storage.winCount a = 2 /\
            Storage.currentStreak a = 2 /\
            Storage.longestStreak a = 2 /\
            Storage.percentage a = Some (Storage.PStr "66.7").
Proof.
  cbv zeta.
  split; [reflexivity|].
  split; [reflexivity|].
  split; [vm_compute; reflexivity|].
  eexists. split; [vm_compute; reflexivity|].
  repeat split.
Qed.

(** ** Race: finishing a race *)

Section FinishFacts.
Import Race.

Lemma completions_emit (es : list Event) (r : t) :
  completions (emit es r)
  = (completions r + length (List.filter isOnComplete es))%nat.
Proof.
  unfold completions, emit. cbn [log].
  rewrite List.filter_app, length_app. reflexivity.
Qed.

(** [completeRace] on a race that is not running does nothing. *)
Lemma completeRace_idle dateNow isoNow onComplete (r : t) :
  isRacing r = false ->
  completeRace dateNow isoNow onComplete r = (Normal, r).
Proof. intros H. unfold completeRace. rewrite H. reflexivity. Qed.

Lemma releaseFrame_fields (r : t) :
  isRacing (releaseFrame r) = isRacing r /\
  selectedUser (releaseFrame r) = selectedUser r /\
  log (releaseFrame r) = log r /\
  storage (releaseFrame r) = storage r /\
  raceTimeoutId (releaseFrame r) = raceTimeoutId r /\
  animationFrameId (releaseFrame r) = None.
Proof.
  unfold releaseFrame. destruct (animationFrameId r) eqn:E; cbn; auto 10.
Qed.

Lemma releaseTimeout_fields (r : t) :
  isRacing (releaseTimeout r) = isRacing r /\
  selectedUser (releaseTimeout r) = selectedUser r /\
  log (releaseTimeout r) = log r /\
  storage (releaseTimeout r) = storage r /\
  animationFrameId (releaseTimeout r) = animationFrameId r /\
  raceTimeoutId (releaseTimeout r) = None.
Proof.
  unfold releaseTimeout. destruct (raceTimeoutId r) eqn:E; cbn; auto 10.
Qed.

Lemma release_randomCalls (r : t) :
  randomCalls (releaseTimeout (releaseFrame r)) = randomCalls r.
Proof.
  unfold releaseTimeout, releaseFrame.
  destruct (animationFrameId r) eqn:Ea; cbn; destruct (raceTimeoutId r) eqn:Et;
    cbn; try rewrite Et; reflexivity.
Qed.

(** [completeRace] on a running race with a selected winner: the flag
    is reset, both handles are released, the winner is recorded and the
    callback is called once. *)
Lemma completeRace_running dateNow isoNow (cb : Callback) (winner : User.t) (r : t) :
  isRacing r = true ->
  selectedUser r = Some winner ->
  let r' := snd (completeRace dateNow isoNow (Some cb) r) in
  fst (completeRace dateNow isoNow (Some cb) r) = Normal /\
  isRacing r' = false /\
  animationFrameId r' = None /\
  raceTimeoutId r' = None /\
  completions r' = S (completions r) /\
  last (log r') = Some (OnComplete cb winner) /\
  storage r' = snd (Storage.addSpinEntry (User.id winner) (User.name winner)
                                         dateNow isoNow (storage r)).
Proof.
  intros Hr Hw. unfold completeRace. rewrite Hr. cbn [negb].
  destruct (releaseFrame_fields (set_isRacing false r))
    as (Hf1 & Hf2 & Hf3 & Hf4 & Hf5 & Hf6).
  destruct (releaseTimeout_fields (releaseFrame (set_isRacing false r)))
    as (Ht1 & Ht2 & Ht3 & Ht4 & Ht5 & Ht6).
  set (r1 := releaseTimeout (releaseFrame (set_isRacing false r))) in *.
  cbn [schedule snd emit selectedUser].
  rewrite Ht2, Hf2. cbn [set_isRacing selectedUser]. rewrite Hw.
  cbn. rewrite Ht1, Hf1, Ht5, Hf6, Ht6, Ht4, Hf4, Ht3, Hf3. cbn.
  repeat split.
  - unfold completions. cbn [log].
    rewrite !List.filter_app, !length_app. cbn. lia.
  - apply last_snoc.
Qed.
End FinishFacts.

(** C4.  For a running race with a selected winner, the natural end
    ([animate] at an elapsed time not below the duration) followed by the
    safety timeout, and the safety timeout followed by the natural end,
    each call [onComplete(winner)] exactly once: the first of the two
    resets [isRacing], and the second finds it reset and changes nothing. *)
Theorem finalize_once (dateNow isoNow dateNow' isoNow' : string)
    (currentTime start : Q) (cb : Race.Callback) (winner : User.t) (r : Race.t) :
  Race.isRacing r = true ->
  Race.selectedUser r = Some winner ->
  Race.startTime r = Some start ->
  (Race.duration r <= currentTime - start)%Q ->
  let natural := snd (Race.animate dateNow isoNow currentTime (Some cb) r) in
  let forced := snd (Race.safetyTimeout dateNow isoNow (Some cb) r) in
  Race.isRacing natural = false /\
  completions natural = S (completions r) /\
  last (Race.log natural) = Some (Race.OnComplete cb winner) /\
  Race.safetyTimeout dateNow' isoNow' (Some cb) natural = (Race.Normal, natural) /\
  Race.completeRace dateNow' isoNow' (Some cb) natural = (Race.Normal, natural) /\
  Race.isRacing forced = false /\
  completions forced = S (completions r) /\
  last (Race.log forced) = Some (Race.OnComplete cb winner) /\
  Race.animate dateNow' isoNow' currentTime (Some cb) forced = (Race.Normal, forced) /\
  Race.completeRace dateNow' isoNow' (Some cb) forced = (Race.Normal, forced).
Proof.
  intros Hr Hw Hs Hd natural forced.
  assert (Hnat : Race.isRacing natural = false /\
                 completions natural = S (completions r) /\
                 last (Race.log natural) = Some (Race.OnComplete cb winner)).
  { subst natural. unfold Race.animate. rewrite Hr, Hs. cbn [negb].
    cbn [Race.set_times Race.duration].
    apply Qgeb_true in Hd. rewrite Hd.
    destruct (completeRace_running dateNow isoNow cb winner
                (Race.set_times (Some start) (Some currentTime) r))
      as (_ & H1 & _ & _ & H2 & H3 & _); [exact Hr | exact Hw |].
    exact (conj H1 (conj H2 H3)). }
  assert (Hforced : Race.isRacing forced = false /\
                    completions forced = S (completions r) /\
                    last (Race.log forced) = Some (Race.OnComplete cb winner)).
  { subst forced. unfold Race.safetyTimeout. rewrite Hr.
    destruct (completeRace_running dateNow isoNow cb winner r Hr Hw)
      as (_ & H1 & _ & _ & H2 & H3 & _).
    exact (conj H1 (conj H2 H3)). }
  destruct Hnat as (Hn1 & Hn2 & Hn3). destruct Hforced as (Hf1 & Hf2 & Hf3).
  repeat split; try assumption.
  - unfold Race.safetyTimeout. rewrite Hn1. reflexivity.
  - apply completeRace_idle. exact Hn1.
  - unfold Race.animate. rewrite Hf1. reflexivity.
  - apply completeRace_idle. exact Hf1.
Qed.

(** The race of [Samples.startedRace], started at 5000 with a duration of
    1000, ends on the frame at 6000; the safety timeout fires afterwards. *)
Lemma finalize_once_witness :
  let natural :=
    snd (Race.animate "1700000501000" "2023-11-14T22:21:41.000Z" 6000
                      (Some Samples.displayResult) Samples.startedRace) in
  completions natural = S (completions Samples.startedRace) /\
  Race.safetyTimeout "1700000501016" "2023-11-14T22:21:41.016Z"
                     (Some Samples.displayResult) natural
  = (Race.Normal, natural).
Proof.
  assert (H1 : Race.isRacing Samples.startedRace = true) by (vm_compute; reflexivity).
  assert (H2 : Race.selectedUser Samples.startedRace = Some Samples.bob)
    by (vm_compute; reflexivity).
  assert (H3 : Race.startTime Samples.startedRace = Some 5000%Q)
    by (vm_compute; reflexivity).
  assert (H4 : (Race.duration Samples.startedRace <= 6000 - 5000)%Q).
  { apply Qle_bool_iff. vm_compute. reflexivity. }
  pose proof (finalize_once "1700000501000" "2023-11-14T22:21:41.000Z"
                "1700000501016" "2023-11-14T22:21:41.016Z" 6000 5000
                Samples.displayResult Samples.bob Samples.startedRace
                H1 H2 H3 H4) as H.
  cbv zeta in H. destruct H as (_ & Hcount & _ & Hsecond & _).
  cbv zeta. split; [exact Hcount | exact Hsecond].
Defined.

(** ** Race: refusing to start *)

(** C9 (as amended).  With fewer than two enabled users in storage,
    [Race.race] returns normally without raising; the race does not
    start: [isRacing], the stored namespace, the selection and the number
    of completion calls are unchanged and no random number is drawn.  The
    state is left unchanged altogether when a race is running or the
    cached user list already has fewer than two users; otherwise only
    [cleanup()] runs and the cached user list is refreshed.  The
    user-visible message is the alert of the caller [App.race], which does
    not call [Race.race] at all. *)
Theorem race_needs_two_enabled (random : nat -> Q) (dateNow isoNow : string)
    (now : Q) (onComplete : option Race.Callback) (r : Race.t) :
  (length (Storage.getEnabledUsers (Race.storage r)) < 2)%nat ->
  let res := Race.race random dateNow isoNow now onComplete r in
  fst res = Race.Normal /\
  (snd res = r \/
   Race.isRacing r = false /\
   snd res = Race.set_users (Storage.getEnabledUsers (Race.storage r))
                            (Race.cleanup r)) /\
  (Race.isRacing r = true \/ (length (Race.users r) < 2)%nat -> snd res = r) /\
  Race.isRacing (snd res) = Race.isRacing r /\
  Race.storage (snd res) = Race.storage r /\
  Race.selectedUser (snd res) = Race.selectedUser r /\
  Race.randomCalls (snd res) = Race.randomCalls r /\
  completions (snd res) = completions r /\
  App.race random dateNow isoNow now r
  = (App.Alerted "Add at least 2 users before racing!", r).
Proof.
  intros Hfew res.
  assert (Happ : App.race random dateNow isoNow now r
                 = (App.Alerted "Add at least 2 users before racing!", r)).
  { unfold App.race, Race.canRace.
    destruct (Z.geb_spec (Z.of_nat (length (Storage.getEnabledUsers (Race.storage r)))) 2)
      as [Hge|Hlt]; [lia|]. reflexivity. }
  subst res. unfold Race.race.
  destruct (Race.isRacing r) eqn:Hr; cbn [orb].
  { cbn [fst snd]. repeat split; auto. }
  destruct (Z.ltb_spec (Z.of_nat (length (Race.users r))) 2) as [Hcached|Hcached].
  { cbn [fst snd]. rewrite Hr. repeat split; auto. }
  assert (Hst : Race.storage (Race.cleanup r) = Race.storage r).
  { unfold Race.cleanup.
    destruct (releaseFrame_fields r) as (_ & _ & _ & H1 & _ & _).
    destruct (releaseTimeout_fields (Race.releaseFrame r)) as (_ & _ & _ & H2 & _ & _).
    cbn. rewrite H2, H1. reflexivity. }
  rewrite Hst. cbn [Race.set_users Race.users].
  destruct (Z.ltb_spec (Z.of_nat (length (Storage.getEnabledUsers (Race.storage r)))) 2)
    as [_|Hge]; [|lia].
  cbn [fst snd].
  destruct (releaseFrame_fields r) as (_ & Hf2 & Hf3 & Hf4 & _ & _).
  destruct (releaseTimeout_fields (Race.releaseFrame r)) as (_ & Ht2 & Ht3 & Ht4 & _ & _).
  repeat split.
  - right. split; reflexivity.
  - intros [Habs|Hlt]; [discriminate | lia].
  - cbn. exact Hst.
  - unfold Race.cleanup. cbn. rewrite Ht2, Hf2. reflexivity.
  - unfold Race.cleanup. cbn. apply release_randomCalls.
  - unfold completions, Race.cleanup. cbn. rewrite Ht3, Hf3.
    rewrite List.filter_app, length_app. cbn. lia.
  - exact Happ.
Qed.

Lemma race_needs_two_enabled_witness :
  fst (Race.race (fun _ => 1 # 2) "1700000500000" "2023-11-14T22:21:40.000Z" 5000
                 (Some Samples.displayResult) Samples.staleRace)
  = Race.Normal.
Proof.
  apply (race_needs_two_enabled (fun _ => 1 # 2) "1700000500000"
           "2023-11-14T22:21:40.000Z" 5000 (Some Samples.displayResult)
           Samples.staleRace).
  vm_compute. lia.
Defined.

(** C9 (as stated) fails.  With one enabled user in storage, [Race.race]
    returns normally, without [InsufficientParticipantsError] or any other
    error; and on the page drawn before Bob was disabled it changes the
    state of [Race] (the cached user list is replaced). *)
Lemma race_refusal_is_silent :
  let rnd := fun _ : nat => 1 # 2 in
  let res := Race.race rnd "1700000500000" "2023-11-14T22:21:40.000Z" 5000
                       (Some Samples.displayResult) in
  length (Storage.getEnabledUsers (Race.storage (Race.initial Samples.oneEnabled)))
  = 1%nat /\
  fst (res (Race.initial Samples.oneEnabled)) = Race.Normal /\
  fst (res (Race.initial Samples.oneEnabled))
  <> Race.Throw "InsufficientParticipantsError" /\
  length (Storage.getEnabledUsers (Race.storage Samples.staleRace)) = 1%nat /\
  fst (res Samples.staleRace) = Race.Normal /\
  Race.users (snd (res Samples.staleRace)) <> Race.users Samples.staleRace.
Proof.
  cbv zeta.
  split; [vm_compute; reflexivity|].
  split; [vm_compute; reflexivity|].
  split; [vm_compute; discriminate|].
  split; [vm_compute; reflexivity|].
  split; [vm_compute; reflexivity|].
  vm_compute. discriminate.
Qed.

(** * Further properties of the storage layer *)

Section HistoryWindow.
Import Storage HistoryOps.

Lemma append_length (data : gmap string Value) (c : Call) :
  length (getHistory (append data c))
  = if Z.of_nat (length (getHistory data)) + 1 >? 500
    then length (getHistory data)
    else S (length (getHistory data)).
Proof.
  rewrite getHistory_append. cbv zeta. rewrite length_app. simpl length.
  replace (Z.of_nat (length (getHistory data) + 1))
    with (Z.of_nat (length (getHistory data)) + 1) by lia.
  destruct (Z.gtb_spec (Z.of_nat (length (getHistory data)) + 1) 500) as [Hgt|Hle].
  - destruct (getHistory data) as [|e rest]; simpl in *; [lia|].
    rewrite length_app. simpl. lia.
  - rewrite length_app. simpl. lia.
Qed.
End HistoryWindow.

(** X1.  Whatever is appended, a history of at most 500 entries stays at
    most 500 entries long: after [n] calls of [addSpinEntry] it has
    [min (length + n) 500] entries. *)
Theorem history_window_bound (calls : list HistoryOps.Call)
    (data : gmap string Storage.Value) :
  (length (Storage.getHistory data) <= 500)%nat ->
  length (Storage.getHistory (HistoryOps.appendAll calls data))
  = Nat.min (length (Storage.getHistory data) + length calls) 500.
Proof.
  intros Hlen. induction calls as [|c calls IH] using rev_ind.
  - simpl. lia.
  - rewrite appendAll_snoc, append_length, IH, length_app. simpl length.
    destruct (Z.gtb_spec
                (Z.of_nat (Nat.min (length (Storage.getHistory data) + length calls) 500)
                 + 1) 500); lia.
Qed.

Lemma history_window_bound_witness :
  length (Storage.getHistory
            (HistoryOps.appendAll (repeat Samples.annWins 3) Samples.afterRemoval))
  = Nat.min (length (Storage.getHistory Samples.afterRemoval) + 3) 500.
Proof.
  apply (history_window_bound (repeat Samples.annWins 3) Samples.afterRemoval).
  vm_compute. lia.
Defined.

(** X2.  While at most 500 entries have been appended to an empty history,
    the history holds one entry per call, in call order, with the user id
    and name passed to the call and the sequence numbers 1, 2, ..., n. *)
Theorem history_numbered_until_full (calls : list HistoryOps.Call)
    (data : gmap string Storage.Value) :
  Storage.getHistory data = [] ->
  (length calls <= 500)%nat ->
  let history := Storage.getHistory (HistoryOps.appendAll calls data) in
  map Entry.spinNumber history = seqZ 1 (Z.of_nat (length calls)) /\
  map Entry.userId history = map HistoryOps.userId calls /\
  map Entry.userName history = map HistoryOps.userName calls.
Proof.
  intros Hempty Hlen history. subst history.
  rewrite (appendAll_numbered calls data Hempty Hlen).
  split; [apply numbered_spinNumbers|].
  generalize 1. induction calls as [|c rest IH]; intros first; [auto|].
  simpl in Hlen. destruct (IH ltac:(lia) (first + 1)) as [H1 H2].
  cbn [HistoryOps.numbered map HistoryOps.entryOf Entry.userId Entry.userName].
  rewrite H1, H2. auto.
Qed.

Lemma history_numbered_until_full_witness :
  map Entry.spinNumber
      (Storage.getHistory (HistoryOps.appendAll (repeat Samples.annWins 3) ∅))
  = seqZ 1 (Z.of_nat (length (repeat Samples.annWins 3))).
Proof.
  apply (history_numbered_until_full (repeat Samples.annWins 3) ∅).
  - reflexivity.
  - vm_compute. lia.
Defined.

(** X3.  [clearHistory()] empties the history and changes no other key: in
    particular the stored last-selected id stays, so the next race still
    avoids the previous winner; the next entry appended is numbered 1. *)
Theorem clearHistory_keeps_last_selected (data : gmap string Storage.Value)
    (userId userName dateNow isoNow : string) :
  let cleared := Storage.clearHistory data in
  Storage.getHistory cleared = [] /\
  Storage.getLastSelected cleared = Storage.getLastSelected data /\
  (forall key : string, key <> Storage.HISTORY -> cleared !! key = data !! key) /\
  Entry.spinNumber
    (fst (Storage.addSpinEntry userId userName dateNow isoNow cleared)) = 1.
Proof.
  cbv zeta. unfold Storage.clearHistory, Storage._setNamespaceKey.
  assert (Hh : Storage.getHistory (<[Storage.HISTORY := Storage.VHistory []]> data) = []).
  { unfold Storage.getHistory, Storage._getNamespaceKey.
    rewrite lookup_insert_eq. reflexivity. }
  split; [exact Hh|].
  split.
  - unfold Storage.getLastSelected, Storage._getNamespaceKey.
    rewrite lookup_insert_ne by (unfold Storage.HISTORY, Storage.LAST_SELECTED; discriminate).
    reflexivity.
  - split.
    + intros key Hk. rewrite lookup_insert_ne by congruence. reflexivity.
    + unfold Storage.addSpinEntry. cbn [fst Entry.spinNumber]. rewrite Hh. reflexivity.
Qed.

(** ** Statistics in general *)

Section StatisticsFacts.
Import Storage.

Lemma winsOf_snoc (id : string) (done : list Entry.t) (entry : Entry.t) :
  winsOf id (done ++ [entry])
  = winsOf id done + (if String.eqb (Entry.userId entry) id then 1 else 0).
Proof.
  unfold winsOf. rewrite List.filter_app, length_app. simpl.
  destruct (String.eqb (Entry.userId entry) id); simpl; lia.
Qed.

Lemma winsOf_nonneg (id : string) (done : list Entry.t) : 0 <= winsOf id done.
Proof. unfold winsOf. lia. Qed.

Lemma initStats_lookup (users : list User.t) : forall (stats : gmap string Stat) id st,
  fold_left (fun stats user => <[User.id user := mkStat user 0 0 0 0 None]> stats)
            users stats !! id = Some st ->
  stats !! id = Some st \/
  exists user, In user users /\ User.id user = id /\ st = mkStat user 0 0 0 0 None.
Proof.
  induction users as [|u rest IH]; intros stats id st H; simpl in H; [left; exact H|].
  destruct (IH _ _ _ H) as [Hold|(user & Hin & Hid & Hst)].
  - destruct (decide (User.id u = id)) as [Heq|Hne].
    + rewrite <- Heq, lookup_insert_eq in Hold. injection Hold as <-.
      right. exists u. split; [left; reflexivity | split; [exact Heq | reflexivity]].
    + rewrite lookup_insert_ne in Hold by exact Hne. left. exact Hold.
  - right. exists user. split; [right; exact Hin | split; assumption].
Qed.

Lemma scanInv_init (users : list User.t) : scanInv (initStats users, None, None) [].
Proof.
  split.
  - intros id st H. unfold initStats in H.
    destruct (initStats_lookup users ∅ id st H) as [Habs|(user & _ & _ & ->)].
    + rewrite lookup_empty in Habs. discriminate.
    + cbn. unfold winsOf. simpl. repeat split; lia.
  - intros sid count H. discriminate.
Qed.

Lemma scanInv_step (acc : Scan) (done : list Entry.t) (entry : Entry.t) :
  scanInv acc done -> scanInv (scanEntry acc entry) (done ++ [entry]).
Proof.
  destruct acc as [[stats lastUserId] cs]. intros [Hstats Hcs].
  unfold scanEntry. set (uid := Entry.userId entry).
  destruct (stats !! uid) as [su|] eqn:Eu.
  2:{ split; [|exact Hcs].
      intros id st Hid. rewrite winsOf_snoc. fold uid.
      destruct (String.eqb_spec uid id) as [->|Hne]; [congruence|].
      rewrite Z.add_0_r. apply Hstats. exact Hid. }
  assert (Hbump : forall id st, alter bumpWins uid stats !! id = Some st ->
            winCount st = winsOf id (done ++ [entry]) /\
            selections st = winsOf id (done ++ [entry]) /\
            0 <= longestStreak st <= winCount st /\
            Storage.currentStreak st = 0 /\ percentage st = None).
  { intros id st Hid. rewrite winsOf_snoc. fold uid.
    rewrite lookup_alter in Hid.
    destruct (decide (uid = id)) as [<-|Hne].
    - rewrite Eu in Hid. cbn in Hid. injection Hid as <-.
      rewrite String.eqb_refl. destruct (Hstats uid su Eu) as (H1 & H2 & H3 & H4 & H5).
      cbn. repeat split; lia || assumption.
    - destruct (String.eqb_spec uid id) as [->|_]; [congruence|].
      rewrite Z.add_0_r. apply Hstats. exact Hid. }
  assert (Hu : exists st, alter bumpWins uid stats !! uid = Some st /\ 1 <= winCount st).
  { exists (bumpWins su). rewrite lookup_alter_eq, Eu. split; [reflexivity|].
    destruct (Hstats uid su Eu) as (H1 & _). cbn. rewrite H1.
    pose proof (winsOf_nonneg uid done). lia. }
  destruct (decide (Some uid = lastUserId)) as [Hsame|Hdiff].
  - destruct cs as [[sid count]|].
    + split; [exact Hbump|].
      intros sid' count' [= <- <-].
      destruct (Hcs sid count eq_refl) as (Hlast & Hc & st & Hst & Hle).
      assert (sid = uid) by congruence. subst sid.
      split; [reflexivity|]. split; [lia|].
      exists (bumpWins su). rewrite lookup_alter_eq, Eu. split; [reflexivity|].
      rewrite Eu in Hst. injection Hst as <-. cbn. lia.
    + split; [exact Hbump|].
      intros sid' count' [= <- <-]. split; [reflexivity|]. split; [lia|]. exact Hu.
  - split.
    + intros id st Hid. unfold flushLongest in Hid.
      destruct cs as [[sid count]|]; [|apply Hbump; exact Hid].
      destruct (alter bumpWins uid stats !! sid) as [ss|] eqn:Es;
        [|apply Hbump; exact Hid].
      rewrite lookup_alter in Hid.
      destruct (decide (sid = id)) as [<-|Hne]; [|apply Hbump; exact Hid].
      rewrite Es in Hid. cbn in Hid. injection Hid as <-.
      destruct (Hbump sid ss Es) as (H1 & H2 & H3 & H4 & H5).
      destruct (Hcs sid count eq_refl) as (_ & Hc & st0 & Hst0 & Hle).
      assert (Hmono : winCount st0 <= winCount ss).
      { rewrite lookup_alter in Es. destruct (decide (uid = sid)) as [<-|Hn].
        - rewrite Hst0 in Es. cbn in Es. injection Es as <-. cbn. lia.
        - rewrite Hst0 in Es. injection Es as <-. lia. }
      cbn. repeat split; try assumption; lia.
    + intros sid' count' [= <- <-]. split; [reflexivity|]. split; [lia|].
      destruct Hu as (st & Hst & Hw).
      unfold flushLongest. destruct cs as [[sid count]|]; [|eauto].
      destruct (alter bumpWins uid stats !! sid) as [ss|] eqn:Es; [|eauto].
      rewrite lookup_alter. destruct (decide (sid = uid)) as [->|Hne].
      * rewrite Hst. cbn. eexists. split; [reflexivity|]. cbn. exact Hw.
      * eauto.
Qed.

Lemma scanInv_fold (history : list Entry.t) : forall (acc : Scan) (done : list Entry.t),
  scanInv acc done -> scanInv (fold_left scanEntry history acc) (done ++ history).
Proof.
  induction history as [|e rest IH]; intros acc done H; simpl.
  - rewrite app_nil_r. exact H.
  - replace (done ++ e :: rest) with ((done ++ [e]) ++ rest)
      by (rewrite <- app_assoc; reflexivity).
    apply IH. apply scanInv_step. exact H.
Qed.

(** Every entry of the result, in terms of the history. *)
Lemma calculateStatistics_entry (data : gmap string Value) (id : string) (st : Stat) :
  calculateStatistics data !! id = Some st ->
  winCount st = winsOf id (getHistory data) /\
  selections st = winsOf id (getHistory data) /\
  0 <= Storage.currentStreak st <= longestStreak st /\
  longestStreak st <= winCount st /\
  percentage st = Some (percentageOf (Z.of_nat (length (getHistory data))) st).
Proof.
  unfold calculateStatistics.
  pose proof (scanInv_fold (getHistory data) (initStats (getUsers data), None, None) []
                (scanInv_init (getUsers data))) as Hinv.
  simpl app in Hinv.
  destruct (fold_left scanEntry (getHistory data) (initStats (getUsers data), None, None))
    as [[stats lastUserId] cs].
  destruct Hinv as [Hstats Hcs].
  rewrite lookup_fmap. intros H.
  destruct (finalizeStreak cs stats !! id) as [sf|] eqn:Ef; [|discriminate].
  cbn in H. injection H as <-.
  assert (Hsf : winCount sf = winsOf id (getHistory data) /\
                selections sf = winsOf id (getHistory data) /\
                0 <= Storage.currentStreak sf <= longestStreak sf /\
                longestStreak sf <= winCount sf).
  { unfold finalizeStreak in Ef.
    assert (Hplain : forall s, stats !! id = Some s ->
              winCount s = winsOf id (getHistory data) /\
              selections s = winsOf id (getHistory data) /\
              0 <= Storage.currentStreak s <= longestStreak s /\
              longestStreak s <= winCount s).
    { intros s Hs. destruct (Hstats id s Hs) as (H1 & H2 & H3 & H4 & _).
      repeat split; lia || assumption. }
    destruct cs as [[sid count]|]; [|apply Hplain; exact Ef].
    destruct (stats !! sid) as [ss|] eqn:Es; [|apply Hplain; exact Ef].
    rewrite lookup_alter in Ef.
    destruct (decide (sid = id)) as [<-|Hne]; [|apply Hplain; exact Ef].
    rewrite Es in Ef. cbn in Ef. injection Ef as <-.
    destruct (Hstats sid ss Es) as (H1 & H2 & H3 & H4 & _).
    destruct (Hcs sid count eq_refl) as (_ & Hc & st0 & Hst0 & Hle).
    rewrite Es in Hst0. injection Hst0 as <-.
    cbn. repeat split; try assumption; lia. }
  cbn. destruct Hsf as (H1 & H2 & H3 & H4). repeat split; assumption || lia.
Qed.
End StatisticsFacts.

(** X4.  [calculateStatistics()] has an entry for an id exactly when a
    current user (enabled or not) has that id; ids that only occur in the
    history get none. *)
Theorem statistics_cover_current_users (data : gmap string Storage.Value)
    (id : string) :
  is_Some (Storage.calculateStatistics data !! id)
  <-> In id (map User.id (Storage.getUsers data)).
Proof.
  rewrite <- elem_of_dom, calculateStatistics_dom, elem_of_list_to_set.
  apply list_elem_of_In.
Qed.

(** X5.  In every entry of the statistics, [winCount] and [selections] are
    the number of history entries with that user id, at most the length of
    the history, and [percentage] is the number 0 for an empty history and
    else [toFixed(1)] of the double [(winCount / history.length) * 100]. *)
Theorem statistics_count_wins (data : gmap string Storage.Value)
    (id : string) (st : Storage.Stat) :
  Storage.calculateStatistics data !! id = Some st ->
  let total := Z.of_nat (length (Storage.getHistory data)) in
  Storage.winCount st = winsOf id (Storage.getHistory data) /\
  Storage.selections st = Storage.winCount st /\
  0 <= Storage.winCount st <= total /\
  Storage.percentage st
  = Some (if total >? 0
          then Storage.PStr
                 (Double.toFixed1 (Storage.winPercent (Storage.winCount st) total))
          else Storage.PNum 0).
Proof.
  intros H total.
  destruct (calculateStatistics_entry data id st H) as (H1 & H2 & _ & _ & H5).
  split; [exact H1|]. split; [congruence|]. split; [|exact H5].
  rewrite H1. unfold winsOf. subst total.
  pose proof (List.filter_length_le
                (fun e => String.eqb (Entry.userId e) id) (Storage.getHistory data)).
  lia.
Qed.

(** 23 wins in 80 races: the quotient is 28.75, the double computed by the
    source lies just below it, and the percentage reads "28.7". *)
Lemma statistics_count_wins_witness :
  exists st, Storage.calculateStatistics Samples.eightyRaces !! "A"%string = Some st /\
             Storage.winCount st = 23 /\
             Storage.percentage st = Some (Storage.PStr "28.7").
Proof.
  eexists. split; [vm_compute; reflexivity|].
  match goal with
  | |- Storage.winCount ?st = _ /\ _ =>
      destruct (statistics_count_wins Samples.eightyRaces "A"%string st)
        as (H1 & _ & _ & H4); [vm_compute; reflexivity|]
  end.
  split.
  - rewrite H1. vm_compute. reflexivity.
  - rewrite H4. vm_compute. reflexivity.
Defined.

(** X6.  In every entry of the statistics
    [0 <= currentStreak <= longestStreak <= winCount]. *)
Theorem statistics_streak_bounds (data : gmap string Storage.Value)
    (id : string) (st : Storage.Stat) :
  Storage.calculateStatistics data !! id = Some st ->
  0 <= Storage.currentStreak st /\
  Storage.currentStreak st <= Storage.longestStreak st /\
  Storage.longestStreak st <= Storage.winCount st.
Proof.
  intros H.
  destruct (calculateStatistics_entry data id st H) as (_ & _ & H3 & H4 & _).
  repeat split; lia.
Qed.

Lemma statistics_streak_bounds_witness :
  exists st, Storage.calculateStatistics Samples.sixRaces !! "A"%string = Some st /\
             Storage.longestStreak st <= Storage.winCount st.
Proof.
  exists (Storage.mkStat
            (User.mk "A" "Ann" "#FF6B6B" (Some true) "2023-11-14T22:13:20.001Z")
            5 5 3 3 (Some (Storage.PStr "83.3"))).
  assert (H : Storage.calculateStatistics Samples.sixRaces !! "A"%string
              = Some (Storage.mkStat
                        (User.mk "A" "Ann" "#FF6B6B" (Some true) "2023-11-14T22:13:20.001Z")
                        5 5 3 3 (Some (Storage.PStr "83.3"))))
    by (vm_compute; reflexivity).
  split; [exact H|].
  apply (statistics_streak_bounds Samples.sixRaces "A"%string _ H).
Defined.

(** X7.  With an empty history every entry of the statistics has zero
    wins, zero streaks and the number 0 (not a string) as percentage. *)
Theorem statistics_empty_history (data : gmap string Storage.Value)
    (id : string) (st : Storage.Stat) :
  Storage.getHistory data = [] ->
  Storage.calculateStatistics data !! id = Some st ->
  Storage.winCount st = 0 /\ Storage.selections st = 0 /\
  Storage.currentStreak st = 0 /\ Storage.longestStreak st = 0 /\
  Storage.percentage st = Some (Storage.PNum 0).
Proof.
  intros Hempty H.
  destruct (calculateStatistics_entry data id st H) as (H1 & H2 & H3 & H4 & H5).
  rewrite Hempty in H1, H2, H5. unfold winsOf in H1, H2. simpl in H1, H2, H5.
  repeat split; try lia; assumption.
Qed.

Lemma statistics_empty_history_witness :
  exists st, Storage.calculateStatistics Samples.twoEnabled !! "1700000000001"%string
             = Some st /\
             Storage.percentage st = Some (Storage.PNum 0).
Proof.
  assert (H : Storage.calculateStatistics Samples.twoEnabled !! "1700000000001"%string
              = Some (Storage.mkStat Samples.ann 0 0 0 0 (Some (Storage.PNum 0))))
    by (vm_compute; reflexivity).
  eexists. split; [exact H|].
  apply (statistics_empty_history Samples.twoEnabled "1700000000001"%string _
           eq_refl H).
Defined.

(** ** Users *)

Section UserFacts.
Import Storage.

Lemma getUsers_normal (data : gmap string Value) : Forall normal (getUsers data).
Proof.
  unfold getUsers. apply Forall_forall. intros u Hin.
  apply list_elem_of_In, in_map_iff in Hin.
  destruct Hin as (u0 & <- & _). unfold normal. cbn. discriminate.
Qed.

Lemma getUsers_stored (us : list User.t) (data : gmap string Value) :
  Forall normal us ->
  getUsers (_setNamespaceKey USERS (VUsers us) data) = us.
Proof.
  intros Hn. unfold getUsers, _getNamespaceKey, _setNamespaceKey.
  rewrite lookup_insert_eq.
  induction Hn as [|u rest Hu _ IH]; [reflexivity|].
  cbn [map]. rewrite IH. f_equal.
  destruct u as [i n c [b|] cr]; [reflexivity|]. exfalso. apply Hu. reflexivity.
Qed.

Lemma toggleFirst_normal (id : string) (us : list User.t) :
  Forall normal us -> Forall normal (toggleFirst id us).
Proof.
  induction 1 as [|u rest Hu Hrest IH]; simpl; [constructor|].
  destruct (String.eqb (User.id u) id).
  - constructor; [unfold normal; cbn; discriminate | exact Hrest].
  - constructor; assumption.
Qed.

Lemma removeFirst_normal (id : string) (us : list User.t) :
  Forall normal us -> Forall normal (removeFirst id us).
Proof.
  induction 1 as [|u rest Hu Hrest IH]; simpl; [constructor|].
  destruct (String.eqb (User.id u) id); [exact Hrest | constructor; auto].
Qed.

Lemma toggled_toggled (u : User.t) : normal u -> toggled (toggled u) = u.
Proof.
  destruct u as [i n c [[|]|] cr]; intros H; try reflexivity.
  exfalso. apply H. reflexivity.
Qed.

Lemma toggleFirst_twice (id : string) (us : list User.t) :
  Forall normal us -> toggleFirst id (toggleFirst id us) = us.
Proof.
  induction 1 as [|u rest Hu _ IH]; simpl; [reflexivity|].
  destruct (String.eqb (User.id u) id) eqn:E; simpl.
  - rewrite E. rewrite toggled_toggled by exact Hu. reflexivity.
  - rewrite E, IH. reflexivity.
Qed.

Lemma findUser_toggleFirst (id : string) (us : list User.t) :
  findUser id (toggleFirst id us) = toggled <$> findUser id us.
Proof.
  induction us as [|u rest IH]; simpl; [reflexivity|].
  destruct (String.eqb (User.id u) id) eqn:E; simpl; rewrite E; [reflexivity | exact IH].
Qed.

Lemma findUser_Some (id : string) (us : list User.t) (u : User.t) :
  findUser id us = Some u -> In u us /\ User.id u = id.
Proof.
  induction us as [|v rest IH]; simpl; [discriminate|].
  destruct (String.eqb_spec (User.id v) id) as [Heq|Hne].
  - intros [= <-]. split; [left; reflexivity | exact Heq].
  - intros H. destruct (IH H). split; [right|]; assumption.
Qed.

Lemma findUser_None (id : string) (us : list User.t) :
  findUser id us = None <-> ~ In id (map User.id us).
Proof.
  induction us as [|v rest IH]; simpl; [tauto|].
  destruct (String.eqb_spec (User.id v) id) as [Heq|Hne].
  - split; [discriminate | intros H; exfalso; apply H; left; exact Heq].
  - rewrite IH. tauto.
Qed.

Lemma removeFirst_ids (id : string) (us : list User.t) :
  NoDup (map User.id us) -> ~ In id (map User.id (removeFirst id us)).
Proof.
  induction us as [|v rest IH]; simpl; intros Hnd; [tauto|].
  apply NoDup_cons in Hnd. destruct Hnd as [Hv Hnd].
  destruct (String.eqb_spec (User.id v) id) as [Heq|Hne].
  - subst id. intros Hin. apply Hv. apply list_elem_of_In. exact Hin.
  - simpl. intros [H|H]; [exact (Hne H) | exact (IH Hnd H)].
Qed.

Lemma removeFirst_length (id : string) (us : list User.t) (u : User.t) :
  findUser id us = Some u -> S (length (removeFirst id us)) = length us.
Proof.
  induction us as [|v rest IH]; simpl; [discriminate|].
  destruct (String.eqb (User.id v) id); [reflexivity|].
  intros H. simpl. rewrite IH by exact H. reflexivity.
Qed.
End UserFacts.

Lemma toggleUserEnabled_known (id : string) (data : gmap string Storage.Value)
    (u : User.t) :
  Storage.findUser id (Storage.getUsers data) = Some u ->
  Storage.toggleUserEnabled id data
  = (Some (Storage.toggled u),
     Storage._setNamespaceKey Storage.USERS
       (Storage.VUsers (Storage.toggleFirst id (Storage.getUsers data))) data).
Proof. intros H. unfold Storage.toggleUserEnabled. rewrite H. reflexivity. Qed.

(** X8.  [toggleUserEnabled(id)] with an unknown id returns [null] and
    writes nothing.  With a known id it returns the first user with that
    id with the flag flipped, and leaves the history and every key but
    [users] as they are; toggling the same id twice gives back the user
    list there was. *)
Theorem toggleUserEnabled_twice (id : string) (data : gmap string Storage.Value) :
  let once := Storage.toggleUserEnabled id data in
  let twice := Storage.toggleUserEnabled id (snd once) in
  (Storage.getUser id data = None -> once = (None, data)) /\
  fst once = Storage.toggled <$> Storage.getUser id data /\
  Storage.getUser id (snd once) = fst once /\
  length (Storage.getUsers (snd once)) = length (Storage.getUsers data) /\
  Storage.getUsers (snd twice) = Storage.getUsers data /\
  (forall key : string, key <> Storage.USERS -> snd twice !! key = data !! key).
Proof.
  cbv zeta. unfold Storage.getUser.
  pose proof (getUsers_normal data) as Hn.
  destruct (Storage.findUser id (Storage.getUsers data)) as [u|] eqn:Ef.
  - rewrite (toggleUserEnabled_known id data u Ef). cbn [fst snd].
    set (data1 := Storage._setNamespaceKey Storage.USERS
                    (Storage.VUsers (Storage.toggleFirst id (Storage.getUsers data)))
                    data).
    assert (Hus : Storage.getUsers data1
                  = Storage.toggleFirst id (Storage.getUsers data)).
    { apply getUsers_stored. apply toggleFirst_normal. exact Hn. }
    assert (Hf1 : Storage.findUser id (Storage.getUsers data1)
                  = Some (Storage.toggled u)).
    { rewrite Hus, findUser_toggleFirst, Ef. reflexivity. }
    rewrite (toggleUserEnabled_known id data1 _ Hf1). cbn [fst snd].
    split; [discriminate|].
    split; [reflexivity|].
    split; [exact Hf1|].
    split.
    { rewrite Hus. clear. induction (Storage.getUsers data) as [|v rest IH];
        [reflexivity|]. simpl. destruct (String.eqb (User.id v) id); simpl; congruence. }
    split.
    + rewrite getUsers_stored.
      * rewrite Hus. apply toggleFirst_twice. exact Hn.
      * rewrite Hus. apply toggleFirst_normal, toggleFirst_normal. exact Hn.
    + intros key Hk. subst data1. unfold Storage._setNamespaceKey.
      rewrite !lookup_insert_ne by congruence. reflexivity.
  - unfold Storage.toggleUserEnabled. rewrite Ef. cbn [fst snd]. rewrite Ef.
    repeat split; auto.
Qed.

(** X9.  [deleteUser(id)] with an unknown id returns [false] and writes
    nothing.  With a known id it returns [true] and removes one user; the
    history and the stored last-selected id are untouched, so with unique
    ids the deleted user has no statistics entry any more although the
    wins stay in the history. *)
Theorem deleteUser_keeps_history (id : string) (data : gmap string Storage.Value) :
  let res := Storage.deleteUser id data in
  (Storage.getUser id data = None -> res = (false, data)) /\
  (forall u, Storage.getUser id data = Some u ->
     fst res = true /\
     S (length (Storage.getUsers (snd res))) = length (Storage.getUsers data) /\
     Storage.getHistory (snd res) = Storage.getHistory data /\
     Storage.getLastSelected (snd res) = Storage.getLastSelected data /\
     (NoDup (map User.id (Storage.getUsers data)) ->
      Storage.getUser id (snd res) = None /\
      Storage.calculateStatistics (snd res) !! id = None)).
Proof.
  cbv zeta. unfold Storage.getUser, Storage.deleteUser.
  pose proof (getUsers_normal data) as Hn.
  destruct (Storage.findUser id (Storage.getUsers data)) as [u|] eqn:Ef.
  - split; [discriminate|]. intros u' [= <-]. cbn [fst snd].
    assert (Hus : Storage.getUsers
                    (Storage._setNamespaceKey Storage.USERS
                       (Storage.VUsers (Storage.removeFirst id (Storage.getUsers data)))
                       data)
                  = Storage.removeFirst id (Storage.getUsers data)).
    { apply getUsers_stored. apply removeFirst_normal. exact Hn. }
    split; [reflexivity|].
    split; [rewrite Hus; apply (removeFirst_length id _ u Ef)|].
    split.
    { unfold Storage.getHistory, Storage._getNamespaceKey, Storage._setNamespaceKey.
      rewrite lookup_insert_ne by (unfold Storage.USERS, Storage.HISTORY; discriminate).
      reflexivity. }
    split.
    { unfold Storage.getLastSelected, Storage._getNamespaceKey, Storage._setNamespaceKey.
      rewrite lookup_insert_ne by (unfold Storage.USERS, Storage.LAST_SELECTED; discriminate).
      reflexivity. }
    intros Hnd.
    assert (Hgone : ~ In id (map User.id (Storage.removeFirst id (Storage.getUsers data)))).
    { apply removeFirst_ids. exact Hnd. }
    split.
    + rewrite Hus. apply findUser_None. exact Hgone.
    + apply eq_None_not_Some. intros Hsome.
      apply elem_of_dom in Hsome. rewrite calculateStatistics_dom, Hus in Hsome.
      apply elem_of_list_to_set, list_elem_of_In in Hsome. exact (Hgone Hsome).
  - split; [reflexivity | discriminate].
Qed.

(** ** First visit and reset *)

(** X10.  [resetAll()] leaves a namespace that holds only the first-visit
    flag ['false']: no users, no history, no last-selected id, the default
    settings, and [isFirstVisit()] is true again. *)
Theorem resetAll_clears_everything (data : gmap string Storage.Value) :
  let fresh := Storage.resetAll data in
  Storage.getUsers fresh = [] /\
  Storage.getHistory fresh = [] /\
  Storage.getLastSelected fresh = None /\
  Storage.getSettings fresh = Storage.DEFAULT_SETTINGS /\
  Storage.isFirstVisit fresh = true /\
  Storage.init fresh = fresh /\
  (forall key : string, key <> Storage.FIRST_VISIT -> fresh !! key = None).
Proof.
  cbv zeta. repeat split; try reflexivity.
  intros key Hk. unfold Storage.resetAll, Storage._setNamespaceKey.
  rewrite lookup_insert_ne by congruence. apply lookup_empty.
Qed.

(** X11.  [init()] sets the first-visit flag only when it is missing: it is
    idempotent and never undoes [markFirstVisitDone()], after which
    [isFirstVisit()] is false whatever the user list is. *)
Theorem first_visit_flag (data : gmap string Storage.Value) :
  Storage.init (Storage.init data) = Storage.init data /\
  Storage.init (Storage.markFirstVisitDone data) = Storage.markFirstVisitDone data /\
  Storage.isFirstVisit (Storage.markFirstVisitDone data) = false /\
  (data !! Storage.FIRST_VISIT = None ->
   Storage.isFirstVisit (Storage.init data)
   = (Z.of_nat (length (Storage.getUsers data)) =? 0)).
Proof.
  assert (Hdone : Storage.markFirstVisitDone data !! Storage.FIRST_VISIT
                  = Some (Storage.VStr "true")).
  { unfold Storage.markFirstVisitDone, Storage._setNamespaceKey.
    apply lookup_insert_eq. }
  repeat split.
  - destruct (data !! Storage.FIRST_VISIT) eqn:E.
    + assert (H : Storage.init data = data).
      { unfold Storage.init, Storage._getNamespaceKey. rewrite E. reflexivity. }
      rewrite H. exact H.
    + assert (H : Storage.init data
                  = <[Storage.FIRST_VISIT := Storage.VStr "false"]> data).
      { unfold Storage.init, Storage._getNamespaceKey. rewrite E. reflexivity. }
      rewrite H. unfold Storage.init, Storage._getNamespaceKey.
      rewrite lookup_insert_eq. reflexivity.
  - unfold Storage.init, Storage._getNamespaceKey. rewrite Hdone. reflexivity.
  - unfold Storage.isFirstVisit, Storage._getNamespaceKey. rewrite Hdone. reflexivity.
  - intros Hnone. unfold Storage.init, Storage._getNamespaceKey. rewrite Hnone.
    unfold Storage.isFirstVisit, Storage._getNamespaceKey, Storage._setNamespaceKey.
    rewrite lookup_insert_eq. cbn [String.eqb andb].
    unfold Storage.getUsers, Storage._getNamespaceKey.
    rewrite lookup_insert_ne by (unfold Storage.FIRST_VISIT, Storage.USERS; discriminate).
    reflexivity.
Qed.

(** ** Settings *)

Section SettingsFacts.
Import Storage.

Lemma getSettingsFrom_stored (defaults s : gmap string SettingValue)
    (data : gmap string Value) :
  getSettingsFrom defaults (_setNamespaceKey SETTINGS (VSettings s) data)
  = s ∪ defaults.
Proof.
  unfold getSettingsFrom, _getNamespaceKey, _setNamespaceKey.
  rewrite lookup_insert_eq. reflexivity.
Qed.

Lemma getSettingFrom_lookup (defaults : gmap string SettingValue) (key : string)
    (data : gmap string Value) :
  getSettingFrom defaults key data = getSettingsFrom defaults data !! key.
Proof.
  unfold getSettingFrom.
  destruct (getSettingsFrom defaults data !! key) eqn:E; [reflexivity|].
  unfold getSettingsFrom in E.
  destruct (_getNamespaceKey SETTINGS data) as [[| |s|]|]; try exact E.
  apply lookup_union_None in E. apply E.
Qed.

Lemma getSettings_fresh (data : gmap string Value) :
  getSettings data = getSettingsFrom DEFAULT_SETTINGS data.
Proof. reflexivity. Qed.
End SettingsFacts.

(** X12.  [updateSettings(updates)] stores the current settings overridden
    by [updates]: afterwards [getSetting(key)] is the updated value for a
    key of [updates] and what it was before for any other key; the keys of
    the namespace other than [settings] are unchanged. *)
Theorem updateSettings_roundtrip (defaults updates : gmap string Storage.SettingValue)
    (data : gmap string Storage.Value) (key : string) :
  let data' := snd (Storage.updateSettings defaults updates data) in
  fst (Storage.updateSettings defaults updates data)
  = Storage.getSettingsFrom defaults data' /\
  (forall v, updates !! key = Some v ->
             Storage.getSettingFrom defaults key data' = Some v) /\
  (updates !! key = None ->
   Storage.getSettingFrom defaults key data'
   = Storage.getSettingFrom defaults key data) /\
  (forall k : string, k <> Storage.SETTINGS -> data' !! k = data !! k).
Proof.
  cbv zeta. unfold Storage.updateSettings. cbn [fst snd].
  rewrite !getSettingFrom_lookup, getSettingsFrom_stored.
  assert (Hidem : (updates ∪ Storage.getSettingsFrom defaults data) ∪ defaults
                  = updates ∪ Storage.getSettingsFrom defaults data).
  { rewrite <- (assoc_L (∪)). f_equal.
    unfold Storage.getSettingsFrom.
    destruct (Storage._getNamespaceKey Storage.SETTINGS data) as [[| |s|]|];
      try apply (idemp_L (∪)).
    rewrite <- (assoc_L (∪)), (idemp_L (∪)). reflexivity. }
  rewrite Hidem.
  split; [reflexivity|].
  split; [intros v Hv; apply lookup_union_Some_l; exact Hv|].
  split; [intros Hnone; apply lookup_union_r; exact Hnone|].
  intros k Hk. unfold Storage._setNamespaceKey.
  rewrite lookup_insert_ne by congruence. reflexivity.
Qed.

Section SetSettingFacts.
Import Storage.

Lemma getSettingsFrom_unstored (defaults : gmap string SettingValue)
    (data : gmap string Value) :
  unstored data -> getSettingsFrom defaults data = defaults.
Proof.
  intros H. unfold getSettingsFrom.
  destruct (_getNamespaceKey SETTINGS data) as [[| |s|]|] eqn:E; try reflexivity.
  exfalso. exact (H s E).
Qed.

Lemma setSetting_unstored (key : string) (value : SettingValue)
    (defaults : gmap string SettingValue) (data : gmap string Value) :
  unstored data ->
  setSetting key value defaults data
  = (<[key := value]> defaults,
     _setNamespaceKey SETTINGS (VSettings (<[key := value]> defaults)) data).
Proof.
  intros H. unfold setSetting.
  destruct (_getNamespaceKey SETTINGS data) as [[| |s|]|] eqn:E; try reflexivity.
  exfalso. exact (H s E).
Qed.

Lemma setSetting_frame (key : string) (value : SettingValue)
    (defaults : gmap string SettingValue) (data : gmap string Value) (k : string) :
  k <> SETTINGS -> snd (setSetting key value defaults data) !! k = data !! k.
Proof.
  intros Hk. unfold setSetting.
  destruct (_getNamespaceKey SETTINGS data) as [[| |s|]|]; cbn [snd];
    unfold _setNamespaceKey; rewrite lookup_insert_ne by congruence; reflexivity.
Qed.
End SetSettingFacts.

(** X13.  [setSetting(key, value)] makes [getSetting(key)] return [value]
    and leaves every other setting as it was.  When no settings are stored
    it writes into the defaults object itself: [value] then stays the
    default for [key] even after the stored settings are removed again by
    [resetAll()], as long as the page is not reloaded. *)
Theorem setSetting_roundtrip (key : string) (value : Storage.SettingValue)
    (defaults : gmap string Storage.SettingValue) (data : gmap string Storage.Value) :
  let defaults' := fst (Storage.setSetting key value defaults data) in
  let data' := snd (Storage.setSetting key value defaults data) in
  Storage.getSettingFrom defaults' key data' = Some value /\
  (forall k : string, k <> key ->
     Storage.getSettingFrom defaults' k data'
     = Storage.getSettingFrom defaults k data) /\
  (forall k : string, k <> Storage.SETTINGS -> data' !! k = data !! k) /\
  (data !! Storage.SETTINGS = None ->
   defaults' = <[key := value]> defaults /\
   Storage.getSettingFrom defaults' key (Storage.resetAll data') = Some value).
Proof.
  cbv zeta.
  assert (Hreset : forall d (dat : gmap string Storage.Value),
            Storage.getSettingsFrom d (Storage.resetAll dat) = d).
  { intros d dat. unfold Storage.getSettingsFrom, Storage.resetAll,
      Storage._getNamespaceKey, Storage._setNamespaceKey.
    rewrite lookup_insert_ne by (unfold Storage.FIRST_VISIT, Storage.SETTINGS; discriminate).
    rewrite lookup_empty. reflexivity. }
  destruct (Storage._getNamespaceKey Storage.SETTINGS data) as [v|] eqn:Es.
  - destruct v as [us|h|s|str].
    3:{ assert (Heq : Storage.setSetting key value defaults data
                      = (defaults,
                         Storage._setNamespaceKey Storage.SETTINGS
                           (Storage.VSettings (<[key := value]> (s ∪ defaults))) data)).
        { unfold Storage.setSetting. rewrite Es. reflexivity. }
        split; [|split; [|split]].
        - rewrite Heq. cbn [fst snd].
          rewrite getSettingFrom_lookup, getSettingsFrom_stored.
          apply lookup_union_Some_l, lookup_insert_eq.
        - intros k Hk. rewrite Heq. cbn [fst snd].
          rewrite !getSettingFrom_lookup, getSettingsFrom_stored.
          unfold Storage.getSettingsFrom. rewrite Es.
          destruct ((<[key:=value]> (s ∪ defaults)) !! k) eqn:E.
          + rewrite (lookup_union_Some_l _ _ _ _ E).
            rewrite lookup_insert_ne in E by congruence. symmetry. exact E.
          + rewrite lookup_union_r by exact E.
            rewrite lookup_insert_ne in E by congruence.
            rewrite E. apply lookup_union_None in E. apply E.
        - apply setSetting_frame.
        - intros Habs. unfold Storage._getNamespaceKey in Es. congruence. }
    all: assert (Hun : unstored data)
           by (intros s0 Hs0; rewrite Es in Hs0; discriminate);
         rewrite (setSetting_unstored key value defaults data Hun); cbn [fst snd];
         (split; [|split; [|split]]);
         [ rewrite getSettingFrom_lookup, getSettingsFrom_stored, (idemp_L (∪));
           apply lookup_insert_eq
         | intros k Hk; rewrite !getSettingFrom_lookup, getSettingsFrom_stored,
             (idemp_L (∪)), (getSettingsFrom_unstored defaults data Hun);
           apply lookup_insert_ne; congruence
         | intros k Hk; unfold Storage._setNamespaceKey;
           rewrite lookup_insert_ne by congruence; reflexivity
         | intros Habs; unfold Storage._getNamespaceKey in Es; congruence ].
  - assert (Hun : unstored data) by (intros s0 Hs0; rewrite Es in Hs0; discriminate).
    rewrite (setSetting_unstored key value defaults data Hun). cbn [fst snd].
    split; [|split; [|split]].
    + rewrite getSettingFrom_lookup, getSettingsFrom_stored, (idemp_L (∪)).
      apply lookup_insert_eq.
    + intros k Hk. rewrite !getSettingFrom_lookup, getSettingsFrom_stored,
        (idemp_L (∪)), (getSettingsFrom_unstored defaults data Hun).
      apply lookup_insert_ne. congruence.
    + intros k Hk. unfold Storage._setNamespaceKey.
      rewrite lookup_insert_ne by congruence. reflexivity.
    + intros _. split; [reflexivity|].
      rewrite getSettingFrom_lookup, Hreset. apply lookup_insert_eq.
Qed.

(** ** Backup and restore *)

Section BackupFacts.
Import Storage.

Lemma importString_other (key : string) (value : option string)
    (data : gmap string Value) (k : string) :
  k <> key -> importString key value data !! k = data !! k.
Proof.
  intros Hk. unfold importString. destruct value as [[|c s]|]; try reflexivity.
  unfold _setNamespaceKey. rewrite lookup_insert_ne by congruence. reflexivity.
Qed.

Lemma importString_same (key : string) (value : option string)
    (data : gmap string Value) :
  getString key (importString key value data)
  = match value with
    | Some (String c s) => Some (String c s)
    | _ => getString key data
    end.
Proof.
  unfold importString. destruct value as [[|c s]|]; try reflexivity.
  unfold getString, _getNamespaceKey, _setNamespaceKey.
  rewrite lookup_insert_eq. reflexivity.
Qed.

Lemma getUsers_idempotent (data data0 : gmap string Value) :
  getUsers (_setNamespaceKey USERS (VUsers (getUsers data)) data0) = getUsers data.
Proof. apply getUsers_stored. apply getUsers_normal. Qed.
End BackupFacts.

(** X14.  Restoring a backup made by [exportAllData()] into any namespace
    succeeds and brings back the users, the history and the settings of
    the exported namespace.  The last-selected id is brought back when the
    backup has one; when it has none the id stored before the restore
    stays. *)
Theorem import_of_export (isoNow : string)
    (data data0 : gmap string Storage.Value) :
  let res := Storage.importAllData (Some (Storage.exportAllData isoNow data)) data0 in
  fst res = true /\
  Storage.getUsers (snd res) = Storage.getUsers data /\
  Storage.getHistory (snd res) = Storage.getHistory data /\
  Storage.getSettings (snd res) = Storage.getSettings data /\
  Storage.getLastSelected (snd res)
  = match Storage.getLastSelected data with
    | Some (String c s) => Some (String c s)
    | _ => Storage.getLastSelected data0
    end.
Proof.
  cbv zeta. unfold Storage.importAllData, Storage.exportAllData.
  cbn [fst snd Storage.users Storage.history Storage.settings Storage.lastSelected
       Storage.lastView Storage.firstVisit].
  set (d1 := Storage._setNamespaceKey Storage.USERS
               (Storage.VUsers (Storage.getUsers data)) data0).
  set (d2 := Storage._setNamespaceKey Storage.HISTORY
               (Storage.VHistory (Storage.getHistory data)) d1).
  set (d3 := Storage._setNamespaceKey Storage.SETTINGS
               (Storage.VSettings (Storage.getSettings data)) d2).
  set (d4 := Storage.importString Storage.LAST_SELECTED
               (Storage.getString Storage.LAST_SELECTED data) d3).
  set (d5 := Storage.importString Storage.LAST_VIEW
               (Storage.getString Storage.LAST_VIEW data) d4).
  set (d6 := Storage.importString Storage.FIRST_VISIT
               (Storage.getString Storage.FIRST_VISIT data) d5).
  assert (Hkey : forall k : string,
            k <> Storage.LAST_SELECTED -> k <> Storage.LAST_VIEW ->
            k <> Storage.FIRST_VISIT -> d6 !! k = d3 !! k).
  { intros k H1 H2 H3. subst d6 d5 d4.
    rewrite !importString_other by assumption. reflexivity. }
  split; [reflexivity|].
  split.
  { transitivity (Storage.getUsers d1); [|apply getUsers_idempotent].
    unfold Storage.getUsers, Storage._getNamespaceKey.
    rewrite Hkey by (unfold Storage.USERS, Storage.LAST_SELECTED, Storage.LAST_VIEW,
                       Storage.FIRST_VISIT; discriminate).
    subst d3 d2. unfold Storage._setNamespaceKey.
    rewrite !lookup_insert_ne by discriminate. reflexivity. }
  split.
  { unfold Storage.getHistory, Storage._getNamespaceKey.
    rewrite Hkey by (unfold Storage.HISTORY, Storage.LAST_SELECTED, Storage.LAST_VIEW,
                       Storage.FIRST_VISIT; discriminate).
    subst d3 d2. unfold Storage._setNamespaceKey.
    rewrite lookup_insert_ne by discriminate. rewrite lookup_insert_eq.
    reflexivity. }
  split.
  { unfold Storage.getSettings at 1. unfold Storage._getNamespaceKey.
    rewrite Hkey by (unfold Storage.SETTINGS, Storage.LAST_SELECTED, Storage.LAST_VIEW,
                       Storage.FIRST_VISIT; discriminate).
    subst d3. unfold Storage._setNamespaceKey. rewrite lookup_insert_eq.
    unfold Storage.getSettings.
    destruct (Storage._getNamespaceKey Storage.SETTINGS data) as [[| |s|]|];
      try apply (idemp_L (∪)).
    rewrite <- (assoc_L (∪)), (idemp_L (∪)). reflexivity. }
  change (Storage.getLastSelected d6) with (Storage.getString Storage.LAST_SELECTED d6).
  assert (H64 : Storage.getString Storage.LAST_SELECTED d6
                = Storage.getString Storage.LAST_SELECTED d4).
  { unfold Storage.getString, Storage._getNamespaceKey. subst d6 d5.
    rewrite !importString_other by discriminate. reflexivity. }
  rewrite H64. subst d4. rewrite importString_same.
  change (Storage.getString Storage.LAST_SELECTED data)
    with (Storage.getLastSelected data).
  destruct (Storage.getLastSelected data) as [[|c s]|]; try reflexivity.
  all: unfold Storage.getString, Storage.getLastSelected, Storage._getNamespaceKey;
    subst d3 d2 d1; unfold Storage._setNamespaceKey;
    rewrite !lookup_insert_ne by discriminate; reflexivity.
Qed.

(** * Further properties of the motion model *)

Section MotionFacts.
Import HorseState.
Local Open Scope Q_scope.

Lemma Qmin_cap (d : Q) : 50 < d -> Qmin d 50 = 50.
Proof.
  intros H. unfold Qmin, GenericMinMax.gmin.
  apply Qgt_alt in H. rewrite H. reflexivity.
Qed.

Lemma Qmin_nonneg (d : Q) : 0 <= d -> 0 <= Qmin d 50.
Proof.
  intros H. destruct (Q.min_spec d 50) as [[_ ->]|[_ ->]]; [exact H | discriminate].
Qed.

(** The loop over the schedule: where it stops and what it leaves. *)
Lemma applySpeedChanges_spec (pending : list SpeedChange) (e base : Q) :
  forall vel idx,
    let res := applySpeedChanges pending e base vel idx in
    exists applied : nat,
      snd res = (idx + applied)%nat /\
      (applied <= length pending)%nat /\
      (forall i c, (i < applied)%nat -> pending !! i = Some c -> time c <= e) /\
      (forall c, pending !! applied = Some c -> e < time c) /\
      (applied = 0%nat -> fst res = vel) /\
      (forall c, (0 < applied)%nat -> pending !! (applied - 1)%nat = Some c ->
                 fst res = base * multiplier c).
Proof.
  induction pending as [|change rest IH]; intros vel idx; cbn zeta; simpl.
  - exists 0%nat. split; [lia|]. split; [lia|]. split; [intros; lia|].
    split; [intros c Hc; discriminate Hc|]. split; [reflexivity | intros; lia].
  - destruct (Qgeb e (time change)) eqn:E.
    + apply Qgeb_true in E.
      destruct (IH (base * multiplier change) (S idx)) as (n & H1 & H2 & H3 & H4 & H5 & H6).
      exists (S n). split; [lia|]. split; [simpl; lia|]. split; [|split; [|split]].
      * intros i c Hi Hc. destruct i as [|i]; simpl in Hc.
        -- injection Hc as <-. exact E.
        -- apply (H3 i c); [lia | exact Hc].
      * intros c Hc. simpl in Hc. apply H4. exact Hc.
      * intros Habs. discriminate.
      * intros c _ Hc. simpl in Hc. rewrite Nat.sub_0_r in Hc.
        destruct n as [|n].
        -- simpl in Hc. injection Hc as <-. apply H5. reflexivity.
        -- apply H6; [lia|]. simpl. rewrite Nat.sub_0_r. exact Hc.
    + apply Qgeb_false in E. exists 0%nat.
      split; [simpl; lia|]. split; [simpl; lia|]. split; [intros; lia|].
      split; [intros c [= <-]; exact E|]. split; [reflexivity | intros; lia].
Qed.

Lemma applySpeedChanges_nonneg (pending : list SpeedChange) (e base : Q) :
  forall vel idx,
    0 <= base -> 0 <= vel ->
    Forall (fun c => 0 <= multiplier c) pending ->
    0 <= fst (applySpeedChanges pending e base vel idx).
Proof.
  induction pending as [|change rest IH]; intros vel idx Hb Hv Hm; simpl; [exact Hv|].
  apply Forall_cons in Hm. destruct Hm as [Hc Hrest].
  destruct (Qgeb e (time change)); [|exact Hv].
  apply IH; [exact Hb | apply Qmult_le_0_compat; assumption | exact Hrest].
Qed.

(** The fields [update] leaves alone or takes from the schedule loop. *)
Lemma update_schedule_fields (h : t) (e d : Q) :
  currentSpeedIndex (update h e d)
  = snd (applySpeedChanges (drop (currentSpeedIndex h) (speedChanges h)) e
                           (baseSpeed h) (velocity h) (currentSpeedIndex h)) /\
  speedChanges (update h e d) = speedChanges h /\
  baseSpeed (update h e d) = baseSpeed h /\
  finalStretchStart (update h e d) = finalStretchStart h.
Proof.
  unfold update, moved.
  destruct (applySpeedChanges _ _ _ _ _) as [vel j]. cbn [snd].
  destruct (isWinner h && Qgeb e (finalStretchStart h)); [cbn; auto|].
  destruct (negb (isWinner h)); [|cbn; auto].
  destruct (Qgeb _ _); cbn; auto.
Qed.
End MotionFacts.

(** X15.  A frame delta above 50 ms counts as 50 ms: [update] gives the
    same state for [deltaTime = 5000] (or any value above 50) as for 50. *)
Theorem update_caps_frame_delta (h : HorseState.t) (elapsedTime deltaTime : Q) :
  (50 < deltaTime)%Q ->
  HorseState.update h elapsedTime deltaTime = HorseState.update h elapsedTime 50.
Proof.
  intros H. unfold HorseState.update, HorseState.moved.
  rewrite (Qmin_cap deltaTime H).
  replace (Qmin 50 50) with 50%Q by reflexivity. reflexivity.
Qed.

Lemma update_caps_frame_delta_witness :
  HorseState.update Samples.fastWinner 16 5000
  = HorseState.update Samples.fastWinner 16 50.
Proof.
  apply (update_caps_frame_delta Samples.fastWinner 16 5000).
  reflexivity.
Defined.

(** X16.  In a frame at or after 95% of the duration the winner is ahead
    of every non-winner on the same track: the winner is at or beyond the
    finish, a non-winner at most at 92% of the track.  (The final stretch
    of the winner is not empty, so that [finalProgress] is a number.) *)
Theorem winner_ahead_late (winner other : HorseState.t)
    (elapsedTime deltaTime elapsedTime' deltaTime' : Q) :
  HorseState.isWinner winner = true ->
  HorseState.isWinner other = false ->
  HorseState.raceDistance other = HorseState.raceDistance winner ->
  (0 < HorseState.raceDistance winner)%Q ->
  (HorseState.finalStretchStart winner < HorseState.totalDuration winner)%Q ->
  (HorseState.totalDuration winner * d0_95 <= elapsedTime)%Q ->
  (HorseState.position (HorseState.update other elapsedTime' deltaTime')
   < HorseState.position (HorseState.update winner elapsedTime deltaTime))%Q.
Proof.
  intros Hw Ho Hd HL _ He.
  pose proof (update_loser_capped other elapsedTime' deltaTime' Ho) as Hcap.
  rewrite Hd in Hcap.
  assert (Hfin : (HorseState.finishCoordinate winner
                  <= HorseState.position
                       (HorseState.update winner elapsedTime deltaTime))%Q).
  { rewrite (update_winner_late winner elapsedTime deltaTime Hw He).
    destruct (Qltb _ _) eqn:E; [apply Qle_refl | apply Qltb_false in E; exact E]. }
  unfold HorseState.finishCoordinate, d0_92 in *. lra.
Qed.

Lemma winner_ahead_late_witness :
  (HorseState.position (HorseState.update Samples.slowLoser 960 16)
   < HorseState.position (HorseState.update Samples.fastWinner 960 16))%Q.
Proof.
  apply (winner_ahead_late Samples.fastWinner Samples.slowLoser 960 16 960 16).
  - reflexivity.
  - reflexivity.
  - reflexivity.
  - reflexivity.
  - vm_compute. reflexivity.
  - apply Qle_bool_iff. vm_compute. reflexivity.
Defined.

(** X17.  In the final stretch ([elapsedTime >= finalStretchStart], the
    stretch not being empty) the winner is never left below the floor
    [50 + raceDistance * (0.7 + 0.3 * finalProgress)]. *)
Theorem winner_final_stretch_floor (h : HorseState.t) (elapsedTime deltaTime : Q) :
  HorseState.isWinner h = true ->
  (HorseState.finalStretchStart h < HorseState.totalDuration h)%Q ->
  (HorseState.finalStretchStart h <= elapsedTime)%Q ->
  let finalProgress :=
    ((elapsedTime - HorseState.finalStretchStart h)
     / (HorseState.totalDuration h - HorseState.finalStretchStart h))%Q in
  (50 + HorseState.raceDistance h * (d0_7 + finalProgress * d0_3)
   <= HorseState.position (HorseState.update h elapsedTime deltaTime))%Q.
Proof.
  intros Hw _ He finalProgress.
  unfold HorseState.update, HorseState.moved. rewrite Hw.
  apply Qgeb_true in He. rewrite He. cbn [andb].
  destruct (HorseState.applySpeedChanges _ _ _ _ _) as [vel idx].
  fold finalProgress.
  set (floor := (50 + HorseState.raceDistance h * (d0_7 + finalProgress * d0_3))%Q).
  set (pos := (HorseState.position h + vel * Qmin deltaTime 50
               + HorseState.baseSpeed h * Qmin deltaTime 50 * (1 + finalProgress * d0_8))%Q).
  assert (Hfloor : (floor <= (if Qltb pos floor then floor else pos))%Q).
  { destruct (Qltb pos floor) eqn:E; [apply Qle_refl | apply Qltb_false in E; exact E]. }
  cbn [HorseState.position].
  destruct (Qgeb elapsedTime (HorseState.totalDuration h * d0_95)); [|exact Hfloor].
  destruct (Qltb (if Qltb pos floor then floor else pos) (50 + HorseState.raceDistance h))
    eqn:E2; [|exact Hfloor].
  apply Qltb_true in E2. apply Qlt_le_weak.
  apply Qle_lt_trans with (y := (if Qltb pos floor then floor else pos)); assumption.
Qed.

Lemma winner_final_stretch_floor_witness :
  (50 + HorseState.raceDistance Samples.fastWinner
        * (d0_7 + ((800 - HorseState.finalStretchStart Samples.fastWinner)
                   / (HorseState.totalDuration Samples.fastWinner
                      - HorseState.finalStretchStart Samples.fastWinner)) * d0_3)
   <= HorseState.position (HorseState.update Samples.fastWinner 800 16))%Q.
Proof.
  apply (winner_final_stretch_floor Samples.fastWinner 800 16).
  - reflexivity.
  - vm_compute. reflexivity.
  - apply Qle_bool_iff. vm_compute. reflexivity.
Defined.

(** X18.  [update] moves [currentSpeedIndex] forward over exactly the
    scheduled changes whose time has been reached, and stops at the first
    one that lies ahead: the index never decreases, never passes the end
    of the schedule, every change it passes has [time <= elapsedTime] and
    the change it stops at has [time > elapsedTime]. *)
Theorem update_schedule_index (h : HorseState.t) (elapsedTime deltaTime : Q) :
  (HorseState.currentSpeedIndex h <= length (HorseState.speedChanges h))%nat ->
  let idx := HorseState.currentSpeedIndex h in
  let idx' := HorseState.currentSpeedIndex (HorseState.update h elapsedTime deltaTime) in
  (idx <= idx' <= length (HorseState.speedChanges h))%nat /\
  HorseState.speedChanges (HorseState.update h elapsedTime deltaTime)
  = HorseState.speedChanges h /\
  (forall i c, (idx <= i < idx')%nat -> HorseState.speedChanges h !! i = Some c ->
               (HorseState.time c <= elapsedTime)%Q) /\
  (forall c, HorseState.speedChanges h !! idx' = Some c ->
             (elapsedTime < HorseState.time c)%Q).
Proof.
  intros Hidx idx idx'. subst idx'.
  destruct (update_schedule_fields h elapsedTime deltaTime) as (Hi & Hs & _ & _).
  rewrite Hi. fold idx.
  pose proof (applySpeedChanges_spec
                (drop idx (HorseState.speedChanges h)) elapsedTime
                (HorseState.baseSpeed h) (HorseState.velocity h) idx) as Hspec.
  cbv zeta in Hspec.
  destruct Hspec as (n & Hj & Hn & Hpassed & Hstop & _ & _).
  rewrite Hj. rewrite length_drop in Hn.
  split; [fold idx in Hidx; lia|]. split; [exact Hs|]. split.
  - intros i c Hi' Hc. apply (Hpassed (i - idx)%nat c); [lia|].
    rewrite lookup_drop. replace (idx + (i - idx))%nat with i by lia. exact Hc.
  - intros c Hc. apply Hstop. rewrite lookup_drop. exact Hc.
Qed.

Lemma update_schedule_index_witness :
  (HorseState.currentSpeedIndex Samples.fastWinner
   <= HorseState.currentSpeedIndex (HorseState.update Samples.fastWinner 250 16))%nat.
Proof.
  apply (update_schedule_index Samples.fastWinner 250 16).
  vm_compute. lia.
Defined.

(** ** Monotone motion *)

Section MonotoneFacts.
Import HorseState.
Local Open Scope Q_scope.

Lemma wellFormed_update (h : t) (e d : Q) :
  wellFormed h -> 0 <= d -> e <= totalDuration h ->
  wellFormed (update h e d) /\ position h <= position (update h e d).
Proof.
  intros (Hb & Hv & Hm & Hf & HL & Hcap) Hd He.
  destruct (update_schedule_fields h e d) as (_ & Hsc & Hbs & Hfs).
  assert (Hvel : 0 <= fst (applySpeedChanges
                             (drop (currentSpeedIndex h) (speedChanges h)) e
                             (baseSpeed h) (velocity h) (currentSpeedIndex h))).
  { apply applySpeedChanges_nonneg; try assumption.
    apply Forall_drop. exact Hm. }
  pose proof (Qmin_nonneg d Hd) as Hcd.
  assert (Hrest : raceDistance (update h e d) = raceDistance h /\
                  totalDuration (update h e d) = totalDuration h /\
                  isWinner (update h e d) = isWinner h).
  { split; [apply update_raceDistance|].
    split; [apply update_totalDuration | apply update_isWinner]. }
  destruct Hrest as (HrL & HrT & HrW).
  unfold wellFormed. rewrite Hsc, Hbs, Hfs, HrL, HrT, HrW.
  unfold update, moved in *.
  destruct (applySpeedChanges _ _ _ _ _) as [vel idx]. cbn [fst] in Hvel.
  set (cdt := Qmin d 50) in *.
  set (fp := (e - finalStretchStart h) / (totalDuration h - finalStretchStart h)).
  assert (Hstep : 0 <= vel * cdt) by (apply Qmult_le_0_compat; assumption).
  assert (Hden : 0 < totalDuration h - finalStretchStart h) by lra.
  assert (Hfp1 : fp <= 1).
  { unfold fp. apply Qle_shift_div_r; [exact Hden | lra]. }
  destruct (isWinner h) eqn:Hw; cbn [andb negb].
  - destruct (Qgeb e (finalStretchStart h)) eqn:Efs.
    + apply Qgeb_true in Efs.
      assert (Hfp0 : 0 <= fp).
      { unfold fp. apply Qle_shift_div_l; [exact Hden | lra]. }
      assert (Hboost : 0 <= baseSpeed h * cdt * (1 + fp * d0_8)).
      { apply Qmult_le_0_compat; [apply Qmult_le_0_compat; assumption|].
        unfold d0_8. assert (0 <= fp * (8 # 10)) by
          (apply Qmult_le_0_compat; [exact Hfp0 | discriminate]). lra. }
      set (pos := position h + vel * cdt + baseSpeed h * cdt * (1 + fp * d0_8)) in *.
      set (floor := 50 + raceDistance h * (d0_7 + fp * d0_3)).
      assert (Hp1 : position h <= (if Qltb pos floor then floor else pos)).
      { destruct (Qltb pos floor) eqn:E.
        - apply Qltb_true in E. unfold pos in *. lra.
        - unfold pos. lra. }
      cbn [velocity position].
      split; [repeat split; try assumption; discriminate|].
      destruct (Qgeb e (totalDuration h * d0_95)); [|exact Hp1].
      destruct (Qltb _ (50 + raceDistance h)) eqn:E2; [|exact Hp1].
      apply Qltb_true in E2. lra.
    + cbn [velocity position].
      split; [repeat split; try assumption; discriminate|].
      destruct (Qgeb e (totalDuration h * d0_95)).
      * destruct (Qltb _ (50 + raceDistance h)) eqn:E2; [|lra].
        apply Qltb_true in E2. lra.
      * lra.
  - specialize (Hcap eq_refl).
    assert (Hslow : 0 <= (if Qgeb e (finalStretchStart h)
                          then vel * (1 - fp * d0_25) else vel)).
    { destruct (Qgeb e (finalStretchStart h)); [|exact Hvel].
      apply Qmult_le_0_compat; [exact Hvel|]. unfold d0_25. lra. }
    destruct (Qgeb (position h + vel * cdt) (50 + raceDistance h * d0_92)) eqn:Ecap;
      cbn [velocity position].
    + split; [|exact Hcap].
      repeat split; try assumption.
      * apply Qmult_le_0_compat; [exact Hb | discriminate].
      * intros _. apply Qle_refl.
    + apply Qgeb_false in Ecap.
      split; [|lra].
      repeat split; try assumption. intros _. lra.
Qed.

Lemma wellFormed_run (frames : list (Q * Q)) : forall h,
  wellFormed h ->
  Forall (fun f => fst f <= totalDuration h /\ 0 <= snd f) frames ->
  wellFormed (run h frames) /\ position h <= position (run h frames).
Proof.
  induction frames as [|f rest IH]; intros h Hwf Hfr.
  - split; [exact Hwf | apply Qle_refl].
  - apply Forall_cons in Hfr. destruct Hfr as [[He Hd] Hrest].
    destruct (wellFormed_update h (fst f) (snd f) Hwf Hd He) as [Hwf' Hle].
    unfold run. simpl. fold (run (update h (fst f) (snd f)) rest).
    destruct (IH (update h (fst f) (snd f)) Hwf') as [Hwf'' Hle'].
    { rewrite update_totalDuration. exact Hrest. }
    split; [exact Hwf''|]. eapply Qle_trans; eassumption.
Qed.
End MonotoneFacts.

(** ** The speed schedule *)

Section ScheduleFacts.
Import HorseState.
Local Open Scope Q_scope.

Lemma insertByTime_Forall (P : SpeedChange -> Prop) (c : SpeedChange)
    (l : list SpeedChange) :
  P c -> Forall P l -> Forall P (insertByTime c l).
Proof.
  intros Hc. induction 1 as [|d r Hd Hr IH]; simpl; [repeat constructor; exact Hc|].
  destruct (Qle_bool (time d - time c) 0); repeat constructor; assumption.
Qed.

Lemma sortByTime_Forall (P : SpeedChange -> Prop) (l : list SpeedChange) :
  Forall P l -> Forall P (sortByTime l).
Proof.
  unfold sortByTime. assert (Hacc : Forall P []) by constructor.
  revert Hacc. generalize (@nil SpeedChange) as acc.
  induction l as [|c rest IH]; intros acc Hacc Hl; simpl; [exact Hacc|].
  apply Forall_cons in Hl. destruct Hl as [Hc Hrest].
  apply IH; [apply insertByTime_Forall; assumption | exact Hrest].
Qed.

Lemma insertByTime_length (c : SpeedChange) (l : list SpeedChange) :
  length (insertByTime c l) = S (length l).
Proof.
  induction l as [|d r IH]; simpl; [reflexivity|].
  destruct (Qle_bool (time d - time c) 0); simpl; [rewrite IH|]; reflexivity.
Qed.

Lemma sortByTime_length (l : list SpeedChange) : length (sortByTime l) = length l.
Proof.
  unfold sortByTime.
  assert (H : forall acc, length (fold_left (fun acc c => insertByTime c acc) l acc)
                          = (length acc + length l)%nat).
  { induction l as [|c rest IH]; intros acc; simpl; [lia|].
    rewrite IH, insertByTime_length. lia. }
  rewrite H. reflexivity.
Qed.

Lemma insertByTime_sorted (c : SpeedChange) (l : list SpeedChange) :
  byTime l -> byTime (insertByTime c l).
Proof.
  unfold byTime. induction 1 as [|d r Hr IH Hhd]; simpl.
  - repeat constructor.
  - destruct (Qle_bool (time d - time c) 0) eqn:E.
    + apply Qle_bool_iff in E. constructor; [exact IH|].
      destruct r as [|d' r']; simpl.
      * constructor. lra.
      * inversion Hhd as [|? ? Hdd']; subst.
        destruct (Qle_bool (time d' - time c) 0); constructor; [exact Hdd' | lra].
    + assert (Hlt : time c < time d).
      { apply Qnot_le_lt. intros Hle. assert (Hb : Qle_bool (time d - time c) 0 = true)
          by (apply Qle_bool_iff; lra). congruence. }
      constructor; [constructor; assumption|]. constructor. lra.
Qed.

Lemma sortByTime_sorted (l : list SpeedChange) : byTime (sortByTime l).
Proof.
  unfold sortByTime. assert (Hacc : byTime []) by constructor.
  revert Hacc. generalize (@nil SpeedChange) as acc.
  induction l as [|c rest IH]; intros acc Hacc; simpl; [exact Hacc|].
  apply IH. apply insertByTime_sorted. exact Hacc.
Qed.

Section Loop.
Variable random : nat -> Q.
Hypothesis random_range : forall j, 0 <= random j /\ random j < 1.

Lemma generateLoop_spec (T : Q) (numChanges : Z) (todo : nat) :
  forall (i : Z) (k : nat) (changes : list SpeedChange),
    0 < T -> (0 <= i)%Z -> (i + Z.of_nat todo <= numChanges)%Z ->
    let res := generateLoop random todo i numChanges T k changes in
    snd res = (k + todo)%nat /\
    length (fst res) = (length changes + todo)%nat /\
    (Forall (scheduled T) changes -> Forall (scheduled T) (fst res)).
Proof using random_range.
  induction todo as [|todo IH]; intros i k changes HT Hi Hn; cbn zeta; simpl.
  - repeat split; try lia. auto.
  - destruct (IH (i + 1)%Z (S k)
                (changes ++ [mkChange (T / inject_Z (numChanges + 1) * inject_Z (i + 1))
                                      (d0_6 + random k * d1_2)])
                HT ltac:(lia) ltac:(lia)) as (H1 & H2 & H3).
    split; [lia|]. split; [rewrite H2, length_app; simpl; lia|].
    intros Hch. apply H3. apply Forall_app. split; [exact Hch|].
    constructor; [|constructor].
    destruct (random_range k) as [Hr0 Hr1].
    unfold scheduled. cbn [time multiplier]. unfold d0_6, d1_2.
    assert (HN : 0 < inject_Z (numChanges + 1)).
    { rewrite <- (Zlt_Qlt 0). lia. }
    assert (HI : 0 < inject_Z (i + 1)).
    { rewrite <- (Zlt_Qlt 0). lia. }
    assert (HIN : inject_Z (i + 1) < inject_Z (numChanges + 1)).
    { rewrite <- Zlt_Qlt. lia. }
    assert (Hstep : 0 < T / inject_Z (numChanges + 1)).
    { apply Qlt_shift_div_l; [exact HN | lra]. }
    repeat split; try lra.
    + apply Qmult_lt_0_compat; assumption.
    + apply Qlt_le_trans
        with (y := T / inject_Z (numChanges + 1) * inject_Z (numChanges + 1)).
      * apply Qmult_lt_l; assumption.
      * unfold Qdiv. rewrite <- Qmult_assoc.
        rewrite (Qmult_comm (/ inject_Z (numChanges + 1))).
        rewrite Qmult_inv_r by lra. rewrite Qmult_1_r. apply Qle_refl.
Qed.
End Loop.
End ScheduleFacts.

Section ConstructorFacts.
Import HorseState.
Local Open Scope Q_scope.
Variable random : nat -> Q.
Hypothesis random_range : forall j, 0 <= random j /\ random j < 1.

Lemma numChanges_range (k : nat) :
  (6 <= 6 + Math_floor (random k * 5) <= 10)%Z.
Proof using random_range.
  destruct (random_range k) as [H0 H1].
  pose proof (draw_range random 5 k H0 H1 ltac:(lia)) as Hd.
  unfold draw in Hd. change (inject_Z (Z.of_nat 5)) with 5 in Hd. lia.
Qed.

Lemma generateSpeedChanges_spec (T : Q) (k : nat) :
  0 < T ->
  let res := generateSpeedChanges random T k in
  (6 <= length (fst res) <= 10)%nat /\
  snd res = (k + 1 + length (fst res))%nat /\
  Forall (scheduled T) (fst res) /\
  byTime (fst res).
Proof using random_range.
  intros HT. cbv zeta. unfold generateSpeedChanges.
  pose proof (numChanges_range k) as Hn.
  set (numChanges := (6 + Math_floor (random k * 5))%Z) in *.
  pose proof (generateLoop_spec random random_range T numChanges (Z.to_nat numChanges)
                0%Z (S k) [] HT ltac:(lia) ltac:(lia)) as Hloop.
  cbv zeta in Hloop.
  destruct (generateLoop random (Z.to_nat numChanges) 0 numChanges T (S k) [])
    as [changes k'].
  cbn [fst snd] in *. destruct Hloop as (Hk & Hlen & Hall). simpl in Hlen.
  rewrite sortByTime_length.
  split; [lia|]. split; [lia|].
  split; [apply sortByTime_Forall, Hall; constructor | apply sortByTime_sorted].
Qed.

Lemma new_wellFormed (index : Z) (userId userName color : string) (winner : bool)
    (T L : Q) (k : nat) :
  0 < T -> 0 <= L ->
  let h := fst (new random index userId userName color winner T L k) in
  wellFormed h /\ position h = 50 /\ totalDuration h = T /\
  raceDistance h = L /\ isWinner h = winner.
Proof using random_range.
  intros HT HL. cbv zeta. unfold new.
  pose proof (generateSpeedChanges_spec T k HT) as Hg. cbv zeta in Hg.
  destruct (generateSpeedChanges random T k) as [changes k'].
  cbn [fst snd] in *. destruct Hg as (_ & _ & Hall & _).
  split; [|repeat split].
  assert (Hbase : 0 <= L / T).
  { apply Qle_shift_div_l; [exact HT | lra]. }
  unfold wellFormed. cbn.
  split; [exact Hbase|]. split; [exact Hbase|].
  split.
  { eapply Forall_impl; [exact Hall|]. intros c (_ & _ & Hm & _).
    unfold d0_6 in Hm. lra. }
  split; [unfold d0_7; lra|]. split; [exact HL|].
  intros _. unfold d0_92. lra.
Qed.
End ConstructorFacts.

Lemma run_totalDuration (frames : list (Q * Q)) : forall h,
  HorseState.totalDuration (HorseState.run h frames) = HorseState.totalDuration h.
Proof.
  induction frames as [|f rest IH]; intros h; [reflexivity|].
  unfold HorseState.run in *. simpl. rewrite IH. apply update_totalDuration.
Qed.

(** X19.  A motion state made by the constructor (positive duration,
    non-negative track length, random numbers in [0, 1)) never moves
    backwards: over frames with [elapsedTime <= totalDuration] and a
    non-negative [deltaTime], each [update] leaves the position at least
    where it was, and it is never left of the start offset 50. *)
Theorem position_never_decreases (random : nat -> Q) (index : Z)
    (userId userName color : string) (winner : bool) (T L : Q) (k : nat)
    (frames : list (Q * Q)) (elapsedTime deltaTime : Q) :
  (forall j, (0 <= random j)%Q /\ (random j < 1)%Q) ->
  (0 < T)%Q -> (0 <= L)%Q ->
  Forall (fun f => (fst f <= T)%Q /\ (0 <= snd f)%Q) frames ->
  (elapsedTime <= T)%Q -> (0 <= deltaTime)%Q ->
  let h := HorseState.run
             (fst (HorseState.new random index userId userName color winner T L k))
             frames in
  (50 <= HorseState.position h)%Q /\
  (HorseState.position h
   <= HorseState.position (HorseState.update h elapsedTime deltaTime))%Q.
Proof.
  intros Hr HT HL Hfr He Hd h.
  destruct (new_wellFormed random Hr index userId userName color winner T L k HT HL)
    as (Hwf & Hpos & HTeq & _ & _).
  destruct (wellFormed_run frames _ Hwf) as [Hwf' Hle].
  { rewrite HTeq. exact Hfr. }
  fold h in Hwf', Hle. rewrite Hpos in Hle.
  split; [exact Hle|].
  apply wellFormed_update; try assumption.
  subst h. rewrite run_totalDuration, HTeq. exact He.
Qed.

Lemma position_never_decreases_witness :
  (HorseState.position (HorseState.run Samples.slowLoser (Samples.frames16 3))
   <= HorseState.position
        (HorseState.update (HorseState.run Samples.slowLoser (Samples.frames16 3))
                           48 16))%Q.
Proof.
  apply (position_never_decreases (fun _ => 0%Q) 1 "1700000000002" "Bob" "#4ECDC4"
           false 1000 900 0 (Samples.frames16 3) 48 16).
  - intros j. split; [apply Qle_refl | reflexivity].
  - reflexivity.
  - discriminate.
  - repeat constructor; discriminate.
  - discriminate.
  - discriminate.
Defined.

(** X20.  For a positive duration and random numbers in [0, 1),
    [generateSpeedChanges()] returns between 6 and 10 changes, sorted by
    time, each at a time strictly inside the race and with a multiplier in
    [0.6, 1.8); it draws one random number for the count and one per
    change. *)
Theorem generateSpeedChanges_schedule (random : nat -> Q) (T : Q) (k : nat) :
  (forall j, (0 <= random j)%Q /\ (random j < 1)%Q) ->
  (0 < T)%Q ->
  let changes := fst (HorseState.generateSpeedChanges random T k) in
  (6 <= length changes <= 10)%nat /\
  snd (HorseState.generateSpeedChanges random T k) = (k + 1 + length changes)%nat /\
  Forall (scheduled T) changes /\
  byTime changes.
Proof.
  intros Hr HT. exact (generateSpeedChanges_spec random Hr T k HT).
Qed.

Lemma generateSpeedChanges_schedule_witness :
  (6 <= length (fst (HorseState.generateSpeedChanges (fun _ => 3 # 4) 1000 0)) <= 10)%nat.
Proof.
  apply (generateSpeedChanges_schedule (fun _ => 3 # 4) 1000 0).
  - intros j. split; discriminate || reflexivity.
  - reflexivity.
Defined.

(** * Further properties of the race driver *)

Section DriverFacts.
Import Race.

Lemma cleanup_fields (r : t) :
  isRacing (cleanup r) = false /\
  horses (cleanup r) = [] /\
  animationFrameId (cleanup r) = None /\
  raceTimeoutId (cleanup r) = None /\
  users (cleanup r) = users r /\
  storage (cleanup r) = storage r /\
  selectedUser (cleanup r) = selectedUser r /\
  selectedIndex (cleanup r) = selectedIndex r /\
  randomCalls (cleanup r) = randomCalls r /\
  nextHandle (cleanup r) = nextHandle r /\
  duration (cleanup r) = duration r /\
  log (cleanup r) = log r ++ [HorseClassesRemoved ["racing"]; ButtonDisabled false] /\
  timers (cleanup r)
  = match raceTimeoutId r with
    | Some ht => delete ht
    | None => fun m => m
    end (match animationFrameId r with
         | Some hf => delete hf (timers r)
         | None => timers r
         end).
Proof.
  unfold cleanup, releaseTimeout, releaseFrame.
  destruct (animationFrameId r) as [hf|] eqn:Ef; cbn;
    destruct (raceTimeoutId r) as [ht|] eqn:Et; cbn; rewrite ?Et; cbn;
    repeat split; rewrite ?Ef, ?Et; reflexivity.
Qed.

Lemma placed_no_completion (hs : list HorseState.t) :
  List.filter isOnComplete
    (map (fun h => HorsePlaced (HorseState.userId h) (HorseState.position h)) hs) = [].
Proof. induction hs as [|h rest IH]; [reflexivity | exact IH]. Qed.

(** A frame before the end of the race: every horse is updated once, the
    next frame is requested, nothing else happens. *)
Lemma animate_midrace dateNow isoNow (currentTime start : Q) onComplete (r : t) :
  isRacing r = true ->
  startTime r = Some start ->
  (currentTime - start < duration r)%Q ->
  let deltaTime := match lastFrameTime r with
                   | Some l => if Qeq_bool l 0 then 16%Q else (currentTime - l)%Q
                   | None => 16%Q
                   end in
  let r' := snd (animate dateNow isoNow currentTime onComplete r) in
  fst (animate dateNow isoNow currentTime onComplete r) = Normal /\
  horses r' = map (fun h => HorseState.update h (currentTime - start) deltaTime)
                  (horses r) /\
  animationFrameId r' = Some (nextHandle r) /\
  timers r' = <[nextHandle r := AnimateTask onComplete]> (timers r) /\
  nextHandle r' = S (nextHandle r) /\
  lastFrameTime r' = Some currentTime /\
  isRacing r' = true /\
  completions r' = completions r /\
  storage r' = storage r /\
  users r' = users r /\
  selectedUser r' = selectedUser r /\
  selectedIndex r' = selectedIndex r /\
  raceTimeoutId r' = raceTimeoutId r /\
  duration r' = duration r /\
  startTime r' = startTime r /\
  randomCalls r' = randomCalls r.
Proof.
  intros Hr Hs Hd. cbv zeta. unfold animate. rewrite Hr, Hs. cbn [negb].
  cbn [set_times duration]. apply Qgeb_false in Hd. rewrite Hd.
  unfold updateHorses, schedule, set_animationFrameId, set_horses, emit, set_times,
    completions.
  cbn [fst snd horses animationFrameId timers nextHandle lastFrameTime isRacing
       storage users selectedUser selectedIndex raceTimeoutId duration startTime
       randomCalls log].
  rewrite ?Hr, ?Hs.
  repeat split; try reflexivity.
  rewrite List.filter_app, length_app, placed_no_completion. simpl. lia.
Qed.
End DriverFacts.

Section CreateFacts.
Import Race.
Variable random : nat -> Q.

Lemma new_fields (index : Z) (userId userName color : string) (winner : bool)
    (T L : Q) (k : nat) :
  let h := fst (HorseState.new random index userId userName color winner T L k) in
  HorseState.index h = index /\ HorseState.userId h = userId /\
  HorseState.userName h = userName /\ HorseState.isWinner h = winner /\
  HorseState.totalDuration h = T /\ HorseState.raceDistance h = L /\
  HorseState.position h = 50%Q.
Proof.
  cbv zeta. unfold HorseState.new.
  destruct (HorseState.generateSpeedChanges random T k) as [changes k'].
  cbn. repeat split.
Qed.

(** One horse per user, in order; the winner flag is set exactly at the
    selected index. *)
Lemma createHorses_spec (us : list User.t) : forall (index selected : Z) (T : Q) (k : nat),
  let hs := fst (createHorses random us index selected T k) in
  length hs = length us /\
  forall i h, hs !! i = Some h ->
    exists u, us !! i = Some u /\
      HorseState.userId h = User.id u /\
      HorseState.userName h = User.name u /\
      HorseState.isWinner h = (index + Z.of_nat i =? selected) /\
      HorseState.totalDuration h = T /\
      HorseState.raceDistance h = raceDistance /\
      HorseState.position h = 50%Q.
Proof.
  induction us as [|user rest IH]; intros index selected T k; cbv zeta.
  - split; [reflexivity|]. intros i h Hh. simpl in Hh. discriminate.
  - cbn [createHorses].
    pose proof (new_fields index (User.id user) (User.name user) (User.color user)
                  (index =? selected) T raceDistance k) as Hnew.
    cbv zeta in Hnew.
    destruct (HorseState.new random index (User.id user) (User.name user)
                (User.color user) (index =? selected) T raceDistance k) as [h0 k0].
    specialize (IH (index + 1) selected T k0). cbv zeta in IH.
    destruct (createHorses random rest (index + 1) selected T k0) as [hs k1].
    cbn [fst snd] in *. destruct IH as [IHlen IHall].
    split; [simpl; rewrite IHlen; reflexivity|].
    intros i h Hh. destruct i as [|i]; simpl in Hh.
    + injection Hh as <-. exists user. split; [reflexivity|].
      destruct Hnew as (_ & H2 & H3 & H4 & H5 & H6 & H7).
      rewrite Z.add_0_r. repeat split; assumption.
    + destruct (IHall i h Hh) as (u & Hu & H2 & H3 & H4 & H5 & H6 & H7).
      exists u. split; [exact Hu|].
      replace (index + Z.of_nat (S i)) with (index + 1 + Z.of_nat i) by lia.
      repeat split; assumption.
Qed.
End CreateFacts.

Section StartFacts.
Import Race.

Lemma update_identity (h : HorseState.t) (e d : Q) :
  HorseState.userId (HorseState.update h e d) = HorseState.userId h /\
  HorseState.userName (HorseState.update h e d) = HorseState.userName h /\
  HorseState.index (HorseState.update h e d) = HorseState.index h.
Proof.
  unfold HorseState.update. destruct (HorseState.moved h e d) as [[? ?] ?]. cbn. auto.
Qed.

Lemma lanes_no_completion (hs : list HorseState.t) :
  List.filter isOnComplete
    (flat_map (fun h => [HorsePlaced (HorseState.userId h) startLineX;
                         HorseClassAdded (HorseState.userId h) "racing"]) hs) = [].
Proof. induction hs as [|h rest IH]; [reflexivity | exact IH]. Qed.
End StartFacts.

(** The state [Race.race] leaves when it starts a race, in terms of the
    state [r3] after the first frame. *)
Lemma race_started (random : nat -> Q) (dateNow isoNow : string) (now D : Q)
    (onComplete : option Race.Callback) (r : Race.t) :
  Race.isRacing r = false ->
  (2 <= length (Race.users r))%nat ->
  (2 <= length (Storage.getEnabledUsers (Race.storage r)))%nat ->
  (forall j, (0 <= random j)%Q /\ (random j < 1)%Q) ->
  Race.spinDurationMs (Race.storage r) = Some D ->
  (0 < D)%Q ->
  let us := Storage.getEnabledUsers (Race.storage r) in
  exists (r3 : Race.t) (i : Z) (hs : list HorseState.t),
    Race.race random dateNow isoNow now onComplete r
    = (Race.Normal,
       Race.set_raceTimeoutId (Some (Race.nextHandle r3))
         (snd (Race.schedule (Race.SafetyTask onComplete) r3))) /\
    0 <= i < Z.of_nat (length us) /\
    length hs = length us /\
    (forall j h, hs !! j = Some h ->
       exists u, us !! j = Some u /\
         HorseState.userId h = User.id u /\
         HorseState.userName h = User.name u /\
         HorseState.isWinner h = (0 + Z.of_nat j =? i) /\
         HorseState.totalDuration h = D /\
         HorseState.raceDistance h = Race.raceDistance /\
         HorseState.position h = 50%Q) /\
    Race.horses r3 = map (fun h => HorseState.update h (now - now) 16) hs /\
    Race.animationFrameId r3 = Some (Race.nextHandle r) /\
    Race.timers r3 = <[Race.nextHandle r := Race.AnimateTask onComplete]>
                       (Race.timers (Race.cleanup r)) /\
    Race.nextHandle r3 = S (Race.nextHandle r) /\
    Race.isRacing r3 = true /\
    length (List.filter isOnComplete (Race.log r3))
    = length (List.filter isOnComplete (Race.log r)) /\
    Race.storage r3 = Race.storage r /\
    Race.users r3 = us /\
    Race.selectedUser r3 = Race.userAt us i /\
    Race.selectedIndex r3 = i /\
    Race.duration r3 = D /\
    Race.startTime r3 = Some now.
Proof.
  intros Hr Hcached Hen Hrand HD Hdur us.
  unfold Race.race. rewrite Hr. cbn [orb].
  destruct (Z.ltb_spec (Z.of_nat (length (Race.users r))) 2) as [Habs|_]; [lia|].
  destruct (cleanup_fields r)
    as (C1 & C2 & C3 & C4 & C5 & C6 & C7 & C8 & C9 & C10 & C11 & C12 & C13).
  set (r0 := Race.cleanup r) in *.
  cbn [Race.set_users Race.users Race.storage]. rewrite C6. fold us.
  destruct (Z.ltb_spec (Z.of_nat (length us)) 2) as [Habs|_]; [subst us; lia|].
  unfold Race.getRandomUserIndex. race_fields. rewrite C6, HD. race_fields.
  rewrite ?C6, ?C9.
  pose proof (randomUserIndex_range random us
                (Storage.getLastSelected (Race.storage r)) (Race.randomCalls r)
                Hrand ltac:(subst us; lia)) as Hrange.
  destruct (randomUserIndex random us (Storage.getLastSelected (Race.storage r))
              (Race.randomCalls r)) as [i k] eqn:Eg.
  cbn [fst] in Hrange. race_fields.
  pose proof (createHorses_spec random us 0 i D k) as Hcreate. cbv zeta in Hcreate.
  destruct (Race.createHorses random us 0 i D k) as [hs k'] eqn:Ec.
  cbn [fst] in Hcreate. destruct Hcreate as [Hlen Hhorses].
  race_fields.
  match goal with
  | |- context [Race.animate dateNow isoNow now onComplete ?s] => set (r2 := s)
  end.
  assert (Hmid := animate_midrace dateNow isoNow now now onComplete r2).
  assert (H2r : Race.isRacing r2 = true) by reflexivity.
  assert (H2s : Race.startTime r2 = Some now) by reflexivity.
  assert (H2d : (now - now < Race.duration r2)%Q).
  { subst r2. race_fields. lra. }
  specialize (Hmid H2r H2s H2d). cbv zeta in Hmid.
  destruct (Race.animate dateNow isoNow now onComplete r2) as [c r3].
  cbn [fst snd] in Hmid.
  destruct Hmid as (M0 & M1 & M2 & M3 & M4 & M5 & M6 & M7 & M8 & M9 & M10 & M11
                    & M12 & M13 & M14 & M15).
  subst c. exists r3, i, hs.
  split; [reflexivity|]. split; [exact Hrange|]. split; [exact Hlen|].
  split; [exact Hhorses|].
  subst r2. unfold completions in M7. race_fields.
  rewrite C10 in *. rewrite C6 in *.
  split; [exact M1|]. split; [exact M2|]. split; [exact M3|]. split; [exact M4|].
  split; [exact M6|].
  split.
  { rewrite M7, C12. rewrite !List.filter_app, !length_app, lanes_no_completion.
    simpl. lia. }
  split; [exact M8|]. split; [exact M9|]. split; [exact M10|]. split; [exact M11|].
  split; [exact M13 | exact M14].
Qed.

(** X21.  With no race running, at least two users drawn, at least two
    enabled users stored, a stored duration setting that is a number (or a
    boolean) and gives a positive duration, and random numbers in [0, 1),
    [Race.race] starts a race: it returns normally with
    [isRacing] set, the user list refreshed from storage, a selected index
    inside the list with [selectedUser] the user there, one motion state
    per user in order of which exactly the one at the selected index is
    the winner, the frame callback and the safety timeout pending under
    fresh handles, and neither the storage nor the number of completion
    calls changed.  A further [Race.race] call in that state changes
    nothing. *)
Theorem race_starts (random : nat -> Q) (dateNow isoNow dateNow' isoNow' : string)
    (now now' D : Q) (onComplete onComplete' : option Race.Callback) (r : Race.t) :
  Race.isRacing r = false ->
  (2 <= length (Race.users r))%nat ->
  (2 <= length (Storage.getEnabledUsers (Race.storage r)))%nat ->
  (forall j, (0 <= random j)%Q /\ (random j < 1)%Q) ->
  Race.spinDurationMs (Race.storage r) = Some D ->
  (0 < D)%Q ->
  let res := Race.race random dateNow isoNow now onComplete r in
  let r' := snd res in
  fst res = Race.Normal /\
  Race.isRacing r' = true /\
  Race.users r' = Storage.getEnabledUsers (Race.storage r) /\
  Race.duration r' = D /\
  0 <= Race.selectedIndex r' < Z.of_nat (length (Race.users r')) /\
  Race.selectedUser r' = Race.userAt (Race.users r') (Race.selectedIndex r') /\
  is_Some (Race.selectedUser r') /\
  length (Race.horses r') = length (Race.users r') /\
  (forall i h, Race.horses r' !! i = Some h ->
     exists u, Race.users r' !! i = Some u /\
       HorseState.userId h = User.id u /\
       HorseState.isWinner h = (Z.of_nat i =? Race.selectedIndex r') /\
       HorseState.raceDistance h = Race.raceDistance /\
       HorseState.totalDuration h = Race.duration r') /\
  Race.animationFrameId r' = Some (Race.nextHandle r) /\
  Race.raceTimeoutId r' = Some (S (Race.nextHandle r)) /\
  Race.timers r' !! Race.nextHandle r = Some (Race.AnimateTask onComplete) /\
  Race.timers r' !! S (Race.nextHandle r) = Some (Race.SafetyTask onComplete) /\
  Race.storage r' = Race.storage r /\
  completions r' = completions r /\
  Race.race random dateNow' isoNow' now' onComplete' r' = (Race.Normal, r').
Proof.
  intros Hr Hcached Hen Hrand HD Hdur res r'. subst r' res.
  destruct (race_started random dateNow isoNow now D onComplete r
              Hr Hcached Hen Hrand HD Hdur)
    as (r3 & i & hs & Heq & Hrange & Hlen & Hhorses & M1 & M2 & M3 & M4 & M6 & M7
        & M8 & M9 & M10 & M11 & M13 & _).
  rewrite Heq. race_fields.
  rewrite M6, M9, M13, M10, M11, M2, M4, M8.
  set (us := Storage.getEnabledUsers (Race.storage r)) in *.
  assert (Hsel : is_Some (Race.userAt us i)).
  { unfold Race.userAt. destruct (Z.ltb_spec i 0) as [Hneg|_]; [lia|].
    apply lookup_lt_is_Some. lia. }
  split; [reflexivity|]. split; [reflexivity|]. split; [reflexivity|].
  split; [reflexivity|]. split; [exact Hrange|]. split; [reflexivity|].
  split; [exact Hsel|].
  split; [rewrite M1, length_map; exact Hlen|].
  split.
  { intros j h Hh. rewrite M1, list_lookup_fmap in Hh.
    destruct (hs !! j) as [h0|] eqn:Eh; [|discriminate].
    cbn in Hh. injection Hh as <-.
    destruct (Hhorses j h0 Eh) as (u & Hu & H1 & _ & H3 & H4 & H5 & _).
    exists u. split; [exact Hu|].
    destruct (update_identity h0 (now - now) 16) as (Hid & _ & _).
    rewrite Hid, update_isWinner, update_raceDistance, update_totalDuration.
    rewrite Z.add_0_l in H3. repeat split; assumption. }
  split; [reflexivity|]. split; [reflexivity|].
  split.
  { rewrite M3. rewrite lookup_insert_ne by lia. apply lookup_insert_eq. }
  split; [apply lookup_insert_eq|].
  split; [reflexivity|].
  split.
  { unfold completions in *. race_fields. exact M7. }
  unfold Race.race. race_fields. reflexivity.
Qed.

Lemma race_starts_witness :
  Race.isRacing
    (snd (Race.race (fun _ => 1 # 2) "1700000500000" "2023-11-14T22:21:40.000Z" 5000
                    (Some Samples.displayResult) (Race.initial Samples.twoEnabled)))
  = true.
Proof.
  apply (race_starts (fun _ => 1 # 2) "1700000500000" "2023-11-14T22:21:40.000Z"
           "1700000500001" "2023-11-14T22:21:40.001Z" 5000 5001 (1 * 1000)
           (Some Samples.displayResult) None (Race.initial Samples.twoEnabled)).
  - reflexivity.
  - vm_compute. lia.
  - vm_compute. lia.
  - intros j. split; discriminate || reflexivity.
  - reflexivity.
  - reflexivity.
Defined.

Section CompletionFacts.
Import Race.

Lemma addSpinEntry_last (userId userName dateNow isoNow : string)
    (data : gmap string Storage.Value) :
  let data' := snd (Storage.addSpinEntry userId userName dateNow isoNow data) in
  Storage.getLastSelected data' = Some userId /\
  last (Storage.getHistory data')
  = Some (fst (Storage.addSpinEntry userId userName dateNow isoNow data)) /\
  (forall key : string, key <> Storage.HISTORY -> key <> Storage.LAST_SELECTED ->
                        data' !! key = data !! key).
Proof.
  cbv zeta. pose (c := HistoryOps.mkCall userId userName dateNow isoNow).
  change (snd (Storage.addSpinEntry userId userName dateNow isoNow data))
    with (HistoryOps.append data c).
  split; [apply getLastSelected_append|]. split.
  - rewrite getHistory_append. cbv zeta.
    change (HistoryOps.entryOf (Z.of_nat (length (Storage.getHistory data)) + 1) c)
      with (fst (Storage.addSpinEntry userId userName dateNow isoNow data)).
    destruct (Z.of_nat (length (Storage.getHistory data ++ _)) >? 500) eqn:Hgt.
    + apply last_tail_snoc. intros Hnil. rewrite Hnil in Hgt. discriminate Hgt.
    + apply last_snoc.
  - intros key Hh Hl. apply (append_frame data c key Hh Hl).
Qed.

(** [completeRace] on a running race with a selected winner, with or
    without a callback. *)
Lemma completeRace_effects dateNow isoNow (onComplete : option Callback)
    (winner : User.t) (r : t) :
  isRacing r = true ->
  selectedUser r = Some winner ->
  let r' := snd (completeRace dateNow isoNow onComplete r) in
  fst (completeRace dateNow isoNow onComplete r) = Normal /\
  isRacing r' = false /\
  animationFrameId r' = None /\
  raceTimeoutId r' = None /\
  users r' = users r /\
  selectedUser r' = Some winner /\
  completions r' = (completions r + match onComplete with Some _ => 1 | None => 0 end)%nat /\
  storage r' = snd (Storage.addSpinEntry (User.id winner) (User.name winner)
                                         dateNow isoNow (storage r)) /\
  nextHandle r' = S (nextHandle r) /\
  timers r'
  = <[nextHandle r := FanfareTask]>
      (match raceTimeoutId r with
       | Some ht => delete ht
       | None => fun m => m
       end (match animationFrameId r with
            | Some hf => delete hf (timers r)
            | None => timers r
            end)).
Proof.
  intros Hr Hw. unfold completeRace. rewrite Hr. cbn [negb].
  unfold releaseTimeout, releaseFrame, completions. race_fields.
  destruct (animationFrameId r) as [hf|] eqn:Ef; race_fields;
    destruct (raceTimeoutId r) as [ht|] eqn:Et; race_fields;
    rewrite Hw; unfold highlightWinner; race_fields;
    destruct onComplete as [cb|]; race_fields;
    (repeat split; try reflexivity; try assumption;
     rewrite !List.filter_app, !length_app; simpl; lia).
Qed.

Lemma animateAll_midrace dateNow isoNow (start : Q) onComplete (times : list Q) :
  forall r : t,
    isRacing r = true ->
    startTime r = Some start ->
    Forall (fun t => (t - start < duration r)%Q) times ->
    let r' := animateAll dateNow isoNow times onComplete r in
    isRacing r' = true /\ startTime r' = Some start /\
    duration r' = duration r /\ selectedUser r' = selectedUser r /\
    selectedIndex r' = selectedIndex r /\ users r' = users r /\
    storage r' = storage r /\ completions r' = completions r /\
    length (horses r') = length (horses r) /\
    raceTimeoutId r' = raceTimeoutId r.
Proof.
  induction times as [|t rest IH]; intros r Hr Hs Hall; cbv zeta.
  - repeat split; assumption || reflexivity.
  - apply Forall_cons in Hall. destruct Hall as [Ht Hrest].
    destruct (animate_midrace dateNow isoNow t start onComplete r Hr Hs Ht)
      as (_ & M1 & _ & _ & _ & _ & M6 & M7 & M8 & M9 & M10 & M11 & M12 & M13 & M14 & _).
    unfold animateAll. simpl.
    set (r1 := snd (animate dateNow isoNow t onComplete r)) in *.
    fold (animateAll dateNow isoNow rest onComplete r1).
    destruct (IH r1 M6) as (I1 & I2 & I3 & I4 & I5 & I6 & I7 & I8 & I9 & I10).
    { rewrite M14. exact Hs. }
    { rewrite M13. exact Hrest. }
    rewrite I3, I4, I5, I6, I7, I8, I9, I10, M13, M10, M11, M9, M8, M7, M12, M1,
      length_map.
    repeat split; assumption.
Qed.
End CompletionFacts.

(** What [completeRace] stores for the winner. *)
Lemma completion_recorded (dateNow isoNow : string)
    (onComplete : option Race.Callback) (winner : User.t) (r : Race.t) :
  Race.isRacing r = true ->
  Race.selectedUser r = Some winner ->
  let res := Race.completeRace dateNow isoNow onComplete r in
  let data' := Race.storage (snd res) in
  fst res = Race.Normal /\
  Storage.getLastSelected data' = Some (User.id winner) /\
  (exists e, last (Storage.getHistory data') = Some e /\
             Entry.userId e = User.id winner /\
             Entry.userName e = User.name winner) /\
  (exists e, last (Storage.getHistory data') = Some e /\
             Entry.id e = dateNow /\ Entry.timestamp e = isoNow) /\
  (forall key : string, key <> Storage.HISTORY -> key <> Storage.LAST_SELECTED ->
                        data' !! key = Race.storage r !! key).
Proof.
  intros Hr Hw res data'. subst data' res.
  destruct (completeRace_effects dateNow isoNow onComplete winner r Hr Hw)
    as (E1 & _ & _ & _ & _ & _ & _ & E8 & _ & _).
  destruct (addSpinEntry_last (User.id winner) (User.name winner) dateNow isoNow
              (Race.storage r)) as (A1 & A2 & A3).
  rewrite E8.
  split; [exact E1|]. split; [exact A1|].
  split; [eexists; split; [exact A2 | split; reflexivity]|].
  split; [eexists; split; [exact A2 | split; reflexivity]|].
  exact A3.
Qed.

(** X22.  When a running race with a selected winner is completed, with
    or without a callback, the winner is recorded: the newest history
    entry carries the winner's id and name and the clock readings of the
    call, the stored last-selected id is the winner's, no other key of the
    namespace changes, the callback (if any) is called once, and the race
    can be started again as soon as two users are enabled. *)
Theorem completion_records_winner (dateNow isoNow : string)
    (onComplete : option Race.Callback) (winner : User.t) (r : Race.t) :
  Race.isRacing r = true ->
  Race.selectedUser r = Some winner ->
  let res := Race.completeRace dateNow isoNow onComplete r in
  let data' := Race.storage (snd res) in
  fst res = Race.Normal /\
  Storage.getLastSelected data' = Some (User.id winner) /\
  (exists e, last (Storage.getHistory data') = Some e /\
             Entry.userId e = User.id winner /\
             Entry.userName e = User.name winner /\
             Entry.id e = dateNow /\ Entry.timestamp e = isoNow) /\
  (forall key : string, key <> Storage.HISTORY -> key <> Storage.LAST_SELECTED ->
                        data' !! key = Race.storage r !! key) /\
  completions (snd res)
  = (completions r + match onComplete with Some _ => 1 | None => 0 end)%nat /\
  Race.canRace (snd res)
  = (Z.of_nat (length (Storage.getEnabledUsers (Race.storage r))) >=? 2).
Proof.
  intros Hr Hw res data'. subst data' res.
  destruct (completeRace_effects dateNow isoNow onComplete winner r Hr Hw)
    as (E1 & E2 & _ & _ & _ & _ & E7 & E8 & _ & _).
  destruct (addSpinEntry_last (User.id winner) (User.name winner) dateNow isoNow
              (Race.storage r)) as (A1 & A2 & A3).
  rewrite E8.
  split; [exact E1|]. split; [exact A1|].
  split; [eexists; split; [exact A2 | repeat split]|].
  split; [exact A3|]. split; [exact E7|].
  unfold Race.canRace. rewrite E2, E8. cbn [negb]. rewrite andb_true_r.
  unfold Storage.getEnabledUsers, Storage.getUsers, Storage._getNamespaceKey.
  rewrite A3 by (unfold Storage.USERS, Storage.HISTORY, Storage.LAST_SELECTED; discriminate).
  reflexivity.
Qed.

Lemma completion_records_winner_witness :
  Storage.getLastSelected
    (Race.storage
       (snd (Race.completeRace "1700000501000" "2023-11-14T22:21:41.000Z"
               (Some Samples.displayResult) Samples.startedRace)))
  = Some (User.id Samples.bob).
Proof.
  apply (completion_records_winner "1700000501000" "2023-11-14T22:21:41.000Z"
           (Some Samples.displayResult) Samples.bob Samples.startedRace).
  - vm_compute. reflexivity.
  - vm_compute. reflexivity.
Defined.



(** X24.  [cleanup()] stops whatever is going on: [isRacing] is reset, the
    motion states are dropped, both handles are released and their
    callbacks cancelled, so that a cancelled handle that fires later, a
    late frame or a late safety timeout does nothing; users, storage and
    the number of completion calls are untouched. *)
Theorem cleanup_cancels (dateNow isoNow : string) (currentTime : Q)
    (onComplete : option Race.Callback) (r : Race.t) (handle : nat) :
  let r' := Race.cleanup r in
  Race.isRacing r' = false /\
  Race.horses r' = [] /\
  Race.animationFrameId r' = None /\
  Race.raceTimeoutId r' = None /\
  Race.users r' = Race.users r /\
  Race.storage r' = Race.storage r /\
  completions r' = completions r /\
  (Race.animationFrameId r = Some handle \/ Race.raceTimeoutId r = Some handle ->
   Race.timers r' !! handle = None /\
   Race.fire dateNow isoNow currentTime handle r' = (Race.Normal, r')) /\
  Race.animate dateNow isoNow currentTime onComplete r' = (Race.Normal, r') /\
  Race.safetyTimeout dateNow isoNow onComplete r' = (Race.Normal, r').
Proof.
  cbv zeta.
  destruct (cleanup_fields r)
    as (C1 & C2 & C3 & C4 & C5 & C6 & C7 & C8 & C9 & C10 & C11 & C12 & C13).
  split; [exact C1|]. split; [exact C2|]. split; [exact C3|]. split; [exact C4|].
  split; [exact C5|]. split; [exact C6|].
  split.
  { unfold completions. rewrite C12, List.filter_app, length_app. simpl. lia. }
  split.
  { intros Hh.
    assert (Hgone : Race.timers (Race.cleanup r) !! handle = None).
    { rewrite C13. destruct Hh as [Hf|Ht].
      - rewrite Hf. destruct (Race.raceTimeoutId r) as [ht|].
        + destruct (decide (ht = handle)) as [->|Hne];
            [apply lookup_delete_eq | rewrite lookup_delete_ne by exact Hne;
                                      apply lookup_delete_eq].
        + apply lookup_delete_eq.
      - rewrite Ht. apply lookup_delete_eq. }
    split; [exact Hgone|]. unfold Race.fire. rewrite Hgone. reflexivity. }
  split.
  - unfold Race.animate. rewrite C1. reflexivity.
  - unfold Race.safetyTimeout. rewrite C1. reflexivity.
Qed.

(** X25.  A whole race.  After [Race.race] has started a race (under the
    hypotheses of X21) with a callback, any frames before the end leave the race running and
    the selection as it is; the first frame at or after the duration ends
    the race: the callback is called exactly once, with the user selected
    at the start, that user becomes the newest history entry and the
    stored last-selected id, and the safety timeout that fires afterwards
    changes nothing. *)
Theorem race_cycle (random : nat -> Q)
    (dateNow isoNow dateEnd isoEnd dateLate isoLate : string)
    (now endTime D : Q) (times : list Q) (cb : Race.Callback) (r : Race.t) :
  Race.isRacing r = false ->
  (2 <= length (Race.users r))%nat ->
  (2 <= length (Storage.getEnabledUsers (Race.storage r)))%nat ->
  (forall j, (0 <= random j)%Q /\ (random j < 1)%Q) ->
  Race.spinDurationMs (Race.storage r) = Some D ->
  (0 < D)%Q ->
  Forall (fun t => (t - now < D)%Q) times ->
  (D <= endTime - now)%Q ->
  let started := snd (Race.race random dateNow isoNow now (Some cb) r) in
  let running := animateAll dateEnd isoEnd times (Some cb) started in
  let ended := snd (Race.animate dateEnd isoEnd endTime (Some cb) running) in
  exists winner,
    Race.selectedUser started = Some winner /\
    In winner (Storage.getEnabledUsers (Race.storage r)) /\
    Race.isRacing running = true /\
    completions running = completions r /\
    Race.isRacing ended = false /\
    completions ended = S (completions r) /\
    last (Race.log ended) = Some (Race.OnComplete cb winner) /\
    Storage.getLastSelected (Race.storage ended) = Some (User.id winner) /\
    (exists e, last (Storage.getHistory (Race.storage ended)) = Some e /\
               Entry.userId e = User.id winner /\
               Entry.userName e = User.name winner) /\
    Race.safetyTimeout dateLate isoLate (Some cb) ended = (Race.Normal, ended).
Proof.
  intros Hr Hcached Hen Hrand HD Hdur Htimes Hend started running ended.
  destruct (race_started random dateNow isoNow now D (Some cb) r
              Hr Hcached Hen Hrand HD Hdur)
    as (r3 & i & hs & Heq & Hrange & Hlen & Hhorses & M1 & M2 & M3 & M4 & M6 & M7
        & M8 & M9 & M10 & M11 & M13 & M14).
  set (us := Storage.getEnabledUsers (Race.storage r)) in *.
  assert (Hsel : exists winner, Race.userAt us i = Some winner /\ In winner us).
  { unfold Race.userAt. destruct (Z.ltb_spec i 0) as [Hneg|_]; [lia|].
    destruct (lookup_lt_is_Some_2 us (Z.to_nat i) ltac:(lia)) as [w Hw].
    exists w. split; [exact Hw|]. apply list_elem_of_In.
    eapply list_elem_of_lookup_2. exact Hw. }
  destruct Hsel as (winner & Hwin & Hin).
  assert (Hstarted : Race.isRacing started = true /\
                     Race.startTime started = Some now /\
                     Race.duration started = D /\
                     Race.selectedUser started = Some winner /\
                     completions started = completions r).
  { subst started. rewrite Heq. unfold completions. race_fields.
    rewrite M6, M14, M13, M10, Hwin, M7. repeat split; reflexivity. }
  destruct Hstarted as (S1 & S2 & S3 & S4 & S5).
  destruct (animateAll_midrace dateEnd isoEnd now (Some cb) times started S1 S2)
    as (R1 & R2 & R3 & R4 & _ & _ & _ & R8 & _ & _).
  { rewrite S3. exact Htimes. }
  fold running in R1, R2, R3, R4, R8.
  assert (Hended : ended
                   = snd (Race.completeRace dateEnd isoEnd (Some cb)
                            (Race.set_times (Some now) (Some endTime) running))).
  { subst ended. unfold Race.animate. rewrite R1, R2. cbn [negb].
    cbn [Race.set_times Race.duration]. rewrite R3, S3.
    apply Qgeb_true in Hend. rewrite Hend. reflexivity. }
  set (final := Race.set_times (Some now) (Some endTime) running) in *.
  assert (F1 : Race.isRacing final = true) by exact R1.
  assert (F2 : Race.selectedUser final = Some winner)
    by (unfold final; cbn [Race.set_times Race.selectedUser]; rewrite R4; exact S4).
  destruct (completeRace_running dateEnd isoEnd cb winner final F1 F2)
    as (_ & E2 & _ & _ & E5 & E6 & _).
  destruct (completion_recorded dateEnd isoEnd (Some cb) winner final F1 F2)
    as (_ & A1 & A2 & _).
  rewrite <- Hended in E2, E5, E6, A1, A2.
  exists winner.
  split; [exact S4|]. split; [exact Hin|]. split; [exact R1|].
  split; [rewrite R8; exact S5|]. split; [exact E2|].
  split; [rewrite E5; unfold final, completions; cbn [Race.set_times Race.log];
          fold (completions running); rewrite R8, S5; reflexivity|].
  split; [exact E6|]. split; [exact A1|]. split; [exact A2|].
  unfold Race.safetyTimeout. rewrite E2. reflexivity.
Qed.

Lemma race_cycle_witness :
  let started :=
    snd (Race.race (fun _ => 1 # 2) "1700000500000" "2023-11-14T22:21:40.000Z" 5000
                   (Some Samples.displayResult) (Race.initial Samples.twoEnabled)) in
  let running :=
    animateAll "1700000501000" "2023-11-14T22:21:41.000Z" [5016; 5032]%Q
               (Some Samples.displayResult) started in
  let ended :=
    snd (Race.animate "1700000501000" "2023-11-14T22:21:41.000Z" 6000
                      (Some Samples.displayResult) running) in
  exists winner,
    Race.selectedUser started = Some winner /\
    In winner (Storage.getEnabledUsers (Race.storage (Race.initial Samples.twoEnabled))) /\
    Race.isRacing running = true /\
    completions running = completions (Race.initial Samples.twoEnabled) /\
    Race.isRacing ended = false /\
    completions ended = S (completions (Race.initial Samples.twoEnabled)) /\
    last (Race.log ended) = Some (Race.OnComplete Samples.displayResult winner) /\
    Storage.getLastSelected (Race.storage ended) = Some (User.id winner) /\
    (exists e, last (Storage.getHistory (Race.storage ended)) = Some e /\
               Entry.userId e = User.id winner /\
               Entry.userName e = User.name winner) /\
    Race.safetyTimeout "1700000501016" "2023-11-14T22:21:41.016Z"
                       (Some Samples.displayResult) ended
    = (Race.Normal, ended).
Proof.
  apply (race_cycle (fun _ => 1 # 2) "1700000500000" "2023-11-14T22:21:40.000Z"
           "1700000501000" "2023-11-14T22:21:41.000Z"
           "1700000501016" "2023-11-14T22:21:41.016Z" 5000 6000 (1 * 1000)
           [5016; 5032]%Q Samples.displayResult (Race.initial Samples.twoEnabled)).
  - reflexivity.
  - vm_compute. lia.
  - vm_compute. lia.
  - intros j. split; discriminate || reflexivity.
  - reflexivity.
  - reflexivity.
  - repeat constructor.
  - discriminate.
Defined.
